(** * Agent orchestration core: routing extraction, step executor,
      dispatcher, orchestrator and queue consumers.

    A shallow embedding of the Python sources
    - agents/utility/util_classes.py
    - agents/app/activity_workflow.py
    - agents/app/activity_queue.py
    - agents/orchestrators/orchestrator_main.py
    - agents/agents.py
    into Rocq, followed by the properties proved about them.

    Python values are dynamically typed, so record fields hold [value]s;
    dictionaries are finite maps with string keys; a call that can raise
    returns a [result]; logging and calls to external collaborators are
    collected in a trace of [event]s. *)

From Stdlib Require Import ZArith Floats.SpecFloat.
From stdpp Require Import gmap strings list fin_maps pretty.

Open Scope string_scope.

(* ===================================================================== *)
(** ** Python values, truthiness, exceptions                             *)
(* ===================================================================== *)

Module Py.

(** The JSON-like fragment of Python's value domain that flows through the
    sources: what [json.loads] produces and what a queue message carries. *)
#[warnings="-register-all"]
Inductive value : Type :=
  | VNone
  | VBool (b : bool)
  | VInt (n : Z)
  | VFloat (f : spec_float)
  | VStr (s : string)
  | VList (l : list value)
  | VDict (d : gmap string value).

(** [bool(v)]: what [if v] and [not v] test. *)
Definition truthy (v : value) : bool :=
  match v with
  | VNone => false
  | VBool b => b
  | VInt n => negb (n =? 0)%Z
  | VFloat (S754_zero _) => false
  | VFloat _ => true
  | VStr s => negb (String.eqb s "")
  | VList l => match l with [] => false | _ :: _ => true end
  | VDict d => negb (bool_decide (d = ∅))
  end.

(** [v == "s"] for a string literal: only a [str] equals a [str]. *)
Definition eq_str (v : value) (s : string) : bool :=
  match v with
  | VStr s' => String.eqb s' s
  | _ => false
  end.

(** [a or b]. *)
Definition or_else (a b : value) : value := if truthy a then a else b.

Definition isinstance_dict (v : value) : bool :=
  match v with VDict _ => true | _ => false end.

Definition isinstance_str (v : value) : bool :=
  match v with VStr _ => true | _ => false end.

Definition type_name (v : value) : string :=
  match v with
  | VNone => "NoneType"
  | VBool _ => "bool"
  | VInt _ => "int"
  | VFloat _ => "float"
  | VStr _ => "str"
  | VList _ => "list"
  | VDict _ => "dict"
  end.

(** A [str] is a sequence of code points; the texts here hold their UTF-8
    encoding, in which the bytes 10xxxxxx continue the code point begun
    before them. *)
Definition is_continuation (c : Ascii.ascii) : bool :=
  let n := Ascii.nat_of_ascii c in (128 <=? n)%nat && (n <? 192)%nat.

(** [len(s)]: the number of code points of [s]. *)
Fixpoint py_len (s : string) : nat :=
  match s with
  | "" => 0
  | String c s' => if is_continuation c then py_len s' else S (py_len s')
  end.

(** [s[:n]]: the first [n] code points of [s]. *)
Fixpoint py_take (n : nat) (s : string) : string :=
  match s with
  | "" => ""
  | String c s' =>
      if is_continuation c then String c (py_take n s')
      else match n with
           | O => ""
           | S n' => String c (py_take n' s')
           end
  end.

(** An exception: its class and the text [str(e)] gives. *)
Inductive exn : Type := Exception (cls msg : string).

Definition str_exn (e : exn) : string := let 'Exception _ msg := e in msg.

(** What [except json.JSONDecodeError] catches. *)
Definition is_JSONDecodeError (e : exn) : bool :=
  let 'Exception cls _ := e in String.eqb cls "JSONDecodeError".

Inductive result (A : Type) : Type :=
  | Ok (a : A)
  | Raise (e : exn).
Arguments Ok {A} a.
Arguments Raise {A} e.

Definition is_ok {A} (r : result A) : bool :=
  match r with Ok _ => true | Raise _ => false end.

Definition AttributeError (v : value) (attr : string) : exn :=
  Exception "AttributeError"
    ("'" ++ type_name v ++ "' object has no attribute '" ++ attr ++ "'").

(** [v.get(k, dflt)]: defined on dictionaries only. *)
Definition get (v : value) (k : string) (dflt : value) : result value :=
  match v with
  | VDict d => Ok (default dflt (d !! k))
  | _ => Raise (AttributeError v "get")
  end.

(** [v[0]]. *)
Definition index0 (v : value) : result value :=
  match v with
  | VList (x :: _) => Ok x
  | VList [] => Raise (Exception "IndexError" "list index out of range")
  | VStr "" => Raise (Exception "IndexError" "string index out of range")
  | VStr s => Ok (VStr (py_take 1 s))
  | VDict _ => Raise (Exception "KeyError" "0")
  | _ => Raise (Exception "TypeError"
                  ("'" ++ type_name v ++ "' object is not subscriptable"))
  end.

(** What the interpreter and the [json] module provide and the sources
    call.  [json_loads] returns the parsed value or raises: a
    [JSONDecodeError] on a text that is not JSON, and whatever else the
    parser raises ([RecursionError] on a text nested too deep, [ValueError]
    on a number with too many digits); [str_other] is [str(v)] on the
    values that are not strings. *)
Class Runtime : Type := {
  json_loads : string -> result value;
  json_dumps : value -> string;
  str_other : value -> string;
}.

(** [str(v)], as an f-string placeholder [{v}] renders it. *)
Definition str `{Runtime} (v : value) : string :=
  match v with
  | VStr s => s
  | _ => str_other v
  end.

End Py.
Export Py.

(* ===================================================================== *)
(** ** agents/utility/util_classes.py                                    *)
(* ===================================================================== *)

Module util_classes.

Record TokenUsage : Type := {
  prompt_tokens : value;
  completion_tokens : value;
  total_tokens : value;
}.

(** What the orchestrator should queue next. *)
Record NextAction : Type := {
  target_queue : value;
  payload : value;
}.

(** Standardized input for the workflow activity. *)
Record AgentWorkflowInput : Type := {
  wi_agent_type : value;
  wi_payload : value;
}.

(** Agent execution result + workflow routing. *)
Record AgentResponse : Type := {
  status : value;
  responses : value;
  thread_id : value;
  reason : value;
  usage : option TokenUsage;
  tool_calls : value;
  inference_rounds : value;
  agent_type : value;
  model_name : value;
  next_action : option NextAction;
}.

(** The constructor with the dataclass defaults of the optional fields. *)
Definition mkAgentResponse (st rs : value) : AgentResponse :=
  {| status := st; responses := rs; thread_id := VNone; reason := VNone;
     usage := None; tool_calls := VInt 0; inference_rounds := VInt 0;
     agent_type := VNone; model_name := VNone; next_action := None |}.

(** [dataclasses.asdict]: nested dataclasses become dictionaries, [None]
    stays [None], lists and dictionaries are copied as they are. *)
Definition asdict_TokenUsage (u : TokenUsage) : value :=
  VDict (list_to_map
    [("prompt_tokens", prompt_tokens u);
     ("completion_tokens", completion_tokens u);
     ("total_tokens", total_tokens u)]).

Definition asdict_NextAction (a : NextAction) : value :=
  VDict (list_to_map
    [("target_queue", target_queue a); ("payload", payload a)]).

Definition asdict (r : AgentResponse) : value :=
  VDict (list_to_map
    [("status", status r);
     ("responses", responses r);
     ("thread_id", thread_id r);
     ("reason", reason r);
     ("usage", from_option asdict_TokenUsage VNone (usage r));
     ("tool_calls", tool_calls r);
     ("inference_rounds", inference_rounds r);
     ("agent_type", agent_type r);
     ("model_name", model_name r);
     ("next_action", from_option asdict_NextAction VNone (next_action r))]).

(** [TokenUsage] called with the mapping [v] unpacked as keyword arguments:
    [v] must be a mapping whose keys are exactly the three fields. *)
Definition TokenUsage_kwargs (v : value) : result TokenUsage :=
  match v with
  | VDict d =>
      match d !! "prompt_tokens", d !! "completion_tokens",
            d !! "total_tokens" with
      | Some p, Some c, Some t =>
          if (size d =? 3)%nat
          then Ok {| prompt_tokens := p; completion_tokens := c;
                     total_tokens := t |}
          else Raise (Exception "TypeError"
                 "TokenUsage.__init__() got an unexpected keyword argument")
      | _, _, _ =>
          Raise (Exception "TypeError"
            "TokenUsage.__init__() missing required positional arguments")
      end
  | _ => Raise (Exception "TypeError"
           "argument after ** must be a mapping")
  end.

(** [NextAction] called with the mapping [v] unpacked as keyword
    arguments. *)
Definition NextAction_kwargs (v : value) : result NextAction :=
  match v with
  | VDict d =>
      match d !! "target_queue", d !! "payload" with
      | Some q, Some p =>
          if (size d =? 2)%nat
          then Ok {| target_queue := q; payload := p |}
          else Raise (Exception "TypeError"
                 "NextAction.__init__() got an unexpected keyword argument")
      | _, _ =>
          Raise (Exception "TypeError"
            "NextAction.__init__() missing required positional arguments")
      end
  | _ => Raise (Exception "TypeError"
           "argument after ** must be a mapping")
  end.

(** The conditional [X(data[k] unpacked) if data.get(k) else None]. *)
Definition optional_field {A} (kwargs : value -> result A)
    (d : gmap string value) (k : string) : result (option A) :=
  let v := default VNone (d !! k) in
  if truthy v then
    match kwargs v with
    | Ok a => Ok (Some a)
    | Raise e => Raise e
    end
  else Ok None.

(** [AgentResponse.from_dict]: convert dict back to AgentResponse object. *)
Definition from_dict (data : value) : result AgentResponse :=
  match data with
  | VDict d =>
      match optional_field TokenUsage_kwargs d "usage" with
      | Raise e => Raise e
      | Ok u =>
          match optional_field NextAction_kwargs d "next_action" with
          | Raise e => Raise e
          | Ok na =>
              Ok {| status := default (VStr "error") (d !! "status");
                    responses := default (VList []) (d !! "responses");
                    thread_id := default VNone (d !! "thread_id");
                    reason := default VNone (d !! "reason");
                    usage := u;
                    tool_calls := default (VInt 0) (d !! "tool_calls");
                    inference_rounds :=
                      default (VInt 0) (d !! "inference_rounds");
                    agent_type := default VNone (d !! "agent_type");
                    model_name := default VNone (d !! "model_name");
                    next_action := na |}
          end
      end
  | _ => Raise (AttributeError data "get")
  end.

End util_classes.
Export util_classes.

(* ===================================================================== *)
(** ** Effects: logging, calls to collaborators, exceptions              *)
(* ===================================================================== *)

Module Effects.

(** Levels of the [logging] module; [logging.exception] logs at [ERROR]. *)
Inductive level : Type := DEBUG | INFO | WARNING | ERROR.

(** What a run leaves behind: log records and calls made to collaborators
    outside the process (telemetry, the queue transport, [time.sleep]). *)
Inductive event : Type :=
  | Log (lv : level) (msg : string)
  | Call (fn : string) (args : list value).

(** A computation that logs, calls out, and returns or raises. *)
Definition M (A : Type) : Type := list event * result A.

#[global] Instance M_ret : MRet M := fun A a => ([], Ok a).

#[global] Instance M_bind : MBind M := fun A B f m =>
  match m with
  | (t, Ok a) => let '(t', r) := f a in ((t ++ t')%list, r)
  | (t, Raise e) => (t, Raise e)
  end.

Definition lift {A} (r : result A) : M A := ([], r).

Definition raise {A} (e : exn) : M A := ([], Raise e).

Definition log (lv : level) (msg : string) : M unit := ([Log lv msg], Ok tt).

Definition call (fn : string) (args : list value) : M unit :=
  ([Call fn args], Ok tt).

(** [try: body  except Exception as e: handler(e)]. *)
Definition try_except {A} (body : M A) (handler : exn -> M A) : M A :=
  match body with
  | (t, Raise e) => let '(t', r) := handler e in ((t ++ t')%list, r)
  | (t, Ok a) => (t, Ok a)
  end.

Definition trace {A} (m : M A) : list event := fst m.
Definition outcome {A} (m : M A) : result A := snd m.

Definition is_call (fn : string) (ev : event) : bool :=
  match ev with
  | Call fn' _ => String.eqb fn' fn
  | Log _ _ => false
  end.

(** The calls in a trace, in order, the log records left out. *)
Definition calls_only (t : list event) : list event :=
  List.filter (fun ev => match ev with Call _ _ => true | Log _ _ => false end) t.

(** The calls to [fn] in a trace, in order. *)
Definition calls_to (fn : string) (t : list event) : list event :=
  List.filter (is_call fn) t.

End Effects.
Export Effects.

(* ===================================================================== *)
(** ** agents/utility/util_agents.py: the backend interface              *)
(* ===================================================================== *)

Module util_agents.

(** Protocol for pluggable AI backends.  [execute] returns an
    [AgentResponse], nothing ([None]), or raises. *)
Class AIBackend : Type := {
  execute : string -> value -> value -> result (option AgentResponse);
}.

(** Azure AI Agents Service backend (placeholder). *)
Definition AzureAIAgentsBackend : AIBackend :=
  {| execute := fun _ _ _ =>
       Raise (Exception "NotImplementedError"
                "Azure AI Agents backend not yet implemented") |}.

End util_agents.
Export util_agents.

(* ===================================================================== *)
(** ** agents/app/activity_workflow.py                                   *)
(* ===================================================================== *)

Module activity_workflow.

(** The collaborators of the step executor: the clock, the instructions
    directory ([Ok None]: no such file) and the backend factory. *)
Class Collaborators : Type := {
  utcnow : Z;
  read_instructions : string -> result (option string);
  get_backend : result AIBackend;
}.

(** The telemetry collaborator [shared.util_token_tracking]: called with
    [model_name; input_tokens; output_tokens; agent_type; started_at;
    inference_rounds], it may log, and return or raise. *)
Class Telemetry : Type := {
  track_token_usage : list value -> M value;
}.

Section workflow.
Context `{Runtime} `{Collaborators} `{Telemetry}.

(** Load system prompt from instructions directory. *)
Definition _load_system_prompt (agent_type : value) : M string :=
  prompt_file ← lift (read_instructions (str agent_type ++ ".system.md"));
  match prompt_file with
  | Some text => mret text
  | None =>
      _ ← log WARNING ("No system prompt found for agent: " ++ str agent_type);
      mret ("You are a " ++ str agent_type
              ++ " agent. Process the input and return a JSON response.")
  end.

(** The tail of [_determine_next_action], from the [next_action] lookup on. *)
Definition _routing_of (agent_type : value) (first_response : value)
    : M (option NextAction) :=
  agent_next_action ←
    (if isinstance_dict first_response
     then lift (get first_response "next_action" VNone)
     else mret VNone);
  if negb (truthy agent_next_action) || negb (isinstance_dict agent_next_action)
  then mret None
  else
    target_queue ← lift (get agent_next_action "target_queue" VNone);
    if negb (truthy target_queue) || eq_str target_queue "none"
    then mret None
    else
      payload ← lift (get agent_next_action "payload" (VDict ∅));
      _ ← log INFO ("Agent " ++ str agent_type ++ " routing to: "
                      ++ str target_queue);
      mret (Some {| target_queue := target_queue; payload := payload |}).

(** The middle of [_determine_next_action]: a string is parsed; a
    [JSONDecodeError] ends the extraction with a warning, any other
    exception of the parser is not caught. *)
Definition _parse_and_route (agent_type : value) (first_response : value)
    : M (option NextAction) :=
  match first_response with
  | VStr s =>
      match json_loads s with
      | Ok parsed => _routing_of agent_type parsed
      | Raise e =>
          if is_JSONDecodeError e then
            _ ← log WARNING ("Agent " ++ str agent_type
                               ++ " returned non-JSON response");
            mret None
          else raise e
      end
  | _ => _routing_of agent_type first_response
  end.

(** Extract routing decision from agent response. *)
Definition _determine_next_action (agent_type : value)
    (response : AgentResponse) : M (option NextAction) :=
  first_response ←
    (if truthy (responses response)
     then lift (index0 (responses response))
     else mret (VDict ∅));
  let first_response :=
    match first_response with
    | VDict d =>
        match d !! "raw" with
        | Some raw => raw
        | None => first_response
        end
    | _ => first_response
    end in
  _parse_and_route agent_type first_response.

(** The arguments [_track_usage] passes to the telemetry collaborator. *)
Definition _track_args (response : AgentResponse) (u : TokenUsage)
    (agent_type : value) (started_at : Z) : list value :=
  [or_else (model_name response) (VStr "unknown");
   prompt_tokens u; completion_tokens u; agent_type;
   VInt started_at; inference_rounds response].

(** Track token usage (fail-safe). *)
Definition _track_usage (response : AgentResponse) (agent_type : value)
    (started_at : Z) : M unit :=
  try_except
    (match usage response with
     | Some u =>
         let args := _track_args response u agent_type started_at in
         _ ← call "track_token_usage" args;
         _ ← track_token_usage args;
         mret tt
     | None => mret tt
     end)
    (fun e => log WARNING ("Failed to track token usage: " ++ str_exn e)).

(** [len(v)]. *)
Definition len (v : value) : result Z :=
  match v with
  | VStr s => Ok (Z.of_nat (py_len s))
  | VList l => Ok (Z.of_nat (length l))
  | VDict d => Ok (Z.of_nat (size d))
  | _ => Raise (Exception "TypeError"
                  ("object of type '" ++ type_name v ++ "' has no len()"))
  end.

(** The error response both failure paths build. *)
Definition error_response (reason_text : string) (agent_type : value)
    : AgentResponse :=
  {| status := VStr "error"; responses := VList []; thread_id := VNone;
     reason := VStr reason_text; usage := None; tool_calls := VInt 0;
     inference_rounds := VInt 0; agent_type := agent_type;
     model_name := VNone; next_action := None |}.

Definition set_agent_type (r : AgentResponse) (a : value) : AgentResponse :=
  {| status := status r; responses := responses r; thread_id := thread_id r;
     reason := reason r; usage := usage r; tool_calls := tool_calls r;
     inference_rounds := inference_rounds r; agent_type := a;
     model_name := model_name r; next_action := next_action r |}.

Definition set_next_action (r : AgentResponse) (na : option NextAction)
    : AgentResponse :=
  {| status := status r; responses := responses r; thread_id := thread_id r;
     reason := reason r; usage := usage r; tool_calls := tool_calls r;
     inference_rounds := inference_rounds r; agent_type := agent_type r;
     model_name := model_name r; next_action := na |}.

(** [[{"role": "user", "content": json.dumps(payload)}]]. *)
Definition _user_messages (payload : value) : value :=
  VList [VDict (list_to_map
    [("role", VStr "user"); ("content", VStr (json_dumps payload))])].

(** The body of the [try] block of [run_agent_workflow]. *)
Definition _run_body (input_data : AgentWorkflowInput) (started_at : Z)
    : M value :=
  let agent_type := wi_agent_type input_data in
  system_prompt ← _load_system_prompt agent_type;
  backend ← lift get_backend;
  let messages := _user_messages (wi_payload input_data) in
  agent_response ← lift (@execute backend system_prompt messages (VList []));
  match agent_response with
  | None =>
      _ ← log ERROR ("No response from agent: " ++ str agent_type);
      mret (asdict (error_response
              ("No response from agent: " ++ str agent_type) agent_type))
  | Some agent_response =>
      let agent_response := set_agent_type agent_response agent_type in
      na ← _determine_next_action agent_type agent_response;
      let agent_response := set_next_action agent_response na in
      _ ← _track_usage agent_response agent_type started_at;
      n ← lift (len (responses agent_response));
      _ ← log INFO
            ("Agent workflow completed: " ++ str agent_type
               ++ " | status=" ++ str (status agent_response)
               ++ " | responses=" ++ str (VInt n)
               ++ " | next="
               ++ match next_action agent_response with
                  | Some a => str (target_queue a)
                  | None => "none"
                  end);
      mret (asdict agent_response)
  end.

(** Universal agent execution activity. *)
Definition run_agent_workflow (workflowInput : value) : M value :=
  a ← lift (get workflowInput "agent_type" VNone);
  p ← lift (get workflowInput "payload" (VDict ∅));
  let input_data := {| wi_agent_type := a; wi_payload := p |} in
  let agent_type := wi_agent_type input_data in
  _ ← log INFO ("Running agent workflow: " ++ str agent_type);
  let started_at := utcnow in
  try_except (_run_body input_data started_at)
    (fun e =>
       _ ← log ERROR ("Agent workflow failed: " ++ str agent_type);
       mret (asdict (error_response (str_exn e) agent_type))).

End workflow.

End activity_workflow.
Export activity_workflow.

(* ===================================================================== *)
(** ** agents/app/activity_queue.py                                      *)
(* ===================================================================== *)

Module activity_queue.

(** The Service Bus transport: the [attempt]-th delivery of [body] to
    [queue] over the connection either goes through or raises. *)
Class Transport : Type := {
  SERVICE_BUS_CONNECTION_STRING : option string;
  send_messages : nat -> string -> value -> string -> result unit;
}.

Section queue.
Context `{Runtime} `{Transport}.

Definition max_retries : nat := 3.
Definition retry_delays : list Z := [2; 5; 10]%Z.

(** [for attempt in attempts: ...], the retry loop of [queue_message];
    falling off the end of the loop returns [None]. *)
Fixpoint _retry_loop (conn : string) (queue_name payload : value)
    (attempts : list nat) : M value :=
  match attempts with
  | [] => mret VNone
  | attempt :: rest =>
      let body := json_dumps payload in
      _ ← call "send_messages" [queue_name; VStr body];
      match send_messages attempt conn queue_name body with
      | Ok _ =>
          _ ← log INFO ("Queued message to '" ++ str queue_name
                          ++ "' (attempt "
                          ++ str (VInt (Z.of_nat attempt + 1)) ++ ")");
          mret (VDict (list_to_map
                  [("status", VStr "success");
                   ("queue", queue_name);
                   ("attempts", VInt (Z.of_nat attempt + 1))]))
      | Raise e =>
          let is_last_attempt := (attempt =? max_retries - 1)%nat in
          if is_last_attempt then
            _ ← log ERROR ("Failed to queue message to '" ++ str queue_name
                             ++ "' after "
                             ++ str (VInt (Z.of_nat max_retries))
                             ++ " attempts: " ++ str_exn e);
            mret (VDict (list_to_map
                    [("status", VStr "error");
                     ("reason", VStr (str_exn e));
                     ("attempts", VInt (Z.of_nat max_retries))]))
          else
            match retry_delays !! attempt with
            | None =>
                raise (Exception "IndexError" "list index out of range")
            | Some delay =>
                _ ← log WARNING
                      ("Queue attempt " ++ str (VInt (Z.of_nat attempt + 1))
                         ++ " failed, retrying in " ++ str (VInt delay)
                         ++ "s: " ++ str_exn e);
                _ ← call "time.sleep" [VInt delay];
                _retry_loop conn queue_name payload rest
            end
      end
  end.

(** Generic activity to send a message to any Service Bus queue. *)
Definition queue_message (queueInput : value) : M value :=
  queue_name ← lift (get queueInput "queue" VNone);
  payload ← lift (get queueInput "payload" (VDict ∅));
  if negb (truthy queue_name) then
    mret (VDict (list_to_map
            [("status", VStr "error");
             ("reason", VStr "No queue name provided")]))
  else
    match SERVICE_BUS_CONNECTION_STRING with
    | Some conn =>
        if negb (String.eqb conn "") then
          _retry_loop conn queue_name payload (seq 0 max_retries)
        else
          _ ← log ERROR "SERVICE_BUS_CONNECTION_STRING not configured";
          mret (VDict (list_to_map
                  [("status", VStr "error");
                   ("reason", VStr "Service Bus not configured")]))
    | None =>
        _ ← log ERROR "SERVICE_BUS_CONNECTION_STRING not configured";
        mret (VDict (list_to_map
                [("status", VStr "error");
                 ("reason", VStr "Service Bus not configured")]))
    end.

End queue.

End activity_queue.
Export activity_queue.

(* ===================================================================== *)
(** ** Suspendable functions: generators and coroutines                  *)
(* ===================================================================== *)

Module Suspend.

(** A function that suspends at the operations [E] of its host (a [yield]
    of the orchestrator, an [await] of a queue consumer) and is resumed
    with the operation's result or with the exception it raised. *)
Inductive prog (E : Type -> Type) (A : Type) : Type :=
  | Ret (a : A)
  | Throw (e : exn)
  | Tell (lv : level) (msg : string) (k : prog E A)
  | Vis {X : Type} (op : E X) (k : result X -> prog E A).
Arguments Ret {E A} a.
Arguments Throw {E A} e.
Arguments Tell {E A} lv msg k.
Arguments Vis {E A X} op k.

Fixpoint bind {E A B} (m : prog E A) (f : A -> prog E B) : prog E B :=
  match m with
  | Ret a => f a
  | Throw e => Throw e
  | Tell lv msg k => Tell lv msg (bind k f)
  | Vis op k => Vis op (fun r => bind (k r) f)
  end.

#[global] Instance prog_ret {E} : MRet (prog E) := fun A a => Ret a.
#[global] Instance prog_bind {E} : MBind (prog E) := fun A B f m => bind m f.

(** Suspend at [op]; an exception raised by the operation is raised at the
    point of suspension. *)
Definition perform {E X} (op : E X) : prog E X :=
  Vis op (fun r => match r with Ok x => Ret x | Raise e => Throw e end).

Definition tell {E} (lv : level) (msg : string) : prog E unit :=
  Tell lv msg (Ret tt).

Definition of_result {E A} (r : result A) : prog E A :=
  match r with Ok a => Ret a | Raise e => Throw e end.

(** [try: body  except Exception as e: handler(e)]. *)
Fixpoint try_catch {E A} (body : prog E A) (handler : exn -> prog E A)
    : prog E A :=
  match body with
  | Ret a => Ret a
  | Throw e => handler e
  | Tell lv msg k => Tell lv msg (try_catch k handler)
  | Vis op k => Vis op (fun r => try_catch (k r) handler)
  end.

End Suspend.
Export Suspend.

(* ===================================================================== *)
(** ** azure.durable_functions, as the sources use it                    *)
(* ===================================================================== *)

Module df.

Inductive OrchestrationRuntimeStatus : Type :=
  | Running | Completed | ContinuedAsNew | Failed | Canceled | Terminated
  | Pending | Suspended.

#[global] Instance OrchestrationRuntimeStatus_eq_dec :
  EqDecision OrchestrationRuntimeStatus.
Proof. solve_decision. Defined.

(** What [client.get_status] answers. *)
Record DurableOrchestrationStatus : Type := {
  runtime_status : option OrchestrationRuntimeStatus;
  output : value;
}.

(** The orchestration context: [context.call_activity(name, input)]. *)
Inductive contextE : Type -> Type :=
  | call_activity (name : string) (input : value) : contextE value.

(** The orchestration client: [client.get_status(instance_id)] and
    [client.start_new(name, instance_id, client_input)]. *)
Inductive clientE : Type -> Type :=
  | get_status (instance_id : string)
      : clientE (option DurableOrchestrationStatus)
  | start_new (name instance_id : string) (client_input : value)
      : clientE string.

(** How the runtime records the end of a run: an orchestrator function
    that returns ends [Completed], with the returned value as output; one
    that raises ends [Failed]. *)
Definition final_status (end_ : result value) : OrchestrationRuntimeStatus :=
  match end_ with
  | Ok _ => Completed
  | Raise _ => Failed
  end.

(** Run an orchestrator function to its end, every activity answered by
    [activity]; the trace lists the log records and the activities called. *)
Fixpoint run_orchestrator (activity : string -> value -> result value)
    (p : prog contextE value) : M value :=
  match p with
  | Ret v => mret v
  | Throw e => raise e
  | Tell lv msg k =>
      _ ← log lv msg; run_orchestrator activity k
  | Vis op k =>
      match op in contextE X return (result X -> prog contextE value) -> M value
      with
      | call_activity name input => fun k =>
          _ ← call name [input];
          run_orchestrator activity (k (activity name input))
      end k
  end.

End df.
Export df.

(* ===================================================================== *)
(** ** agents/orchestrators/orchestrator_main.py                         *)
(* ===================================================================== *)

Module orchestrator_main.

Section orchestrator.
Context `{Runtime}.

(** Step 2 of the main flow: check for [next_action] routing. *)
Definition _route (triage_result : value) : prog contextE unit :=
  next_action ← of_result (get triage_result "next_action" VNone);
  if truthy next_action then
    target_queue ← of_result (get next_action "target_queue" VNone);
    payload ← of_result (get next_action "payload" (VDict ∅));
    if truthy target_queue && negb (eq_str target_queue "none") then
      _ ← perform (call_activity "queue_message"
             (VDict (list_to_map
                [("queue", target_queue); ("payload", payload)])));
      tell INFO ("Routed to queue: " ++ str target_queue)
    else mret tt
  else mret tt.

(** Main orchestration flow. *)
Definition main_orchestrator (input_data : value) : prog contextE value :=
  event_type ← of_result (get input_data "event_type" (VStr "unknown"));
  _ ← tell INFO ("Main orchestrator started: event_type=" ++ str event_type);
  triage_result ← perform (call_activity "run_agent_workflow"
    (VDict (list_to_map
       [("agent_type", VStr "triage"); ("payload", input_data)])));
  status ← of_result (get triage_result "status" VNone);
  if eq_str status "error" then
    reason ← of_result (get triage_result "reason" VNone);
    _ ← tell ERROR ("Triage failed: " ++ str reason);
    mret (VDict (list_to_map
            [("status", VStr "error"); ("reason", reason)]))
  else
    _ ← _route triage_result;
    mret (VDict (list_to_map
            [("status", VStr "completed");
             ("event_type", event_type);
             ("triage_result", triage_result)])).

(** The input of the triage step for the orchestration input
    [input_data]. *)
Definition triage_input (input_data : value) : value :=
  VDict (list_to_map
    [("agent_type", VStr "triage"); ("payload", input_data)]).

End orchestrator.

End orchestrator_main.
Export orchestrator_main.

(* ===================================================================== *)
(** ** agents/agents.py: the queue consumers                             *)
(* ===================================================================== *)

Module agents.

Section consumers.
Context `{Runtime}.

(** [instance_id = f"orchestrate-{event_type}-{event_id}"]. *)
Definition orchestrate_instance_id (event_type event_id : value) : string :=
  "orchestrate-" ++ str event_type ++ "-" ++ str event_id.

(** [instance_id = f"task-{agent_type}-{task_id}"]. *)
Definition task_instance_id (agent_type task_id : value) : string :=
  "task-" ++ str agent_type ++ "-" ++ str task_id.

(** [status and status.runtime_status in [Running, Pending]]. *)
Definition already_running (status : option DurableOrchestrationStatus)
    : bool :=
  match status with
  | Some st =>
      match runtime_status st with
      | Some Running | Some Pending => true
      | _ => false
      end
  | None => false
  end.

(** [json.loads(msg.get_body().decode('utf-8'))], [msg] being the decoded
    text of the message. *)
Definition _load_body {E} (msg : string) : prog E value :=
  of_result (json_loads msg).

(** Main orchestrator queue consumer: receives triage requests and starts
    the main orchestration. *)
Definition orchestrator_queue_consumer (msg : string) : prog clientE unit :=
  try_catch
    (body ← _load_body msg;
     event_type ← of_result (get body "event_type" (VStr "unknown"));
     event_id ← of_result (get body "event_id" (VStr "unknown"));
     _ ← tell INFO ("Orchestrator queue: event_type=" ++ str event_type
                      ++ ", event_id=" ++ str event_id);
     let instance_id := orchestrate_instance_id event_type event_id in
     status ← perform (get_status instance_id);
     if already_running status then
       tell WARNING ("Orchestration " ++ instance_id ++ " already running")
     else
       _ ← perform (start_new "main_orchestrator" instance_id body);
       tell INFO ("Started orchestration: " ++ instance_id))
    (fun e =>
       _ ← tell ERROR ("Failed to process orchestrator queue message: "
                         ++ str_exn e);
       Throw e).

(** Task queue consumer: receives sub-agent task requests from the
    orchestrator. *)
Definition task_queue_consumer (msg : string) : prog clientE unit :=
  try_catch
    (body ← _load_body msg;
     agent_type ← of_result (get body "agent_type" VNone);
     task_id ← of_result (get body "task_id" (VStr "unknown"));
     _ ← tell INFO ("Task queue: agent=" ++ str agent_type
                      ++ ", task_id=" ++ str task_id);
     let instance_id := task_instance_id agent_type task_id in
     status ← perform (get_status instance_id);
     if already_running status then
       tell WARNING ("Task orchestration " ++ instance_id
                       ++ " already running")
     else
       _ ← perform (start_new "main_orchestrator" instance_id body);
       tell INFO ("Started task orchestration: " ++ instance_id))
    (fun e =>
       _ ← tell ERROR ("Failed to process task queue message: "
                         ++ str_exn e);
       Throw e).

End consumers.

(** Run a consumer to its end against a client that answers each operation
    by [client]; the trace lists the log records and the client calls. *)
Fixpoint run_consumer (client : forall X, clientE X -> result X)
    (p : prog clientE unit) : M unit :=
  match p with
  | Ret a => mret a
  | Throw e => raise e
  | Tell lv msg k => _ ← log lv msg; run_consumer client k
  | Vis op k =>
      _ ← match op with
          | get_status instance_id =>
              call "get_status" [VStr instance_id]
          | start_new name instance_id client_input =>
              call "start_new" [VStr name; VStr instance_id; client_input]
          end;
      run_consumer client (k (client _ op))
  end.

End agents.
Export agents.

(* ===================================================================== *)
(** ** The Instance Registry and its workers                             *)
(* ===================================================================== *)

Module registry.

(** Modelled from the spec: the Instance Registry, the durable mapping
    from instance key to lifecycle state behind the orchestration client,
    which is not part of the sources.  [started] lists the runs begun, in
    order. *)
Record store : Type := {
  records : gmap string OrchestrationRuntimeStatus;
  started : list (string * string * value);
}.

Definition empty_store : store := {| records := ∅; started := [] |}.

(** The record of the key says a run is in flight. *)
Definition in_flight (st : store) (instance_id : string) : bool :=
  match records st !! instance_id with
  | Some Running | Some Pending => true
  | _ => false
  end.

(** Modelled from the spec: [get(key)] reads the record of the key.  A
    start is one check-then-set on the record: when the record of the key
    is [Pending] or [Running] no second run is started and nothing
    changes (a duplicate start is not an error); otherwise the record is
    created, or moved, to [Pending] and the run begins. *)
Definition answer {X} (op : clientE X) (st : store) : result X * store :=
  match op with
  | get_status instance_id =>
      (Ok (match records st !! instance_id with
           | Some s => Some {| runtime_status := Some s; output := VNone |}
           | None => None
           end), st)
  | start_new name instance_id client_input =>
      if in_flight st instance_id then (Ok instance_id, st)
      else
        (Ok instance_id,
         {| records := <[instance_id := Pending]> (records st);
            started :=
              (started st ++ [(name, instance_id, client_input)])%list |})
  end.

(** A worker between two client operations: its log records are local. *)
Fixpoint settle {A} (p : prog clientE A) : prog clientE A :=
  match p with
  | Tell _ _ k => settle k
  | _ => p
  end.

(** One scheduling step: the worker performs its next client operation on
    the shared store and runs on to the following one.  A worker that has
    ended stays as it is. *)
Definition step {A} (p : prog clientE A) (st : store)
    : prog clientE A * store :=
  match settle p with
  | Vis op k => let '(r, st') := answer op st in (settle (k r), st')
  | q => (q, st)
  end.

(** Workers sharing the store, run in the order the schedule names them. *)
Fixpoint run_schedule {A} (sched : list nat) (workers : list (prog clientE A))
    (st : store) : list (prog clientE A) * store :=
  match sched with
  | [] => (workers, st)
  | i :: rest =>
      match workers !! i with
      | Some p =>
          let '(p', st') := step p st in
          run_schedule rest (<[i := p']> workers) st'
      | None => run_schedule rest workers st
      end
  end.

(** The runs begun under the key [instance_id]. *)
Definition runs_of (instance_id : string) (st : store)
    : list (string * string * value) :=
  List.filter (fun run => String.eqb (snd (fst run)) instance_id) (started st).

(** The instance id [orchestrator_queue_consumer] derives from the message
    body [d]. *)
Definition orchestrate_key `{Runtime} (d : gmap string value) : string :=
  orchestrate_instance_id (default (VStr "unknown") (d !! "event_type"))
    (default (VStr "unknown") (d !! "event_id")).

(** The entry of [started] for a run begun from the message body [d]. *)
Definition run_of `{Runtime} (d : gmap string value)
    : string * string * value :=
  ("main_orchestrator", orchestrate_key d, VDict d).

(** The runs of a key a store holds or can still take: those begun, and
    one more while none is in flight. *)
Definition room (key : string) (st : store) : nat :=
  length (runs_of key st) + (if in_flight st key then 0 else 1).

(** The ways of interleaving two workers of two client operations each. *)
Definition interleavings : list (list nat) :=
  [[0; 0; 1; 1]; [0; 1; 0; 1]; [0; 1; 1; 0];
   [1; 0; 0; 1]; [1; 0; 1; 0]; [1; 1; 0; 0]]%nat.

End registry.
Export registry.

(* ===================================================================== *)
(** ** The durable step log                                              *)
(* ===================================================================== *)

Module step_log.

Section engine.
(** The world the activities act on. *)
Variable W : Type.
Variable activity : string -> value -> W -> result value * W.

(** Modelled from the spec: the durable step log of one orchestration run,
    kept by the engine that drives the orchestrator function and not part
    of the sources.  [history] holds the recorded result of every step
    completed so far; [executed] lists the activities actually run. *)
Record run_state : Type := {
  history : list (result value);
  world : W;
  executed : list (string * value);
}.

Definition fresh (w : W) : run_state :=
  {| history := []; world := w; executed := [] |}.

(** Modelled from the spec: on resumption the orchestrator function runs
    again from its start and every step found in the log is answered by
    its recorded result instead of being executed. *)
Fixpoint replay (p : prog contextE value) (h : list (result value))
    : prog contextE value :=
  match p with
  | Tell lv msg k => Tell lv msg (replay k h)
  | Vis op k =>
      match h with
      | [] => Vis op k
      | r :: h' =>
          match op in contextE X
                return (result X -> prog contextE value) -> prog contextE value
          with
          | call_activity _ _ => fun k => replay (k r) h'
          end k
      end
  | _ => p
  end.

(** Modelled from the spec: a step is executed and its result recorded in
    the log before the next step begins. *)
Definition execute_step (name : string) (input : value) (st : run_state)
    : result value * run_state :=
  let '(r, w') := activity name input (world st) in
  (r, {| history := (history st ++ [r])%list;
         world := w';
         executed := (executed st ++ [(name, input)])%list |}).

(** Run on from position [p] for at most [n] new steps; [None]: the
    process was interrupted at a step boundary. *)
Fixpoint advance (n : nat) (p : prog contextE value) (st : run_state)
    : option (result value) * run_state :=
  match p with
  | Ret v => (Some (Ok v), st)
  | Throw e => (Some (Raise e), st)
  | Tell _ _ k => advance n k st
  | Vis op k =>
      match n with
      | O => (None, st)
      | S n' =>
          match op in contextE X
                return (result X -> prog contextE value)
                       -> option (result value) * run_state
          with
          | call_activity name input => fun k =>
              let '(r, st') := execute_step name input st in
              advance n' (k r) st'
          end k
      end
  end.

(** Run on from position [p] to the end, without interruption. *)
Fixpoint complete (p : prog contextE value) (st : run_state)
    : result value * run_state :=
  match p with
  | Ret v => (Ok v, st)
  | Throw e => (Raise e, st)
  | Tell _ _ k => complete k st
  | Vis op k =>
      match op in contextE X
            return (result X -> prog contextE value)
                   -> result value * run_state
      with
      | call_activity name input => fun k =>
          let '(r, st') := execute_step name input st in
          complete (k r) st'
      end k
  end.

(** A run interrupted after [n] new steps for each [n] of [budgets], in
    turn, and resumed from the log each time; the last resumption runs to
    the end. *)
Fixpoint run_interrupted (orchestrator : prog contextE value)
    (budgets : list nat) (st : run_state) : result value * run_state :=
  match budgets with
  | [] => complete (replay orchestrator (history st)) st
  | n :: rest =>
      match advance n (replay orchestrator (history st)) st with
      | (Some r, st') => (r, st')
      | (None, st') => run_interrupted orchestrator rest st'
      end
  end.

End engine.

Arguments history {W} _.
Arguments world {W} _.
Arguments executed {W} _.
Arguments fresh {W} w.
Arguments execute_step {W} activity name input st.
Arguments advance {W} activity n p st.
Arguments complete {W} activity p st.
Arguments run_interrupted {W} activity orchestrator budgets st.

End step_log.
Export step_log.

(* ===================================================================== *)
(** ** Concrete collaborators for the examples                           *)
(* ===================================================================== *)

Module fixture.

Definition dq : string := String (Ascii.ascii_of_nat 34) "".
Definition quoted (s : string) : string := dq ++ s ++ dq.

(** The queue message of the spec's end-to-end scenario and its parse. *)
Definition order_msg : string :=
  "{" ++ quoted "event_type" ++ ": " ++ quoted "order" ++ ", "
      ++ quoted "event_id" ++ ": " ++ quoted "42" ++ "}".

Definition order_body : value :=
  VDict (list_to_map [("event_type", VStr "order"); ("event_id", VStr "42")]).

(** The routing text of the spec's extraction example and its parse. *)
Definition routing_text : string :=
  "{" ++ quoted "next_action" ++ ": {" ++ quoted "target_queue" ++ ": "
      ++ quoted "agent-tasks" ++ ", " ++ quoted "payload" ++ ": {"
      ++ quoted "x" ++ ":1}}}".

Definition routing_value : value :=
  VDict (list_to_map
    [("next_action",
      VDict (list_to_map
        [("target_queue", VStr "agent-tasks");
         ("payload", VDict (list_to_map [("x", VInt 1)]))]))]).

Definition known_texts : list (string * value) :=
  [(order_msg, order_body); (routing_text, routing_value)].

(** A text of a thousand opening brackets: too deep for the parser. *)
Definition deep_text : string := String.concat "" (List.repeat "[" 1000).

(** A runtime that parses the texts above as [json.loads] does, gives up
    on [deep_text] with a [RecursionError] as [json.loads] does, and
    takes every other text as malformed. *)
Definition runtime : Runtime :=
  {| json_loads := fun s =>
       match List.find (fun kv => String.eqb (fst kv) s) known_texts with
       | Some kv => Ok (snd kv)
       | None =>
           if String.eqb s deep_text
           then Raise (Exception "RecursionError"
                  "maximum recursion depth exceeded while decoding a JSON array from a unicode string")
           else Raise (Exception "JSONDecodeError"
                  "Expecting value: line 1 column 1 (char 0)")
       end;
     json_dumps := fun _ => "{}";
     str_other := fun v =>
       match v with
       | VNone => "None"
       | VBool true => "True"
       | VBool false => "False"
       | VInt n => pretty n
       | _ => "<object>"
       end |}.

(** A backend that answers nothing. *)
Definition silent_backend : AIBackend :=
  {| execute := fun _ _ _ => Ok None |}.

Definition collaborators (b : result AIBackend) : Collaborators :=
  {| utcnow := 0; read_instructions := fun _ => Ok None; get_backend := b |}.

(** A transport whose first [fails] attempts fail. *)
Definition flaky_transport (fails : nat) : Transport :=
  {| SERVICE_BUS_CONNECTION_STRING := Some "Endpoint=sb://test";
     send_messages := fun attempt _ _ _ =>
       if (attempt <? fails)%nat
       then Raise (Exception "ServiceBusError" "connection reset")
       else Ok tt |}.

(** The dispatch of the spec's end-to-end scenario. *)
Definition results_input : gmap string value :=
  list_to_map
    [("queue", VStr "agent-results");
     ("payload", VDict (list_to_map [("summary", VStr "ok")]))].

(** A triage step that fails: the activity answers status error. *)
Definition failing_triage (name : string) (input : value) : result value :=
  Ok (VDict (list_to_map
        [("status", VStr "error"); ("reason", VStr "backend down")])).

(** A client for which every instance is running. *)
Definition busy_client (X : Type) (op : clientE X) : result X :=
  match op with
  | get_status _ =>
      Ok (Some {| runtime_status := Some Running; output := VNone |})
  | start_new _ instance_id _ => Ok instance_id
  end.

(** A telemetry collaborator that is down. *)
Definition failing_telemetry : Telemetry :=
  {| track_token_usage := fun _ =>
       raise (Exception "ConnectionError" "telemetry unavailable") |}.

End fixture.

(* ===================================================================== *)
(** ** Texts without a hyphen                                            *)
(* ===================================================================== *)

Module key_spec.

(** No character of [s] is the hyphen (code 45), the separator the
    instance ids are built with. *)
Fixpoint no_hyphen (s : string) : bool :=
  match s with
  | "" => true
  | String c s' => negb (Ascii.eqb c (Ascii.ascii_of_nat 45)) && no_hyphen s'
  end.

End key_spec.
Export key_spec.

(* ===================================================================== *)
(** ** What the dispatcher leaves behind, for the statements below       *)
(* ===================================================================== *)

Module dispatch_spec.

Section replies.
Context `{Runtime}.

(** One delivery attempt for the input [d] of [queue_message]. *)
Definition send_call (d : gmap string value) : event :=
  Call "send_messages"
    [default VNone (d !! "queue");
     VStr (json_dumps (default (VDict ∅) (d !! "payload")))].

Definition sleep_call (seconds : Z) : event :=
  Call "time.sleep" [VInt seconds].

Definition success_reply (d : gmap string value) (attempts : Z) : value :=
  VDict (list_to_map
    [("status", VStr "success");
     ("queue", default VNone (d !! "queue"));
     ("attempts", VInt attempts)]).

Definition exhausted_reply (e : exn) : value :=
  VDict (list_to_map
    [("status", VStr "error");
     ("reason", VStr (str_exn e));
     ("attempts", VInt 3)]).

Definition config_error_reply (reason_text : string) : value :=
  VDict (list_to_map
    [("status", VStr "error"); ("reason", VStr reason_text)]).

End replies.

End dispatch_spec.
Export dispatch_spec.

(* ===================================================================== *)
(** ** The routing decision in the words of the specification            *)
(* ===================================================================== *)

Module routing_spec.

Section routing.
Context `{Runtime}.

(** Step 1: a mapping with key [raw] is unwrapped to that value. *)
Definition unwrap_raw (v : value) : value :=
  match v with
  | VDict d => default v (d !! "raw")
  | _ => v
  end.

(** What the parser raises on [v] that is not a [JSONDecodeError], if
    [v] is a text and the parser raises such a thing. *)
Definition parse_escape (v : value) : option exn :=
  match v with
  | VStr s =>
      match json_loads s with
      | Ok _ => None
      | Raise e => if is_JSONDecodeError e then None else Some e
      end
  | _ => None
  end.

(** Step 2: a string is parsed as structured data; [None] on failure. *)
Definition parse_if_string (v : value) : option value :=
  match v with
  | VStr s =>
      match json_loads s with
      | Ok parsed => Some parsed
      | Raise _ => None
      end
  | _ => Some v
  end.

(** Step 3: a mapping with key [next_action] whose value is a mapping with
    a non-empty [target_queue] other than "none" gives a [NextAction] of
    [target_queue] and [payload] (default: the empty mapping). *)
Definition routing_target (v : value) : option NextAction :=
  match v with
  | VDict d =>
      match d !! "next_action" with
      | Some (VDict na) =>
          match na !! "target_queue" with
          | Some q =>
              if truthy q && negb (eq_str q "none")
              then Some {| target_queue := q;
                           payload := default (VDict ∅) (na !! "payload") |}
              else None
          | None => None
          end
      | _ => None
      end
  | _ => None
  end.

(** The three steps applied to the first element of [responses], if any. *)
Definition routing_decision (first : option value) : option NextAction :=
  v ← first; parsed ← parse_if_string (unwrap_raw v); routing_target parsed.

End routing.

End routing_spec.
Export routing_spec.

(* ===================================================================== *)
(** ** What the orchestrator leaves behind, for the statements below     *)
(* ===================================================================== *)

Module orchestrator_spec.

Section replies.
Context `{Runtime}.

(** The input of the dispatch step for the [next_action] mapping [na]. *)
Definition dispatch_input (na : gmap string value) : value :=
  VDict (list_to_map
    [("queue", default VNone (na !! "target_queue"));
     ("payload", default (VDict ∅) (na !! "payload"))]).

(** The input of the dispatch step for the routing decision [a]. *)
Definition dispatch_of (a : NextAction) : value :=
  VDict (list_to_map
    [("queue", target_queue a); ("payload", payload a)]).

(** What the orchestrator returns after a triage step that did not fail. *)
Definition completed_reply (d : gmap string value) (triage_result : value)
    : value :=
  VDict (list_to_map
    [("status", VStr "completed");
     ("event_type", default (VStr "unknown") (d !! "event_type"));
     ("triage_result", triage_result)]).

(** The first log record of a run. *)
Definition started_log (d : gmap string value) : event :=
  Log INFO ("Main orchestrator started: event_type="
              ++ str (default (VStr "unknown") (d !! "event_type"))).

End replies.

End orchestrator_spec.
Export orchestrator_spec.

(* ===================================================================== *)
(** ** The instance id of a task message                                 *)
(* ===================================================================== *)

Module task_spec.

(** The instance id [task_queue_consumer] derives from the message body
    [d]. *)
Definition task_key `{Runtime} (d : gmap string value) : string :=
  task_instance_id (default VNone (d !! "agent_type"))
    (default (VStr "unknown") (d !! "task_id")).

End task_spec.
Export task_spec.

(* ===================================================================== *)
(** ** More concrete collaborators for the examples                      *)
(* ===================================================================== *)

Module scenario.

(** The triage result of the spec's end-to-end scenario. *)
Definition routed_action : gmap string value :=
  list_to_map
    [("target_queue", VStr "agent-results");
     ("payload", VDict (list_to_map [("summary", VStr "ok")]))].

Definition routed_triage : gmap string value :=
  list_to_map
    [("status", VStr "success"); ("next_action", VDict routed_action)].

(** A triage result without routing. *)
Definition unrouted_triage : gmap string value :=
  list_to_map [("status", VStr "success"); ("next_action", VNone)].

Definition order_fields : gmap string value :=
  list_to_map [("event_type", VStr "order"); ("event_id", VStr "42")].

(** Activities: triage answers [triage]; the dispatch answers an error. *)
Definition activities (triage : gmap string value) (name : string)
    (input : value) : result value :=
  if String.eqb name "run_agent_workflow" then Ok (VDict triage)
  else Ok (VDict (list_to_map
             [("status", VStr "error");
              ("reason", VStr "Service Bus not configured")])).

(** Activities whose triage step raises. *)
Definition broken_activities (name : string) (input : value)
    : result value :=
  Raise (Exception "RuntimeError" "activity failed").

(** Activities whose triage step answers [triage_result] as it is. *)
Definition executor_activities (triage_result : value) (name : string)
    (input : value) : result value :=
  if String.eqb name "run_agent_workflow" then Ok triage_result
  else Ok (VDict (list_to_map [("status", VStr "success")])).

(** A client for which every instance has completed. *)
Definition finished_client (X : Type) (op : clientE X) : result X :=
  match op with
  | get_status _ =>
      Ok (Some {| runtime_status := Some Completed; output := VNone |})
  | start_new _ instance_id _ => Ok instance_id
  end.

(** The routing decision of the spec's extraction example. *)
Definition tasks_action : NextAction :=
  {| target_queue := VStr "agent-tasks";
     payload := VDict (list_to_map [("x", VInt 1)]) |}.

(** A backend response that carries the routing text and a routing
    decision of its own. *)
Definition routing_response : AgentResponse :=
  {| status := VStr "success";
     responses := VList [VStr fixture.routing_text];
     thread_id := VNone; reason := VNone; usage := None;
     tool_calls := VInt 0; inference_rounds := VInt 1;
     agent_type := VStr "other"; model_name := VStr "gpt-4o";
     next_action := Some {| target_queue := VStr "elsewhere";
                            payload := VNone |} |}.

Definition routing_backend : AIBackend :=
  {| execute := fun _ _ _ => Ok (Some routing_response) |}.

Definition triage_request : gmap string value :=
  list_to_map [("agent_type", VStr "triage")].

(** An audit collaborator that is down. *)
Definition failing_audit (container_name : string) (event : value)
    : M value :=
  raise (Exception "ConnectionError" "cosmos unavailable").

End scenario.

(* ===================================================================== *)
(** ** agents/utility/util_classes.py: LoadedTools                       *)
(* ===================================================================== *)

Module loaded_tools.

Section tools.
(** What an executor is: any callable. *)
Variable Executor : Type.

(** Tool definitions and executors for an agent.  A field may hold
    [None], which [__add__] reads as empty. *)
Record LoadedTools : Type := {
  definitions : option (list value);
  executors : option (gmap string Executor);
}.

(** [LoadedTools()]: the defaults of both fields. *)
Definition LoadedTools_default : LoadedTools :=
  {| definitions := Some []; executors := Some ∅ |}.

(** [self + other]: the definitions of [other] come first, and of two
    executors of one name the one of [other] is kept. *)
Definition LoadedTools_add (self other : LoadedTools) : LoadedTools :=
  let combined_definitions :=
    (default [] (definitions other) ++ default [] (definitions self))%list in
  let combined_executors :=
    default ∅ (executors other) ∪ default ∅ (executors self) in
  {| definitions := Some combined_definitions;
     executors := Some combined_executors |}.

End tools.

Arguments definitions {Executor} _.
Arguments executors {Executor} _.
Arguments LoadedTools_default {Executor}.
Arguments LoadedTools_add {Executor} self other.

End loaded_tools.
Export loaded_tools.

(* ===================================================================== *)
(** ** agents/utility/util_agents.py: the Azure OpenAI backend           *)
(* ===================================================================== *)

Module azure_openai.

(** The parts of a chat completion the backend reads. *)
Record ChatMessage : Type := {
  content : value;
  message_tool_calls : option (list value);
}.

Record CompletionUsage : Type := {
  cu_prompt_tokens : value;
  cu_completion_tokens : value;
  cu_total_tokens : value;
}.

Record ChatCompletion : Type := {
  choices : list ChatMessage;
  completion_usage : option CompletionUsage;
}.

(** The client of the service: [deployment] is the configured model, and
    [create] is [client.chat.completions.create], called with the model,
    the messages and, when there are any, the tools. *)
Class AzureOpenAI : Type := {
  deployment : string;
  create : string -> list value -> option value -> result ChatCompletion;
}.

Section backend.
Context `{Runtime} `{AzureOpenAI}.

(** The response [execute] builds from an exception. *)
Definition azure_failure (e : exn) : AgentResponse :=
  {| status := VStr "error"; responses := VList [];
     thread_id := VNone; reason := VStr (str_exn e);
     usage := None; tool_calls := VInt 0;
     inference_rounds := VInt 0; agent_type := VNone;
     model_name := VStr deployment; next_action := None |}.

(** The body of the [try] block of [execute]. *)
Definition _execute_body (full_messages : list value) (tools : value)
    : M AgentResponse :=
  let kw_tools := if truthy tools then Some tools else None in
  response ← lift (create deployment full_messages kw_tools);
  match choices response with
  | [] => raise (Exception "IndexError" "list index out of range")
  | choice :: _ =>
      let content := or_else (content choice) (VStr "") in
      let usage :=
        match completion_usage response with
        | Some u =>
            Some {| prompt_tokens := cu_prompt_tokens u;
                    completion_tokens := cu_completion_tokens u;
                    total_tokens := cu_total_tokens u |}
        | None => None
        end in
      mret {| status := VStr "success";
              responses := VList [content];
              thread_id := VNone; reason := VNone;
              usage := usage;
              tool_calls :=
                match message_tool_calls choice with
                | Some (c :: calls) =>
                    VInt (Z.of_nat (length (c :: calls)))
                | _ => VInt 0
                end;
              inference_rounds := VInt 1;
              agent_type := VNone;
              model_name := VStr deployment;
              next_action := None |}
  end.

(** Execute agent via Azure OpenAI chat completion.  The system message
    is put before [messages], which must be a list. *)
Definition AzureOpenAIBackend_execute (system_prompt : string)
    (messages tools : value) : M AgentResponse :=
  match messages with
  | VList l =>
      let full_messages :=
        VDict (list_to_map
          [("role", VStr "system"); ("content", VStr system_prompt)]) :: l in
      try_except (_execute_body full_messages tools)
        (fun e =>
           _ ← log ERROR ("Azure OpenAI execution failed: " ++ str_exn e);
           mret (azure_failure e))
  | _ =>
      raise (Exception "TypeError"
               ("can only concatenate list (not "
                  ++ fixture.quoted (type_name messages) ++ ") to list"))
  end.

(** The backend as the step executor sees it: the response, without the
    log record. *)
Definition AzureOpenAIBackend : AIBackend :=
  {| execute := fun system_prompt messages tools =>
       match outcome (AzureOpenAIBackend_execute system_prompt messages tools)
       with
       | Ok r => Ok (Some r)
       | Raise e => Raise e
       end |}.

End backend.

End azure_openai.
Export azure_openai.

(* ===================================================================== *)
(** ** shared/util_cosmos.py: the event log                              *)
(* ===================================================================== *)

Module util_config.

(** Application configuration loaded from environment variables. *)
Record AppConfig : Type := {
  service_bus_connection_string : option string;
  db_server : option string;
  db_database : option string;
  db_username : option string;
  db_password : option string;
  cosmos_endpoint : option string;
  cosmos_key : option string;
  cosmos_database : string;
  ai_backend : string;
  azure_openai_endpoint : option string;
  azure_openai_api_key : option string;
  azure_openai_deployment : string;
  azure_openai_api_version : string;
}.

(** [bool(s)] for an optional text: [None] and the empty text are false. *)
Definition is_set (s : option string) : bool :=
  match s with
  | Some t => negb (String.eqb t "")
  | None => false
  end.

(** Load and cache application configuration from environment variables:
    [_config] is the module's cache as the call finds it, [getenv] is
    [os.getenv]. *)
Definition get_config (_config : option AppConfig)
    (getenv : string -> option string) : M AppConfig :=
  match _config with
  | Some config => mret config
  | None =>
      let config :=
        {| service_bus_connection_string :=
             getenv "SERVICE_BUS_CONNECTION_STRING";
           db_server := getenv "DB_SERVER";
           db_database := getenv "DB_DATABASE";
           db_username := getenv "DB_USERNAME";
           db_password := getenv "DB_PASSWORD";
           cosmos_endpoint := getenv "COSMOS_ENDPOINT";
           cosmos_key := getenv "COSMOS_KEY";
           cosmos_database :=
             default "agent-platform" (getenv "COSMOS_DATABASE");
           ai_backend := default "azure_openai" (getenv "AI_BACKEND");
           azure_openai_endpoint := getenv "AZURE_OPENAI_ENDPOINT";
           azure_openai_api_key := getenv "AZURE_OPENAI_API_KEY";
           azure_openai_deployment :=
             default "gpt-4o" (getenv "AZURE_OPENAI_DEPLOYMENT");
           azure_openai_api_version :=
             default "2024-12-01-preview"
               (getenv "AZURE_OPENAI_API_VERSION") |} in
      _ ← (if negb (is_set (service_bus_connection_string config))
           then log WARNING "SERVICE_BUS_CONNECTION_STRING not configured"
           else mret tt);
      _ ← (if negb (is_set (db_server config) && is_set (db_database config)
                    && is_set (db_username config)
                    && is_set (db_password config))
           then log WARNING
                  "Database configuration incomplete - SQL operations will fail"
           else mret tt);
      mret config
  end.

End util_config.
Export util_config.

Module util_cosmos.

(** The process and the Cosmos DB account behind [log_event]: the caches
    [_config] of the configuration module and [_database] of this module
    as the call finds them, the environment, the construction of the
    client and its database reference from endpoint, key and database
    name, the container client, the identifier and the time the module
    draws, and the write. *)
Class Cosmos : Type := {
  _config : option AppConfig;
  getenv : string -> option string;
  _database : option unit;
  CosmosClient : string -> string -> string -> result unit;
  get_container_client : string -> result unit;
  uuid4 : string;
  utcnow_isoformat : string;
  upsert_item : string -> value -> result unit;
}.

Section event_log.
Context `{Runtime} `{Cosmos}.

(** Lazy-initialize Cosmos DB client and database reference. *)
Definition _get_database : M (option unit) :=
  match _database with
  | Some db => mret (Some db)
  | None =>
      config ← get_config _config getenv;
      if negb (is_set (cosmos_endpoint config))
         || negb (is_set (cosmos_key config))
      then mret None
      else
        try_except
          (db ← lift (CosmosClient (default "" (cosmos_endpoint config))
                        (default "" (cosmos_key config))
                        (cosmos_database config));
           mret (Some db))
          (fun e =>
             _ ← log WARNING ("Failed to initialize Cosmos DB: " ++ str_exn e);
             mret None)
  end.

(** The document [log_event] writes for the event [d]: the event with
    its id, timestamp and partition key filled in. *)
Definition _with_metadata (d : gmap string value) (partition_key : value)
    : gmap string value :=
  let d1 := <["id" := or_else (default VNone (d !! "id")) (VStr uuid4)]> d in
  let d2 :=
    <["timestamp" := or_else (default VNone (d1 !! "timestamp"))
                       (VStr utcnow_isoformat)]> d1 in
  <["_partition_key" :=
      or_else partition_key (default (VStr "default") (d2 !! "event_type"))]>
    d2.

(** Write an event document to Cosmos DB. *)
Definition log_event (container_name : string) (event : value)
    (partition_key : value) : M value :=
  db ← _get_database;
  match db with
  | None =>
      mret (VDict (list_to_map
              [("success", VBool false);
               ("error", VStr "Cosmos DB not configured")]))
  | Some _ =>
      try_except
        (_ ← lift (get_container_client container_name);
         match event with
         | VDict d =>
             let document := _with_metadata d partition_key in
             _ ← call "upsert_item" [VStr container_name; VDict document];
             _ ← lift (upsert_item container_name (VDict document));
             mret (VDict (list_to_map
                     [("success", VBool true);
                      ("id", default VNone (document !! "id"))]))
         | _ => raise (AttributeError event "get")
         end)
        (fun e =>
           _ ← log WARNING ("Failed to log event to Cosmos DB: " ++ str_exn e);
           mret (VDict (list_to_map
                   [("success", VBool false); ("error", VStr (str_exn e))])))
  end.

End event_log.

End util_cosmos.
Export util_cosmos.

(* ===================================================================== *)
(** ** agents/agents.py: the results consumer and the status endpoint    *)
(* ===================================================================== *)

Module agents_more.

Section results.
Context `{Runtime}.

(** The audit collaborator of [result_queue_consumer]:
    [shared.util_cosmos.log_event], or whatever stands in its place. *)
Variable audit_log : string -> value -> M value.

(** [{"event_type": "agent_result", **body}]: the fields of the body,
    and the event type of the body when it has one. *)
Definition _audit_event (body : gmap string value) : gmap string value :=
  body ∪ {["event_type" := VStr "agent_result"]}.

(** Results queue consumer: receives completed task results for logging
    and downstream processing. *)
Definition result_queue_consumer (msg : string) : M unit :=
  try_except
    (body ← lift (json_loads msg);
     agent_type ← lift (get body "agent_type" (VStr "unknown"));
     status ← lift (get body "status" (VStr "unknown"));
     _ ← log INFO ("Result received: agent=" ++ str agent_type
                     ++ ", status=" ++ str status);
     try_except
       (match body with
        | VDict d =>
            _ ← audit_log "agent-events" (VDict (_audit_event d));
            mret tt
        | _ => raise (Exception "TypeError"
                        "argument after ** must be a mapping")
        end)
       (fun e => log WARNING ("Failed to log result to Cosmos: " ++ str_exn e)))
    (fun e =>
       _ ← log ERROR ("Failed to process result queue message: " ++ str_exn e);
       raise e).

End results.

(** An HTTP response: the data given to [json_response], serialised, and
    the status code. *)
Record HttpResponse : Type := {
  body : string;
  status_code : Z;
  mimetype : string;
}.

(** Helper for JSON responses. *)
Definition json_response `{Runtime} (data : value) (status_code : Z)
    : HttpResponse :=
  {| body := json_dumps data; status_code := status_code;
     mimetype := "application/json" |}.

(** [status.name] of a runtime status. *)
Definition status_name (s : OrchestrationRuntimeStatus) : string :=
  match s with
  | Running => "Running"
  | Completed => "Completed"
  | ContinuedAsNew => "ContinuedAsNew"
  | Failed => "Failed"
  | Canceled => "Canceled"
  | Terminated => "Terminated"
  | Pending => "Pending"
  | Suspended => "Suspended"
  end.

(** Get orchestration status: [instanceId] is the route parameter, absent
    or not. *)
Definition get_orchestration_status `{Runtime} (instanceId : option string)
    : prog clientE HttpResponse :=
  match instanceId with
  | None =>
      mret (json_response
              (VDict (list_to_map [("error", VStr "Missing instanceId")])) 400)
  | Some instance_id =>
      if String.eqb instance_id "" then
        mret (json_response
                (VDict (list_to_map [("error", VStr "Missing instanceId")]))
                400)
      else
        status ← perform (get_status instance_id);
        match status with
        | None =>
            mret (json_response
                    (VDict (list_to_map
                       [("error", VStr "Instance not found")])) 404)
        | Some st =>
            match runtime_status st with
            | None => Throw (AttributeError VNone "name")
            | Some s =>
                mret (json_response
                        (VDict (list_to_map
                           [("instance_id", VStr instance_id);
                            ("runtime_status", VStr (status_name s));
                            ("output", output st)])) 200)
            end
        end
  end.

(** Run the endpoint to its end against a client. *)
Fixpoint run_endpoint (client : forall X, clientE X -> result X)
    (p : prog clientE HttpResponse) : M HttpResponse :=
  match p with
  | Ret a => mret a
  | Throw e => raise e
  | Tell lv msg k => _ ← log lv msg; run_endpoint client k
  | Vis op k =>
      _ ← match op with
          | get_status instance_id =>
              call "get_status" [VStr instance_id]
          | start_new name instance_id client_input =>
              call "start_new" [VStr name; VStr instance_id; client_input]
          end;
      run_endpoint client (k (client _ op))
  end.

End agents_more.
Export agents_more.

(* ===================================================================== *)
(** ** shared/util_token_tracking.py                                     *)
(* ===================================================================== *)

Module util_token_tracking.

(** The SQL side of the token tracking: [SessionLocal] is what importing
    the database module gives ([Ok None]: no session factory),
    [open_session] is [SessionLocal()], [add_and_commit] builds the
    record, adds it, commits and reads its id, [close_session n] is the
    [n]-th call of [session.close()]; [now] is [datetime.utcnow()],
    [isoformat] the text of a time, and [plus] the sum of two token
    counts. *)
Class SqlStore : Type := {
  SessionLocal : result (option unit);
  open_session : result unit;
  add_and_commit : list value -> result value;
  close_session : nat -> result unit;
  rollback : result unit;
  now : Z;
  isoformat : Z -> string;
  plus : value -> value -> value;
}.

(** [v < 0]. *)
Definition lt0 (v : value) : result bool :=
  match v with
  | VInt n => Ok (n <? 0)%Z
  | VBool _ => Ok false
  | VFloat (S754_infinity s) => Ok s
  | VFloat (S754_finite s _ _) => Ok s
  | VFloat _ => Ok false
  | _ => Raise (Exception "TypeError"
                  ("'<' not supported between instances of '"
                     ++ type_name v ++ "' and 'int'"))
  end.

(** [description[:497] + "..."] when the description is longer than 500
    characters. *)
Definition _truncate (description : option string) : option string :=
  match description with
  | Some s =>
      if negb (String.eqb s "") && (500 <? py_len s)%nat
      then Some (py_take 497 s ++ "...")
      else Some s
  | None => None
  end.

Definition time_or_none `{SqlStore} (t : option Z) : value :=
  match t with
  | Some z => VStr (isoformat z)
  | None => VNone
  end.

Section tracking.
Context `{Runtime} `{Cosmos} `{SqlStore}.

(** Fallback: write token usage to Cosmos DB event log. *)
Definition _fallback_to_cosmos
    (model_name input_tokens output_tokens agent_type : value)
    (started_at : option Z) (agent_operation inference_rounds : value)
    (description : option string) (completed_at : option Z) (error : value)
    : M value :=
  try_except
    (let event : gmap string value :=
       list_to_map
         [("event_type", VStr "token_usage");
          ("agent_type", agent_type);
          ("agent_operation", agent_operation);
          ("model_name", model_name);
          ("input_tokens", input_tokens);
          ("output_tokens", output_tokens);
          ("inference_rounds", inference_rounds);
          ("description", from_option VStr VNone description);
          ("started_at", time_or_none started_at);
          ("completed_at", time_or_none completed_at);
          ("sql_error", error)] in
     result ← log_event "token-usage" (VDict event) VNone;
     success ← lift (get result "success" VNone);
     if truthy success then
       id ← lift (get result "id" VNone);
       mret (VDict (list_to_map
               [("success", VBool true); ("id", id);
                ("store", VStr "cosmos")]))
     else
       err ← lift (get result "error" VNone);
       mret (VDict (list_to_map
               [("success", VBool false);
                ("error", VStr ("Cosmos fallback failed: " ++ str err))])))
    (fun e =>
       mret (VDict (list_to_map
               [("success", VBool false);
                ("error", VStr ("Cosmos fallback failed: " ++ str_exn e))]))).

(** The two checks at the head of [track_token_usage]: [Some] is the
    reply of an early return. *)
Definition _validate (model_name input_tokens output_tokens agent_type : value)
    : M (option value) :=
  if negb (truthy model_name) || negb (truthy agent_type) then
    mret (Some (VDict (list_to_map
            [("success", VBool false);
             ("error", VStr "model_name and agent_type are required")])))
  else
    negative_in ← lift (lt0 input_tokens);
    negative ←
      (if negative_in : bool then mret true else lift (lt0 output_tokens));
    if negative : bool then
      mret (Some (VDict (list_to_map
              [("success", VBool false);
               ("error", VStr "Token counts cannot be negative")])))
    else mret None.

(** The [except] clause of [track_token_usage], with the description and
    the completion time as they are when the exception is raised. *)
Definition _on_failure
    (model_name input_tokens output_tokens agent_type : value)
    (started_at : option Z) (agent_operation inference_rounds : value)
    (description : option string) (completed_at : option Z) (e : exn)
    : M value :=
  let error_msg := "Failed to track token usage: " ++ str_exn e in
  _ ← log WARNING error_msg;
  try_except
    (_fallback_to_cosmos model_name input_tokens output_tokens agent_type
       started_at agent_operation inference_rounds description completed_at
       (VStr (str_exn e)))
    (fun fallback_error =>
       _ ← log WARNING ("Cosmos fallback also failed: "
                          ++ str_exn fallback_error);
       mret (VDict (list_to_map
               [("success", VBool false); ("error", VStr error_msg)]))).

(** [session.rollback(); session.close(); raise e], [closed] calls of
    [session.close()] having been made. *)
Definition _rollback_and_raise {A} (closed : nat) (e : exn) : M A :=
  _ ← call "session.rollback" [];
  _ ← lift rollback;
  _ ← lift (close_session closed);
  raise e.

(** The SQL write of [track_token_usage]. *)
Definition _write_record
    (model_name input_tokens output_tokens agent_type : value)
    (started_at : option Z) (agent_operation inference_rounds : value)
    (description : option string) (completed_at : option Z) : M value :=
  let record :=
    [agent_type; agent_operation; model_name; input_tokens; output_tokens;
     or_else inference_rounds (VInt 0);
     from_option VStr VNone description;
     time_or_none started_at; time_or_none completed_at] in
  _ ← call "session.add" record;
  match add_and_commit record with
  | Raise e => _rollback_and_raise 0 e
  | Ok record_id =>
      match close_session 0 with
      | Raise e => _rollback_and_raise 1 e
      | Ok _ =>
          _ ← log DEBUG
                ("Token usage tracked: agent=" ++ str agent_type
                   ++ ", model=" ++ str model_name
                   ++ ", tokens=" ++ str (plus input_tokens output_tokens)
                   ++ ", id=" ++ str record_id);
          mret (VDict (list_to_map
                  [("success", VBool true); ("id", record_id)]))
      end
  end.

(** Track LLM token usage for analytics. *)
Definition track_token_usage
    (model_name input_tokens output_tokens agent_type : value)
    (started_at : option Z) (agent_operation inference_rounds : value)
    (description : option string) (completed_at : option Z) : M value :=
  checked ←
    try_except
      (v ← _validate model_name input_tokens output_tokens agent_type;
       mret (inl v))
      (fun e =>
         reply ← _on_failure model_name input_tokens output_tokens agent_type
                   started_at agent_operation inference_rounds description
                   completed_at e;
         mret (inr reply));
  match checked with
  | inr reply => mret reply
  | inl (Some reply) => mret reply
  | inl None =>
      let completed_at :=
        match completed_at with
        | None => Some now
        | Some t => Some t
        end in
      let description := _truncate description in
      try_except
        (session_local ← lift SessionLocal;
         match session_local with
         | None =>
             _fallback_to_cosmos model_name input_tokens output_tokens
               agent_type started_at agent_operation inference_rounds
               description completed_at VNone
         | Some _ =>
             _ ← lift open_session;
             _write_record model_name input_tokens output_tokens agent_type
               started_at agent_operation inference_rounds description
               completed_at
         end)
        (_on_failure model_name input_tokens output_tokens agent_type
           started_at agent_operation inference_rounds description
           completed_at)
  end.

(** The telemetry collaborator of the step executor: [track_token_usage]
    called as [_track_usage] calls it. *)
Definition telemetry : Telemetry :=
  {| activity_workflow.track_token_usage := fun args =>
       match args with
       | [model_name; input_tokens; output_tokens; agent_type;
          VInt started_at; inference_rounds] =>
           track_token_usage model_name input_tokens output_tokens agent_type
             (Some started_at) VNone inference_rounds None None
       | _ => raise (Exception "TypeError"
                       "track_token_usage() got unexpected arguments")
       end |}.

End tracking.

End util_token_tracking.

(* ===================================================================== *)
(** ** webhooks/utility/util_service_bus.py                              *)
(* ===================================================================== *)

Module util_service_bus.

(** The Service Bus namespace: the connection string, opening the
    administration client, its two calls, one delivery of a message body
    to a queue, and [str.lower]. *)
Class ServiceBus : Type := {
  CONNECTION_STRING : option string;
  open_admin_client : result unit;
  get_queue : string -> result unit;
  create_queue : string -> result unit;
  send_message : string -> string -> result unit;
  lower : string -> string;
}.

(** [needle in s]. *)
Fixpoint contains (needle s : string) : bool :=
  String.prefix needle s
  || match s with
     | "" => false
     | String _ s' => contains needle s'
     end.

(** [not SERVICE_BUS_CONNECTION_STRING]. *)
Definition not_configured `{ServiceBus} : bool :=
  match CONNECTION_STRING with
  | None => true
  | Some conn => String.eqb conn ""
  end.

Section bus.
Context `{Runtime} `{ServiceBus}.

(** Ensure a Service Bus queue exists, creating it if necessary.
    [verified] is the cache [_verified_queues]; the cache after the call
    is returned with the answer. *)
Definition ensure_queue_exists (queue_name : string) (verified : gset string)
    : M (bool * gset string) :=
  if bool_decide (queue_name ∈ verified) then mret (true, verified)
  else if not_configured then
    _ ← log WARNING
          "SERVICE_BUS_CONNECTION_STRING not configured - cannot verify queue";
    mret (false, verified)
  else
    try_except
      (_ ← lift open_admin_client;
       _ ← call "get_queue" [VStr queue_name];
       match get_queue queue_name with
       | Ok _ =>
           _ ← log INFO ("Queue '" ++ queue_name ++ "' exists");
           mret (true, {[queue_name]} ∪ verified)
       | Raise e =>
           if contains "not found" (lower (str_exn e))
              || contains "does not exist" (lower (str_exn e))
           then
             _ ← log INFO ("Queue '" ++ queue_name ++ "' not found, creating...");
             _ ← call "create_queue" [VStr queue_name];
             _ ← lift (create_queue queue_name);
             _ ← log INFO ("Queue '" ++ queue_name ++ "' created successfully");
             mret (true, {[queue_name]} ∪ verified)
           else raise e
       end)
      (fun e =>
         _ ← log ERROR ("Failed to ensure queue '" ++ queue_name
                          ++ "' exists: " ++ str_exn e);
         mret (false, verified)).

(** The delivery at the end of [publish_to_service_bus]. *)
Definition _publish (queue_name : string) (message : value) : M bool :=
  try_except
    (_ ← call "send_messages" [VStr queue_name; VStr (json_dumps message)];
     _ ← lift (send_message queue_name (json_dumps message));
     _ ← log INFO ("Message published to queue '" ++ queue_name ++ "'");
     mret true)
    (fun e =>
       _ ← log ERROR ("Failed to publish to Service Bus queue '" ++ queue_name
                        ++ "': " ++ str_exn e);
       mret false).

(** Publish a single message to Service Bus queue. *)
Definition publish_to_service_bus (queue_name : string) (message : value)
    (ensure_queue : bool) (verified : gset string) : M (bool * gset string) :=
  if not_configured then
    _ ← log WARNING
          "SERVICE_BUS_CONNECTION_STRING not configured - message not sent";
    mret (false, verified)
  else if ensure_queue then
    '(exists_, verified) ← ensure_queue_exists queue_name verified;
    if exists_ : bool then
      sent ← _publish queue_name message;
      mret (sent, verified)
    else
      _ ← log ERROR ("Queue '" ++ queue_name
                       ++ "' does not exist and could not be created");
      mret (false, verified)
  else
    sent ← _publish queue_name message;
    mret (sent, verified).

(** The loop of agents/agents.py that runs when the module is loaded:
    [for queue_name in queues: ensure_queue_exists(queue_name)]. *)
Fixpoint ensure_queues (queues : list string) (verified : gset string)
    : M (gset string) :=
  match queues with
  | [] => mret verified
  | queue_name :: rest =>
      '(_, verified) ← ensure_queue_exists queue_name verified;
      ensure_queues rest verified
  end.

End bus.

Definition REQUIRED_QUEUES : list string :=
  ["webhook-ingest"; "agent-orchestrator"; "agent-tasks"; "agent-results"].

End util_service_bus.

(* ===================================================================== *)
(** ** webhooks/webhooks.py                                              *)
(* ===================================================================== *)

Module webhooks.

(** An entry of [WEBHOOK_CONFIG]: the queue of a source and its handler. *)
Record WebhookSource : Type := {
  queue : string;
  handler : value -> result value;
}.

(** The parts of the request the handler reads: the [source] route
    parameter, whether the body is non-empty, and what [get_json]
    gives. *)
Record HttpRequest : Type := {
  route_source : option string;
  has_body : bool;
  get_json : result value;
}.

Section ingest.
Import util_service_bus.
Context `{Runtime} `{ServiceBus}.

(** Unified webhook handler for all registered sources, for the table
    [WEBHOOK_CONFIG] and the queue cache [verified]. *)
Definition webhook_handler (WEBHOOK_CONFIG : gmap string WebhookSource)
    (req : HttpRequest) (verified : gset string)
    : M (HttpResponse * gset string) :=
  let source := lower (default "" (route_source req)) in
  _ ← log INFO ("Webhook received: source=" ++ source);
  match WEBHOOK_CONFIG !! source with
  | None =>
      _ ← log WARNING ("Unknown webhook source: " ++ source);
      mret (json_response
              (VDict (list_to_map
                 [("status", VStr "ignored");
                  ("reason", VStr ("unknown source: " ++ source))])) 200,
            verified)
  | Some config =>
      let queue_name := queue config in
      body ←
        try_except
          (if has_body req then lift (get_json req) else mret (VDict ∅))
          (fun e =>
             _ ← log WARNING ("Failed to parse webhook body: " ++ str_exn e);
             mret (VDict ∅));
      match handler config body with
      | Raise e =>
          _ ← log ERROR ("Error in " ++ source ++ " webhook handler: "
                           ++ str_exn e);
          mret (json_response
                  (VDict (list_to_map
                     [("status", VStr "error");
                      ("source", VStr source);
                      ("message", VStr (str_exn e))])) 200,
                verified)
      | Ok result =>
          success ← lift (get result "success" VNone);
          if negb (truthy success) then
            message ← lift (get result "error" (VStr "Unknown error"));
            mret (json_response
                    (VDict (list_to_map
                       [("status", VStr "error");
                        ("source", VStr source);
                        ("message", message)])) 200,
                  verified)
          else
            message ← lift (get result "message" VNone);
            if negb (truthy message) then
              mret (json_response
                      (VDict (list_to_map
                         [("status", VStr "ok");
                          ("source", VStr source);
                          ("queued", VBool false)])) 200,
                    verified)
            else
              '(success, verified) ←
                publish_to_service_bus queue_name message false verified;
              mret (json_response
                      (VDict (list_to_map
                         [("status",
                           VStr (if success : bool then "processed"
                                 else "error"));
                          ("source", VStr source);
                          ("queue", VStr queue_name);
                          ("queued", VBool success)])) 200,
                    verified)
      end
  end.

End ingest.

End webhooks.

(* ===================================================================== *)
(** ** Concrete services for the examples                                *)
(* ===================================================================== *)

Module services.

(** An Azure OpenAI service that is down. *)
Definition failing_azure : AzureOpenAI :=
  {| deployment := "gpt-4o";
     create := fun _ _ _ =>
       Raise (Exception "APIConnectionError" "Connection error.") |}.

Definition azure_collaborators : Collaborators :=
  {| utcnow := 0; read_instructions := fun _ => Ok None;
     get_backend := Ok (@AzureOpenAIBackend failing_azure) |}.

(** A Cosmos DB account that takes every write. *)
Definition working_cosmos : Cosmos :=
  {| _config := None;
     getenv := fun _ => None;
     _database := Some tt;
     CosmosClient := fun _ _ _ => Ok tt;
     get_container_client := fun _ => Ok tt;
     uuid4 := "00000000-0000-4000-8000-000000000000";
     utcnow_isoformat := "2026-01-01T00:00:00";
     upsert_item := fun _ _ => Ok tt |}.

(** An event that brings its own id. *)
Definition identified_event : gmap string value :=
  list_to_map [("id", VStr "evt-1"); ("event_type", VStr "agent_result")].

(** A serialised response whose usage mapping lacks two of its fields. *)
Definition partial_usage : gmap string value :=
  list_to_map [("prompt_tokens", VInt 1)].

Definition partial_usage_response : gmap string value :=
  list_to_map [("status", VStr "success"); ("usage", VDict partial_usage)].

(** A serialised response whose usage mapping is empty. *)
Definition empty_usage_response : gmap string value :=
  list_to_map [("status", VStr "success"); ("usage", VDict ∅)].

(** A SQL database whose commit fails. *)
Definition broken_sql : util_token_tracking.SqlStore :=
  {| util_token_tracking.SessionLocal := Ok (Some tt);
     util_token_tracking.open_session := Ok tt;
     util_token_tracking.add_and_commit := fun _ =>
       Raise (Exception "OperationalError" "connection lost");
     util_token_tracking.close_session := fun _ => Ok tt;
     util_token_tracking.rollback := Ok tt;
     util_token_tracking.now := 100;
     util_token_tracking.isoformat := fun _ => "2026-01-01T00:00:00";
     util_token_tracking.plus := fun a b =>
       match a, b with
       | VInt x, VInt y => VInt (x + y)
       | _, _ => VNone
       end |}.

(** A response that carries usage. *)
Definition metered_response : AgentResponse :=
  {| status := VStr "success"; responses := VList [];
     thread_id := VNone; reason := VNone;
     usage := Some {| prompt_tokens := VInt 7; completion_tokens := VInt 5;
                      total_tokens := VInt 12 |};
     tool_calls := VInt 0; inference_rounds := VInt 1;
     agent_type := VNone; model_name := VStr "gpt-4o";
     next_action := None |}.

(** A Service Bus namespace in which no queue exists yet and every call
    goes through.  The texts of its errors are in lower case already. *)
Definition new_namespace : util_service_bus.ServiceBus :=
  {| util_service_bus.CONNECTION_STRING := Some "Endpoint=sb://test";
     util_service_bus.open_admin_client := Ok tt;
     util_service_bus.get_queue := fun _ =>
       Raise (Exception "ResourceNotFoundError" "queue not found");
     util_service_bus.create_queue := fun _ => Ok tt;
     util_service_bus.send_message := fun _ _ => Ok tt;
     util_service_bus.lower := fun s => s |}.

(** A webhook source whose handler asks for one message to be queued. *)
Definition github_source : webhooks.WebhookSource :=
  {| webhooks.queue := "webhook-ingest";
     webhooks.handler := fun body =>
       Ok (VDict (list_to_map
             [("success", VBool true);
              ("message", VDict (list_to_map [("event", body)]))])) |}.

Definition github_config : gmap string webhooks.WebhookSource :=
  {["github" := github_source]}.

Definition github_request : webhooks.HttpRequest :=
  {| webhooks.route_source := Some "github";
     webhooks.has_body := false;
     webhooks.get_json := Ok (VDict ∅) |}.

(** A deployment without Cosmos DB, and without any other setting, whose
    configuration has not been loaded yet. *)
Definition unconfigured_cosmos : Cosmos :=
  {| _config := None;
     getenv := fun _ => None;
     _database := None;
     CosmosClient := fun _ _ _ => Ok tt;
     get_container_client := fun _ => Ok tt;
     uuid4 := "00000000-0000-4000-8000-000000000000";
     utcnow_isoformat := "2026-01-01T00:00:00";
     upsert_item := fun _ _ => Ok tt |}.

(** A client that knows no instance. *)
Definition empty_client (X : Type) (op : clientE X) : result X :=
  match op with
  | get_status _ => Ok None
  | start_new _ instance_id _ => Ok instance_id
  end.

(** A description of 501 characters. *)
Definition long_description : string :=
  String.concat "" (List.repeat "x" 501).

(** A description of 300 accented letters, two bytes each in UTF-8. *)
Definition accented_description : string :=
  String.concat ""
    (List.repeat (String (Ascii.ascii_of_nat 195)
                    (String (Ascii.ascii_of_nat 169) "")) 300).

(** A deployment without a Service Bus connection string. *)
Definition unconfigured_namespace : util_service_bus.ServiceBus :=
  {| util_service_bus.CONNECTION_STRING := None;
     util_service_bus.open_admin_client := Ok tt;
     util_service_bus.get_queue := fun _ => Ok tt;
     util_service_bus.create_queue := fun _ => Ok tt;
     util_service_bus.send_message := fun _ _ => Ok tt;
     util_service_bus.lower := fun s => s |}.

End services.

(* ===================================================================== *)
(** * Properties                                                         *)
(* ===================================================================== *)

(** ** AgentResponse serialization *)

Lemma from_dict_asdict (r : AgentResponse) : from_dict (asdict r) = Ok r.
Proof.
  destruct r as [st rs th re [[p c t]|] tc ir at_ mn [[q pl]|]];
    vm_compute; reflexivity.
Qed.

Lemma from_dict_status (d : gmap string value) (r : AgentResponse) :
  from_dict (VDict d) = Ok r ->
  status r = default (VStr "error") (d !! "status").
Proof.
  unfold from_dict.
  destruct (optional_field TokenUsage_kwargs d "usage"); [|discriminate].
  destruct (optional_field NextAction_kwargs d "next_action"); [|discriminate].
  intros [= <-]. reflexivity.
Qed.

(** C10: [from_dict] undoes [asdict] on every AgentResponse, with or
    without usage and next_action; and a mapping without the [status] key
    is read as an AgentResponse of status "error" (the empty mapping, for
    one, is read with every field at its default). *)
Theorem from_dict_asdict_roundtrip :
  (forall r : AgentResponse, from_dict (asdict r) = Ok r)
  /\ (forall (d : gmap string value) (r : AgentResponse),
        d !! "status" = None -> from_dict (VDict d) = Ok r ->
        status r = VStr "error")
  /\ from_dict (VDict ∅) = Ok (mkAgentResponse (VStr "error") (VList [])).
Proof.
  split; [exact from_dict_asdict|]. split; [|reflexivity].
  intros d r Hd Hr. rewrite (from_dict_status d r Hr), Hd. reflexivity.
Qed.

(** ** The effect monad *)

Lemma outcome_bind {A B} (m : M A) (f : A -> M B) :
  outcome (m ≫= f)
  = match outcome m with Ok a => outcome (f a) | Raise e => Raise e end.
Proof.
  destruct m as [t [a|e]]; [|reflexivity].
  unfold mbind, M_bind, outcome; cbn. destruct (f a); reflexivity.
Qed.

Lemma trace_bind {A B} (m : M A) (f : A -> M B) :
  trace (m ≫= f)
  = (trace m ++ match outcome m with Ok a => trace (f a) | Raise _ => [] end)%list.
Proof.
  destruct m as [t [a|e]]; unfold mbind, M_bind, trace, outcome; cbn.
  - destruct (f a); reflexivity.
  - symmetry. apply app_nil_r.
Qed.

Lemma outcome_try_except {A} (body : M A) (handler : exn -> M A) :
  outcome (try_except body handler)
  = match outcome body with Ok a => Ok a | Raise e => outcome (handler e) end.
Proof.
  destruct body as [t [a|e]]; [reflexivity|].
  unfold try_except, outcome; cbn. destruct (handler e); reflexivity.
Qed.

Lemma trace_try_except {A} (body : M A) (handler : exn -> M A) :
  trace (try_except body handler)
  = (trace body
     ++ match outcome body with Ok _ => [] | Raise e => trace (handler e) end)%list.
Proof.
  destruct body as [t [a|e]]; unfold try_except, trace, outcome; cbn.
  - symmetry. apply app_nil_r.
  - destruct (handler e); reflexivity.
Qed.

Lemma outcome_lift {A} (r : result A) : outcome (lift r) = r.
Proof. reflexivity. Qed.

Lemma outcome_mret {A} (a : A) : outcome (mret a) = Ok a.
Proof. reflexivity. Qed.

Lemma outcome_log (lv : level) (msg : string) : outcome (log lv msg) = Ok tt.
Proof. reflexivity. Qed.

Lemma outcome_call (fn : string) (args : list value) :
  outcome (call fn args) = Ok tt.
Proof. reflexivity. Qed.

Lemma outcome_raise {A} (e : exn) : outcome (raise e : M A) = Raise e.
Proof. reflexivity. Qed.

Lemma trace_lift {A} (r : result A) : trace (lift r) = [].
Proof. reflexivity. Qed.

Lemma trace_mret {A} (a : A) : trace (mret a : M A) = [].
Proof. reflexivity. Qed.

Lemma trace_log (lv : level) (msg : string) :
  trace (log lv msg) = [Log lv msg].
Proof. reflexivity. Qed.

Lemma trace_call (fn : string) (args : list value) :
  trace (call fn args) = [Call fn args].
Proof. reflexivity. Qed.

Lemma trace_raise {A} (e : exn) : trace (raise e : M A) = [].
Proof. reflexivity. Qed.

Create Rewrite HintDb effects.
#[local] Hint Rewrite @outcome_bind @outcome_try_except @outcome_lift
  @outcome_mret outcome_log outcome_call @outcome_raise : effects.
#[local] Hint Rewrite @trace_bind @trace_try_except @trace_lift @trace_mret
  trace_log trace_call @trace_raise : effects.

(** Push [outcome] and [trace] through the monad's operations. *)
Ltac effects := repeat (autorewrite with effects; cbv beta iota).

(** ** Routing-decision extraction *)

Section routing_facts.
Context `{Runtime}.

Lemma _routing_of_spec (agent_type v : value) :
  outcome (_routing_of agent_type v) = Ok (routing_target v).
Proof.
  unfold _routing_of, routing_target.
  destruct v as [| | | | |l|d]; try reflexivity.
  cbn. destruct (d !! "next_action") as [na|] eqn:Hna; cbn; [|reflexivity].
  destruct na as [| |n|f|s|l|na]; try reflexivity.
  - destruct b; reflexivity.
  - cbn. destruct (n =? 0)%Z; reflexivity.
  - destruct f; reflexivity.
  - cbn. destruct (String.eqb s ""); reflexivity.
  - destruct l; reflexivity.
  - cbn. destruct (bool_decide (na = ∅)) eqn:Hempty; cbn.
    + apply bool_decide_eq_true in Hempty. subst na.
      rewrite lookup_empty. reflexivity.
    + destruct (na !! "target_queue") as [q|]; cbn; [|reflexivity].
      destruct (truthy q); cbn; [|reflexivity].
      destruct (eq_str q "none"); reflexivity.
Qed.

Lemma _parse_and_route_spec (agent_type first : value) :
  outcome (_parse_and_route agent_type first)
  = match parse_escape first with
    | Some e => Raise e
    | None => Ok (parse_if_string first ≫= routing_target)
    end.
Proof.
  destruct first as [| | | |s| |]; try apply _routing_of_spec.
  unfold _parse_and_route, parse_if_string, parse_escape.
  destruct (json_loads s) as [parsed|e]; [apply _routing_of_spec|].
  destruct (is_JSONDecodeError e); reflexivity.
Qed.

(** On a list of responses: what [_determine_next_action] returns or
    raises. *)
Lemma _determine_next_action_list (agent_type : value) (r : AgentResponse)
    (l : list value) :
  responses r = VList l ->
  outcome (_determine_next_action agent_type r)
  = match head l ≫= parse_escape ∘ unwrap_raw with
    | Some e => Raise e
    | None => Ok (routing_decision (head l))
    end.
Proof.
  intros Hl. unfold _determine_next_action.
  rewrite outcome_bind, Hl.
  destruct l as [|v l]; [reflexivity|].
  change (outcome (_parse_and_route agent_type (unwrap_raw v))
          = match parse_escape (unwrap_raw v) with
            | Some e => Raise e
            | None => Ok (parse_if_string (unwrap_raw v) ≫= routing_target)
            end).
  apply _parse_and_route_spec.
Qed.

End routing_facts.

(** C1: on an AgentResponse whose responses are a list,
    [_determine_next_action] returns the routing decision of the
    specification for the first element (unwrap [raw], parse a string, no
    decision when it does not parse, the NextAction of a [next_action]
    mapping with a non-empty target_queue other than "none", and no
    decision for every other shape, the empty list included) unless the
    parser raises something other than a [JSONDecodeError] on the text:
    that exception is raised by [_determine_next_action]. *)
Theorem determine_next_action_extracts `{Runtime} (agent_type : value)
    (r : AgentResponse) (l : list value) :
  responses r = VList l ->
  (head l ≫= parse_escape ∘ unwrap_raw = None ->
   outcome (_determine_next_action agent_type r)
   = Ok (routing_decision (head l)))
  /\ (forall e : exn,
        head l ≫= parse_escape ∘ unwrap_raw = Some e ->
        outcome (_determine_next_action agent_type r) = Raise e
        /\ routing_decision (head l) = None).
Proof.
  intros Hl. rewrite (_determine_next_action_list _ _ l Hl).
  split.
  - intros ->. reflexivity.
  - intros e He. rewrite He. split; [reflexivity|].
    destruct l as [|v l]; [discriminate He|].
    cbn [head mbind option_bind compose] in He.
    unfold routing_decision. cbn [head mbind option_bind].
    unfold parse_escape in He. unfold parse_if_string.
    destruct (unwrap_raw v) as [| | | |s| |]; try discriminate He.
    destruct (json_loads s) as [parsed|e']; [discriminate He|reflexivity].
Qed.

(** C1 on a text nested too deep for the parser: the [RecursionError] of
    the parser leaves [_determine_next_action]. *)
Lemma determine_next_action_extracts_witness :
  outcome (@_determine_next_action fixture.runtime (VStr "triage")
     (mkAgentResponse (VStr "success") (VList [VStr fixture.deep_text])))
  = Raise (Exception "RecursionError"
      "maximum recursion depth exceeded while decoding a JSON array from a unicode string").
Proof.
  assert (He : head [VStr fixture.deep_text]
                 ≫= @parse_escape fixture.runtime ∘ unwrap_raw
               = Some (Exception "RecursionError"
      "maximum recursion depth exceeded while decoding a JSON array from a unicode string"))
    by (vm_compute; reflexivity).
  exact (proj1 (proj2 (@determine_next_action_extracts fixture.runtime
                         (VStr "triage")
                         (mkAgentResponse (VStr "success")
                            (VList [VStr fixture.deep_text]))
                         [VStr fixture.deep_text] eq_refl) _ He)).
Defined.

(** The extraction example of the specification. *)
Example determine_next_action_example :
  outcome (@_determine_next_action fixture.runtime (VStr "triage")
     (mkAgentResponse (VStr "success")
        (VList [VDict (list_to_map [("raw", VStr fixture.routing_text)])])))
  = Ok (Some {| target_queue := VStr "agent-tasks";
                payload := VDict (list_to_map [("x", VInt 1)]) |}).
Proof.
  rewrite (@_determine_next_action_list fixture.runtime (VStr "triage") _
             [VDict (list_to_map [("raw", VStr fixture.routing_text)])]).
  - vm_compute. reflexivity.
  - reflexivity.
Qed.

(** ** The workflow step executor *)

Section executor_facts.
Context `{Runtime} `{Collaborators}.

Lemma _track_usage_outcome `{Telemetry} (r : AgentResponse) (a : value) (s : Z) :
  outcome (_track_usage r a s) = Ok tt.
Proof.
  unfold _track_usage. effects.
  destruct (usage r) as [u|]; effects; [|reflexivity].
  destruct (outcome (track_token_usage _)); reflexivity.
Qed.

Lemma _run_body_telemetry (t1 t2 : Telemetry) (i : AgentWorkflowInput) (s : Z) :
  outcome (@_run_body _ _ t1 i s) = outcome (@_run_body _ _ t2 i s).
Proof.
  unfold _run_body. effects.
  destruct (outcome (_load_system_prompt _)) as [p|]; [|reflexivity].
  destruct get_backend as [b|]; [|reflexivity]. effects.
  match goal with |- context [@execute ?b ?x ?y ?z] =>
    destruct (@execute b x y z) as [[r|]|] end; try reflexivity.
  effects.
  destruct (outcome (_determine_next_action _ _)) as [na|]; [|reflexivity].
  effects. rewrite !_track_usage_outcome. reflexivity.
Qed.

Lemma run_agent_workflow_telemetry (t1 t2 : Telemetry) (v : value) :
  outcome (@run_agent_workflow _ _ t1 v) = outcome (@run_agent_workflow _ _ t2 v).
Proof.
  unfold run_agent_workflow. effects.
  destruct (get v "agent_type" VNone) as [a|]; [|reflexivity]. effects.
  destruct (get v "payload" (VDict ∅)) as [p|]; [|reflexivity]. effects.
  rewrite (_run_body_telemetry t1 t2).
  destruct (outcome (_run_body _ _)); reflexivity.
Qed.

Lemma run_agent_workflow_ok `{Telemetry} (d : gmap string value) :
  outcome (run_agent_workflow (VDict d))
  = Ok match outcome (_run_body
                 {| wi_agent_type := default VNone (d !! "agent_type");
                    wi_payload := default (VDict ∅) (d !! "payload") |} utcnow) with
       | Ok v => v
       | Raise e => asdict (error_response (str_exn e) (default VNone (d !! "agent_type")))
       end.
Proof.
  unfold run_agent_workflow. cbn [get]. effects.
  destruct (outcome (_run_body _ _)); effects; reflexivity.
Qed.

Lemma _track_usage_trace `{Telemetry} (r : AgentResponse) (a : value) (s : Z) :
  trace (_track_usage r a s)
  = match usage r with
    | None => []
    | Some u =>
        Call "track_token_usage" (_track_args r u a s)
        :: (trace (track_token_usage (_track_args r u a s))
            ++ match outcome (track_token_usage (_track_args r u a s)) with
               | Ok _ => []
               | Raise e =>
                   [Log WARNING ("Failed to track token usage: " ++ str_exn e)]
               end)%list
    end.
Proof.
  unfold _track_usage. effects.
  destruct (usage r) as [u|]; effects; [|reflexivity].
  destruct (outcome (track_token_usage _)); effects; cbn;
    rewrite ?app_nil_r; reflexivity.
Qed.

Lemma _load_system_prompt_calls (a : value) (fn : string) :
  calls_to fn (trace (_load_system_prompt a)) = [].
Proof.
  unfold _load_system_prompt. effects.
  destruct (read_instructions _) as [[text|]|]; effects; reflexivity.
Qed.

Lemma calls_to_app (fn : string) (t1 t2 : list event) :
  calls_to fn (t1 ++ t2) = (calls_to fn t1 ++ calls_to fn t2)%list.
Proof. apply List.filter_app. Qed.

End executor_facts.

(** C6, as amended: on a mapping, [run_agent_workflow] never raises; when
    the backend returns no result it returns the error response whose
    reason is "No response from agent: " followed by the agent type; and
    when the body of its [try] raises [e] it returns the error response
    whose reason is [str(e)], both with the agent type set. *)
Theorem run_agent_workflow_never_raises `{Runtime} `{Collaborators}
    `{Telemetry} (d : gmap string value) :
  (exists v, outcome (run_agent_workflow (VDict d)) = Ok v)
  /\ (forall (prompt : string) (b : AIBackend),
        outcome (_load_system_prompt (default VNone (d !! "agent_type")))
          = Ok prompt ->
        get_backend = Ok b ->
        @execute b prompt
           (_user_messages (default (VDict ∅) (d !! "payload"))) (VList [])
          = Ok None ->
        outcome (run_agent_workflow (VDict d))
        = Ok (asdict (error_response
                ("No response from agent: "
                   ++ str (default VNone (d !! "agent_type")))
                (default VNone (d !! "agent_type")))))
  /\ (forall e : exn,
        outcome (_run_body
                   {| wi_agent_type := default VNone (d !! "agent_type");
                      wi_payload := default (VDict ∅) (d !! "payload") |}
                   utcnow) = Raise e ->
        outcome (run_agent_workflow (VDict d))
        = Ok (asdict (error_response (str_exn e)
                        (default VNone (d !! "agent_type"))))).
Proof.
  rewrite run_agent_workflow_ok. split; [eauto|]. split.
  - intros prompt b Hp Hb He. f_equal.
    unfold _run_body. effects. cbn [wi_agent_type wi_payload].
    rewrite Hp, Hb. effects. rewrite He. effects. reflexivity.
  - intros e He. rewrite He. reflexivity.
Qed.


(** The amended C6 on a backend that answers nothing, for the triage
    agent. *)
Lemma run_agent_workflow_never_raises_witness :
  outcome (@run_agent_workflow fixture.runtime
             (fixture.collaborators (Ok fixture.silent_backend))
             fixture.failing_telemetry
             (VDict (list_to_map [("agent_type", VStr "triage")])))
  = Ok (asdict (error_response "No response from agent: triage"
                  (VStr "triage"))).
Proof.
  pose proof (proj1 (proj2 (@run_agent_workflow_never_raises fixture.runtime
           (fixture.collaborators (Ok fixture.silent_backend))
           fixture.failing_telemetry
           (list_to_map [("agent_type", VStr "triage")])))
         "You are a triage agent. Process the input and return a JSON response."
         fixture.silent_backend) as Hw.
  vm_compute in Hw. vm_compute. apply Hw; reflexivity.
Defined.

(** C6, as stated, fails: with a backend that answers nothing the reason
    is not "no response from agent: triage" (the text the code builds
    starts with a capital letter). *)
Lemma no_response_reason_counterexample :
  outcome (@run_agent_workflow fixture.runtime
             (fixture.collaborators (Ok fixture.silent_backend))
             fixture.failing_telemetry
             (VDict (list_to_map [("agent_type", VStr "triage")])))
  <> Ok (asdict (error_response "no response from agent: triage"
                   (VStr "triage"))).
Proof. vm_compute. intros Heq. discriminate Heq. Qed.

(** ** Token usage tracking *)

Section telemetry_facts.
Context `{Runtime} `{Collaborators}.

Lemma run_agent_workflow_trace_some `{Telemetry} (d : gmap string value)
    (prompt : string) (b : AIBackend) (r0 : AgentResponse)
    (na : option NextAction) :
  outcome (_load_system_prompt (default VNone (d !! "agent_type")))
    = Ok prompt ->
  get_backend = Ok b ->
  @execute b prompt (_user_messages (default (VDict ∅) (d !! "payload")))
     (VList []) = Ok (Some r0) ->
  outcome (_determine_next_action (default VNone (d !! "agent_type"))
             (set_agent_type r0 (default VNone (d !! "agent_type")))) = Ok na ->
  exists t1 t2 : list event,
    trace (run_agent_workflow (VDict d))
    = (t1 ++ trace (_track_usage
                      (set_next_action
                         (set_agent_type r0 (default VNone (d !! "agent_type")))
                         na)
                      (default VNone (d !! "agent_type")) utcnow) ++ t2)%list.
Proof.
  intros Hp Hb He Hn. unfold run_agent_workflow. cbn [get]. effects.
  cbn [wi_agent_type wi_payload].
  unfold _run_body. effects. cbn [wi_agent_type wi_payload].
  rewrite Hp. effects. rewrite Hb. effects. rewrite He. effects.
  rewrite Hn. effects. rewrite _track_usage_outcome. effects.
  eexists (Log INFO _ :: trace (_load_system_prompt _)
             ++ trace (_determine_next_action _ _))%list, _.
  cbn [app]. rewrite <- !app_assoc. cbn [app]. reflexivity.
Qed.

Lemma run_agent_workflow_trace_none `{Telemetry} (d : gmap string value)
    (prompt : string) (b : AIBackend) (fn : string) :
  outcome (_load_system_prompt (default VNone (d !! "agent_type")))
    = Ok prompt ->
  get_backend = Ok b ->
  @execute b prompt (_user_messages (default (VDict ∅) (d !! "payload")))
     (VList []) = Ok None ->
  calls_to fn (trace (run_agent_workflow (VDict d))) = [].
Proof.
  intros Hp Hb He. unfold run_agent_workflow. cbn [get]. effects.
  cbn [wi_agent_type wi_payload].
  unfold _run_body. effects. cbn [wi_agent_type wi_payload].
  rewrite Hp. effects. rewrite Hb. effects. rewrite He. effects.
  rewrite !calls_to_app, _load_system_prompt_calls. reflexivity.
Qed.

Lemma run_agent_workflow_trace_raise `{Telemetry} (d : gmap string value)
    (prompt : string) (b : AIBackend) (e : exn) (fn : string) :
  outcome (_load_system_prompt (default VNone (d !! "agent_type")))
    = Ok prompt ->
  get_backend = Ok b ->
  @execute b prompt (_user_messages (default (VDict ∅) (d !! "payload")))
     (VList []) = Raise e ->
  calls_to fn (trace (run_agent_workflow (VDict d))) = [].
Proof.
  intros Hp Hb He. unfold run_agent_workflow. cbn [get]. effects.
  cbn [wi_agent_type wi_payload].
  unfold _run_body. effects. cbn [wi_agent_type wi_payload].
  rewrite Hp. effects. rewrite Hb. effects. rewrite He. effects.
  rewrite !calls_to_app, _load_system_prompt_calls. reflexivity.
Qed.

End telemetry_facts.

(** C7, as amended: the telemetry collaborator never changes what
    [run_agent_workflow] returns; [_track_usage] never raises, calls the
    collaborator exactly when the response carries usage, and logs a
    warning when the call raises; [run_agent_workflow] runs [_track_usage]
    whenever the backend returns a response and the routing extraction
    raises nothing, whatever the response's status; and it calls no
    collaborator when the backend returns nothing or raises. *)
Theorem track_usage_best_effort `{Runtime} `{Collaborators} :
  (forall (t1 t2 : Telemetry) (v : value),
     outcome (@run_agent_workflow _ _ t1 v)
     = outcome (@run_agent_workflow _ _ t2 v))
  /\ (forall (t : Telemetry) (r : AgentResponse) (a : value) (s : Z),
        outcome (_track_usage r a s) = Ok tt
        /\ trace (_track_usage r a s)
           = match usage r with
             | None => []
             | Some u =>
                 Call "track_token_usage" (_track_args r u a s)
                 :: (trace (track_token_usage (_track_args r u a s))
                     ++ match outcome (track_token_usage (_track_args r u a s))
                        with
                        | Ok _ => []
                        | Raise e =>
                            [Log WARNING
                               ("Failed to track token usage: " ++ str_exn e)]
                        end)%list
             end)
  /\ (forall (t : Telemetry) (d : gmap string value) (prompt : string)
             (b : AIBackend) (r0 : AgentResponse) (na : option NextAction),
        outcome (_load_system_prompt (default VNone (d !! "agent_type")))
          = Ok prompt ->
        get_backend = Ok b ->
        @execute b prompt
           (_user_messages (default (VDict ∅) (d !! "payload"))) (VList [])
          = Ok (Some r0) ->
        outcome (_determine_next_action (default VNone (d !! "agent_type"))
                   (set_agent_type r0 (default VNone (d !! "agent_type"))))
          = Ok na ->
        exists t1 t2 : list event,
          trace (run_agent_workflow (VDict d))
          = (t1 ++ trace (_track_usage
                            (set_next_action
                               (set_agent_type r0
                                  (default VNone (d !! "agent_type"))) na)
                            (default VNone (d !! "agent_type")) utcnow)
                ++ t2)%list)
  /\ (forall (t : Telemetry) (d : gmap string value) (prompt : string)
             (b : AIBackend) (x : result (option AgentResponse)),
        outcome (_load_system_prompt (default VNone (d !! "agent_type")))
          = Ok prompt ->
        get_backend = Ok b ->
        @execute b prompt
           (_user_messages (default (VDict ∅) (d !! "payload"))) (VList [])
          = x ->
        (x = Ok None \/ exists e, x = Raise e) ->
        calls_to "track_token_usage" (trace (run_agent_workflow (VDict d)))
        = []).
Proof.
  split; [exact run_agent_workflow_telemetry|].
  split; [intros; split; [apply _track_usage_outcome|apply _track_usage_trace]|].
  split; [intros; eapply run_agent_workflow_trace_some; eauto|].
  intros t d prompt b x Hp Hb He [->|[e ->]].
  - eapply run_agent_workflow_trace_none; eauto.
  - eapply run_agent_workflow_trace_raise; eauto.
Qed.

(** The amended C7 on a response that carries usage, with the telemetry
    collaborator down: the call is made and the failure logged. *)
Lemma track_usage_best_effort_witness :
  trace (@_track_usage fixture.failing_telemetry
           {| status := VStr "success"; responses := VList [];
              thread_id := VNone; reason := VNone;
              usage := Some {| prompt_tokens := VInt 7;
                               completion_tokens := VInt 5;
                               total_tokens := VInt 12 |};
              tool_calls := VInt 0; inference_rounds := VInt 1;
              agent_type := VStr "triage"; model_name := VStr "gpt-4o";
              next_action := None |}
           (VStr "triage") 0)
  = [Call "track_token_usage"
       [VStr "gpt-4o"; VInt 7; VInt 5; VStr "triage"; VInt 0; VInt 1];
     Log WARNING "Failed to track token usage: telemetry unavailable"].
Proof.
  rewrite (proj2 (proj1 (proj2 (@track_usage_best_effort fixture.runtime
             (fixture.collaborators (Ok fixture.silent_backend))))
           fixture.failing_telemetry _ _ _)).
  reflexivity.
Defined.

(** C7, as stated, fails: when the backend answers nothing the run ends
    without any call to the telemetry collaborator. *)
Lemma no_response_no_tracking_counterexample :
  calls_to "track_token_usage"
    (trace (@run_agent_workflow fixture.runtime
              (fixture.collaborators (Ok fixture.silent_backend))
              fixture.failing_telemetry
              (VDict (list_to_map [("agent_type", VStr "triage")]))))
  = [].
Proof. vm_compute. reflexivity. Qed.

(** ** The task dispatcher *)

Section dispatcher_facts.
Context `{Runtime} `{Transport}.

Lemma calls_only_app (t1 t2 : list event) :
  calls_only (t1 ++ t2) = (calls_only t1 ++ calls_only t2)%list.
Proof. apply List.filter_app. Qed.

(** What [queue_message] does once the queue name and the connection
    string are there. *)
Lemma queue_message_configured (d : gmap string value) (conn : string) :
  truthy (default VNone (d !! "queue")) = true ->
  SERVICE_BUS_CONNECTION_STRING = Some conn ->
  conn <> "" ->
  queue_message (VDict d)
  = _retry_loop conn (default VNone (d !! "queue"))
      (default (VDict ∅) (d !! "payload")) [0; 1; 2]%nat.
Proof.
  intros Hq Hc Hne. unfold queue_message. cbn [get].
  unfold mbind, M_bind, lift. cbn [app].
  rewrite Hq, Hc. cbn [negb].
  destruct (String.eqb_spec conn ""); [contradiction|]. cbn [negb].
  destruct (_retry_loop _ _ _ _); reflexivity.
Qed.

Lemma queue_message_unconfigured (d : gmap string value) :
  truthy (default VNone (d !! "queue")) = true ->
  SERVICE_BUS_CONNECTION_STRING = None
  \/ SERVICE_BUS_CONNECTION_STRING = Some "" ->
  queue_message (VDict d)
  = ([Log ERROR "SERVICE_BUS_CONNECTION_STRING not configured"],
     Ok (config_error_reply "Service Bus not configured")).
Proof.
  intros Hq Hc. unfold queue_message. cbn [get].
  unfold mbind, M_bind, lift. cbn [app].
  rewrite Hq. cbn [negb]. destruct Hc as [-> | ->]; reflexivity.
Qed.

End dispatcher_facts.

(** C4: [queue_message] makes at most [max_retries] = 3 delivery attempts
    and sleeps the entries of [retry_delays] = 2, 5, 10 in turn after a
    failed attempt that is not the last.  With a queue name and a
    connection string: the first success on attempt 1, 2 or 3 is
    answered by status success with that number of attempts; three
    failures are answered by status error with the last failure's text
    and attempts 3, after exactly three attempts.  Without a queue name,
    or without a connection string, the answer is status error at once
    and no attempt is made. *)
Theorem queue_message_retries `{Runtime} `{Transport} (d : gmap string value) :
  max_retries = 3%nat /\ retry_delays = [2; 5; 10]%Z
  /\ (truthy (default VNone (d !! "queue")) = false ->
      queue_message (VDict d)
      = ([], Ok (config_error_reply "No queue name provided")))
  /\ (truthy (default VNone (d !! "queue")) = true ->
      SERVICE_BUS_CONNECTION_STRING = None
      \/ SERVICE_BUS_CONNECTION_STRING = Some "" ->
      outcome (queue_message (VDict d))
      = Ok (config_error_reply "Service Bus not configured")
      /\ calls_only (trace (queue_message (VDict d))) = [])
  /\ (forall conn : string,
        truthy (default VNone (d !! "queue")) = true ->
        SERVICE_BUS_CONNECTION_STRING = Some conn -> conn <> "" ->
        let send i :=
          send_messages i conn (default VNone (d !! "queue"))
            (json_dumps (default (VDict ∅) (d !! "payload"))) in
        let reply := outcome (queue_message (VDict d)) in
        let calls := calls_only (trace (queue_message (VDict d))) in
        (forall u, send 0%nat = Ok u ->
           reply = Ok (success_reply d 1) /\ calls = [send_call d])
        /\ (forall e0 u, send 0%nat = Raise e0 -> send 1%nat = Ok u ->
              reply = Ok (success_reply d 2)
              /\ calls = [send_call d; sleep_call 2; send_call d])
        /\ (forall e0 e1 u,
              send 0%nat = Raise e0 -> send 1%nat = Raise e1 ->
              send 2%nat = Ok u ->
              reply = Ok (success_reply d 3)
              /\ calls = [send_call d; sleep_call 2; send_call d;
                          sleep_call 5; send_call d])
        /\ (forall e0 e1 e2,
              send 0%nat = Raise e0 -> send 1%nat = Raise e1 ->
              send 2%nat = Raise e2 ->
              reply = Ok (exhausted_reply e2)
              /\ calls = [send_call d; sleep_call 2; send_call d;
                          sleep_call 5; send_call d])).
Proof.
  split; [reflexivity|]. split; [reflexivity|]. split; [|split].
  - intros Hq. unfold queue_message. cbn [get].
    unfold mbind, M_bind, lift. cbn [app]. rewrite Hq. reflexivity.
  - intros Hq Hc. rewrite (queue_message_unconfigured d Hq Hc).
    split; reflexivity.
  - intros conn Hq Hc Hne send reply calls. subst reply calls.
    rewrite (queue_message_configured d conn Hq Hc Hne).
    subst send. cbv beta.
    repeat split; intros;
      cbn [_retry_loop]; effects;
      repeat match goal with
             | Hs : send_messages _ _ _ _ = _ |- _ =>
                 rewrite Hs; clear Hs; effects;
                 cbn [Nat.eqb max_retries Nat.sub lookup list_lookup retry_delays]; effects
             end;
      reflexivity.
Qed.


(** C4 on a transport that fails twice and then succeeds. *)
Lemma queue_message_retries_witness :
  outcome (@queue_message fixture.runtime (fixture.flaky_transport 2)
             (VDict fixture.results_input))
  = Ok (VDict (list_to_map
          [("status", VStr "success"); ("queue", VStr "agent-results");
           ("attempts", VInt 3)])).
Proof.
  pose proof (@queue_message_retries fixture.runtime
                (fixture.flaky_transport 2) fixture.results_input)
    as (_ & _ & _ & _ & Hw).
  assert (Hq : truthy (default VNone (fixture.results_input !! "queue")) = true)
    by (vm_compute; reflexivity).
  assert (Hne : "Endpoint=sb://test" <> "") by discriminate.
  destruct (Hw "Endpoint=sb://test" Hq eq_refl Hne) as (_ & _ & H3 & _).
  destruct (H3 (Exception "ServiceBusError" "connection reset")
               (Exception "ServiceBusError" "connection reset") tt
               eq_refl eq_refl eq_refl) as [Hreply _].
  rewrite Hreply. vm_compute. reflexivity.
Defined.

(** ** Instance keys *)

Lemma hyphen_split (t1 i1 t2 i2 : string) :
  no_hyphen t1 = true -> no_hyphen t2 = true ->
  t1 ++ "-" ++ i1 = t2 ++ "-" ++ i2 -> t1 = t2 /\ i1 = i2.
Proof.
  revert t2. induction t1 as [|c t1 IH]; intros [|c' t2] H1 H2 Heq;
    cbn in Heq.
  - injection Heq as Heq. split; [reflexivity | exact Heq].
  - injection Heq as Hc _. subst c'. cbn in H2. discriminate H2.
  - injection Heq as Hc _. subst c. cbn in H1. discriminate H1.
  - injection Heq as Hc Heq. subst c'. cbn in H1, H2.
    apply andb_prop in H1 as [_ H1]. apply andb_prop in H2 as [_ H2].
    destruct (IH t2 H1 H2 Heq) as [-> ->]. split; reflexivity.
Qed.

(** C5, as amended: over pairs of texts whose first component holds no
    hyphen, the derivation of the instance id is injective, for the
    orchestrator queue ([orchestrate-type-id]) and for the task queue
    ([task-agent-id]) alike. *)
Theorem instance_id_injective `{Runtime} (t1 i1 t2 i2 : string) :
  no_hyphen t1 = true -> no_hyphen t2 = true ->
  (orchestrate_instance_id (VStr t1) (VStr i1)
   = orchestrate_instance_id (VStr t2) (VStr i2) -> t1 = t2 /\ i1 = i2)
  /\ (task_instance_id (VStr t1) (VStr i1)
      = task_instance_id (VStr t2) (VStr i2) -> t1 = t2 /\ i1 = i2).
Proof.
  intros H1 H2. unfold orchestrate_instance_id, task_instance_id. cbn [str].
  split; intros Heq; apply (hyphen_split t1 i1 t2 i2 H1 H2).
  - cbn in Heq. injection Heq as Heq. exact Heq.
  - cbn in Heq. injection Heq as Heq. exact Heq.
Qed.

(** The amended C5 on the event of the spec's end-to-end scenario. *)
Lemma instance_id_injective_witness :
  no_hyphen "order" = true /\ ("order" = "order" /\ "42" = "42").
Proof.
  split; [reflexivity|].
  exact (proj1 (@instance_id_injective fixture.runtime "order" "42" "order" "42"
                  eq_refl eq_refl) eq_refl).
Defined.

(** C5, as stated, fails: two different pairs of event type and event id
    are given the same instance id. *)
Lemma instance_id_collision_counterexample :
  @orchestrate_instance_id fixture.runtime (VStr "a-b") (VStr "c")
  = @orchestrate_instance_id fixture.runtime (VStr "a") (VStr "b-c")
  /\ (VStr "a-b", VStr "c") <> (VStr "a", VStr "b-c").
Proof. split; [reflexivity | discriminate]. Qed.

(** ** The orchestrator *)

(** C2, as amended: when the triage step answers status error, the
    orchestrator calls the triage activity and nothing else, never
    [queue_message], and returns the mapping of status error and the
    triage reason; it returns and does not raise, so the run is recorded
    as Completed. *)
Theorem triage_error_short_circuits `{Runtime}
    (activity : string -> value -> result value) (d tr : gmap string value) :
  activity "run_agent_workflow" (triage_input (VDict d)) = Ok (VDict tr) ->
  tr !! "status" = Some (VStr "error") ->
  outcome (run_orchestrator activity (main_orchestrator (VDict d)))
  = Ok (VDict (list_to_map
          [("status", VStr "error");
           ("reason", default VNone (tr !! "reason"))]))
  /\ calls_only (trace (run_orchestrator activity (main_orchestrator (VDict d))))
     = [Call "run_agent_workflow" [triage_input (VDict d)]]
  /\ calls_to "queue_message"
       (trace (run_orchestrator activity (main_orchestrator (VDict d)))) = []
  /\ final_status
       (outcome (run_orchestrator activity (main_orchestrator (VDict d))))
     = Completed.
Proof.
  intros Hact Hst.
  assert (Hrun :
    run_orchestrator activity (main_orchestrator (VDict d))
    = ([Log INFO ("Main orchestrator started: event_type="
                    ++ str (default (VStr "unknown") (d !! "event_type")));
        Call "run_agent_workflow" [triage_input (VDict d)];
        Log ERROR ("Triage failed: " ++ str (default VNone (tr !! "reason")))],
       Ok (VDict (list_to_map
             [("status", VStr "error");
              ("reason", default VNone (tr !! "reason"))])))).
  { unfold main_orchestrator. cbn -[list_to_map str].
    fold (triage_input (VDict d)). rewrite Hact. cbn -[list_to_map str].
    rewrite Hst. reflexivity. }
  rewrite Hrun. repeat split; reflexivity.
Qed.

(** The amended C2 on the order event, with a triage step that fails. *)
Lemma triage_error_short_circuits_witness :
  calls_to "queue_message"
    (trace (run_orchestrator fixture.failing_triage
              (@main_orchestrator fixture.runtime fixture.order_body))) = [].
Proof.
  assert (Hst : (list_to_map
                   [("status", VStr "error"); ("reason", VStr "backend down")]
                 : gmap string value) !! "status" = Some (VStr "error"))
    by (vm_compute; reflexivity).
  exact (proj1 (proj2 (proj2 (@triage_error_short_circuits fixture.runtime
           fixture.failing_triage
           (list_to_map [("event_type", VStr "order"); ("event_id", VStr "42")])
           _ eq_refl Hst)))).
Defined.

(** C2, as stated, fails: after a triage step that answers status error
    the run is not recorded as Failed. *)
Lemma triage_error_not_failed_counterexample :
  final_status
    (outcome (run_orchestrator fixture.failing_triage
                (@main_orchestrator fixture.runtime fixture.order_body)))
  <> Failed.
Proof. vm_compute. discriminate. Qed.

(** ** The queue consumers *)

(** C3: when the status of the derived instance id is Running or Pending,
    each consumer logs a warning and returns without raising and without
    calling [start_new]: its only client call is [get_status]. *)
Theorem duplicate_start_is_skipped `{Runtime}
    (client : forall X, clientE X -> result X) (msg : string)
    (d : gmap string value) (st : DurableOrchestrationStatus) :
  json_loads msg = Ok (VDict d) ->
  runtime_status st = Some Running \/ runtime_status st = Some Pending ->
  (client _ (get_status
               (orchestrate_instance_id
                  (default (VStr "unknown") (d !! "event_type"))
                  (default (VStr "unknown") (d !! "event_id"))))
     = Ok (Some st) ->
   run_consumer client (orchestrator_queue_consumer msg)
   = ([Log INFO
         ("Orchestrator queue: event_type="
            ++ str (default (VStr "unknown") (d !! "event_type"))
            ++ ", event_id="
            ++ str (default (VStr "unknown") (d !! "event_id")));
       Call "get_status"
         [VStr (orchestrate_instance_id
                  (default (VStr "unknown") (d !! "event_type"))
                  (default (VStr "unknown") (d !! "event_id")))];
       Log WARNING
         ("Orchestration "
            ++ orchestrate_instance_id
                 (default (VStr "unknown") (d !! "event_type"))
                 (default (VStr "unknown") (d !! "event_id"))
            ++ " already running")],
      Ok tt))
  /\ (client _ (get_status
                  (task_instance_id
                     (default VNone (d !! "agent_type"))
                     (default (VStr "unknown") (d !! "task_id"))))
        = Ok (Some st) ->
      run_consumer client (task_queue_consumer msg)
      = ([Log INFO
            ("Task queue: agent="
               ++ str (default VNone (d !! "agent_type"))
               ++ ", task_id="
               ++ str (default (VStr "unknown") (d !! "task_id")));
          Call "get_status"
            [VStr (task_instance_id
                     (default VNone (d !! "agent_type"))
                     (default (VStr "unknown") (d !! "task_id")))];
          Log WARNING
            ("Task orchestration "
               ++ task_instance_id
                    (default VNone (d !! "agent_type"))
                    (default (VStr "unknown") (d !! "task_id"))
               ++ " already running")],
         Ok tt)).
Proof.
  intros Hmsg Hst.
  assert (Hr : already_running (Some st) = true).
  { unfold already_running. destruct Hst as [-> | ->]; reflexivity. }
  split; intros Hc.
  - unfold orchestrator_queue_consumer, _load_body.
    rewrite Hmsg. cbn -[str orchestrate_instance_id already_running].
    rewrite Hc. cbn -[str orchestrate_instance_id already_running].
    rewrite Hr. reflexivity.
  - unfold task_queue_consumer, _load_body.
    rewrite Hmsg. cbn -[str task_instance_id already_running].
    rewrite Hc. cbn -[str task_instance_id already_running].
    rewrite Hr. reflexivity.
Qed.

(** C3 on the order message, its instance already running. *)
Lemma duplicate_start_is_skipped_witness :
  calls_to "start_new"
    (trace (run_consumer fixture.busy_client
              (@orchestrator_queue_consumer fixture.runtime fixture.order_msg)))
  = []
  /\ outcome (run_consumer fixture.busy_client
                (@orchestrator_queue_consumer fixture.runtime fixture.order_msg))
     = Ok tt.
Proof.
  assert (Hmsg : @json_loads fixture.runtime fixture.order_msg
                 = Ok (VDict (list_to_map
                      [("event_type", VStr "order"); ("event_id", VStr "42")])))
    by (vm_compute; reflexivity).
  rewrite (proj1 (@duplicate_start_is_skipped fixture.runtime fixture.busy_client
                    fixture.order_msg _
                    {| runtime_status := Some Running; output := VNone |}
                    Hmsg (or_introl eq_refl)) eq_refl).
  split; reflexivity.
Defined.

(** ** Workers racing on one instance key *)

Section race_facts.
Context `{Runtime}.

Lemma step_ended (st : store) : step (Ret tt : prog clientE unit) st = (Ret tt, st).
Proof. reflexivity. Qed.

Lemma step_check_busy (msg : string) (d : gmap string value) (st : store) :
  json_loads msg = Ok (VDict d) ->
  in_flight st (orchestrate_key d) = true ->
  step (orchestrator_queue_consumer msg) st = (Ret tt, st).
Proof.
  intros Hmsg Hbusy. unfold step, orchestrator_queue_consumer, _load_body.
  rewrite Hmsg. cbn -[str orchestrate_instance_id already_running].
  fold (orchestrate_key d). unfold in_flight in Hbusy.
  destruct (records st !! orchestrate_key d) as [[]|]; try discriminate Hbusy;
    reflexivity.
Qed.

Lemma step_check_free (msg : string) (d : gmap string value) (st : store) :
  json_loads msg = Ok (VDict d) ->
  in_flight st (orchestrate_key d) = false ->
  exists w : prog clientE unit,
    step (orchestrator_queue_consumer msg) st = (w, st)
    /\ forall st' : store,
         step w st'
         = (Ret tt,
            if in_flight st' (orchestrate_key d) then st'
            else {| records := <[orchestrate_key d := Pending]> (records st');
                    started := (started st' ++ [run_of d])%list |}).
Proof.
  intros Hmsg Hfree. unfold step, orchestrator_queue_consumer, _load_body.
  rewrite Hmsg. cbn -[str orchestrate_instance_id already_running in_flight].
  fold (orchestrate_key d). unfold in_flight in Hfree.
  destruct (records st !! orchestrate_key d) as [[]|]; try discriminate Hfree;
    (eexists; split;
     [reflexivity
     | intros st'; cbn -[in_flight]; unfold run_of;
       destruct (in_flight st' (orchestrate_key d)); reflexivity]).
Qed.

End race_facts.

Lemma in_flight_begun `{Runtime} (d : gmap string value) (st : store) :
  in_flight {| records := <[orchestrate_key d := Pending]> (records st);
               started := (started st ++ [run_of d])%list |}
    (orchestrate_key d) = true.
Proof. unfold in_flight. cbn [records]. rewrite lookup_insert_eq. reflexivity. Qed.

Lemma answer_room {X} (op : clientE X) (st : store) (key : string) :
  room key (snd (answer op st)) = room key st.
Proof.
  destruct op as [instance_id | name instance_id client_input];
    [reflexivity|].
  cbn [answer]. destruct (in_flight st instance_id) eqn:Hin; [reflexivity|].
  cbn [snd]. unfold room, runs_of. cbn [started].
  rewrite List.filter_app, length_app. cbn [List.filter snd fst].
  destruct (String.eqb_spec instance_id key) as [->|Hne].
  - rewrite Hin.
    assert (Hnow : in_flight
              {| records := <[key := Pending]> (records st);
                 started := (started st ++ [(name, key, client_input)])%list |}
              key = true).
    { unfold in_flight. cbn [records]. rewrite lookup_insert_eq. reflexivity. }
    rewrite Hnow. cbn [length]. lia.
  - assert (Hsame : in_flight
              {| records := <[instance_id := Pending]> (records st);
                 started :=
                   (started st ++ [(name, instance_id, client_input)])%list |}
              key = in_flight st key).
    { unfold in_flight. cbn [records].
      rewrite lookup_insert_ne by exact Hne. reflexivity. }
    rewrite Hsame. cbn [length]. lia.
Qed.

Lemma step_room {A} (p : prog clientE A) (st : store) (key : string) :
  room key (snd (step p st)) = room key st.
Proof.
  unfold step. destruct (settle p) as [a|e|lv m k|X op k]; try reflexivity.
  rewrite <- (answer_room op st key).
  destruct (answer op st) as [r st']. reflexivity.
Qed.

Lemma run_schedule_room {A} (sched : list nat)
    (workers : list (prog clientE A)) (st : store) (key : string) :
  room key (snd (run_schedule sched workers st)) = room key st.
Proof.
  revert workers st. induction sched as [|i rest IH]; intros workers st;
    [reflexivity|].
  cbn [run_schedule]. destruct (workers !! i) as [p|]; [|apply IH].
  rewrite <- (step_room p st key).
  destruct (step p st) as [p' st']. apply IH.
Qed.

(** C9: the registry's start is one check-then-set on the record of the
    key, so whatever the workers do and however their operations are
    interleaved, at most one run is begun for a key that has none in
    flight, and none for a key that has one.  In particular two workers
    given the same message, its key not in flight, begin exactly one run
    in each of the six interleavings of their status checks and starts. *)
Theorem racing_workers_start_one_run `{Runtime} :
  (forall (A : Type) (workers : list (prog clientE A)) (sched : list nat)
          (st : store) (key : string),
     (length (runs_of key (snd (run_schedule sched workers st)))
      <= length (runs_of key st) + (if in_flight st key then 0 else 1))%nat)
  /\ (forall (msg : string) (d : gmap string value) (st : store)
             (sched : list nat),
        json_loads msg = Ok (VDict d) ->
        in_flight st (orchestrate_key d) = false ->
        In sched interleavings ->
        started (snd (run_schedule sched
                        [orchestrator_queue_consumer msg;
                         orchestrator_queue_consumer msg] st))
        = (started st ++ [run_of d])%list).
Proof.
  split.
  - intros A workers sched st key.
    pose proof (run_schedule_room sched workers st key) as Hroom.
    unfold room in Hroom.
    destruct (in_flight (snd (run_schedule sched workers st)) key); lia.
  - intros msg d st sched Hmsg Hfree Hin.
    destruct (step_check_free msg d st Hmsg Hfree) as (w & Hcheck & Hstart).
    pose proof (step_check_busy msg d) as Hbusy.
    pose proof (in_flight_begun d) as Hbegun.
    unfold interleavings in Hin. cbn [In] in Hin.
    destruct Hin as [<-|[<-|[<-|[<-|[<-|[<-|[]]]]]]];
      cbn [run_schedule lookup list_lookup insert list_insert];
      repeat (first [ rewrite Hcheck | rewrite Hstart | rewrite step_ended
                    | rewrite (Hbusy _ Hmsg (Hbegun _))
                    | rewrite Hfree | rewrite Hbegun ];
              cbn [run_schedule lookup list_lookup insert list_insert]);
      cbn [snd started]; reflexivity.
Qed.

(** C9 on the order message, both workers checking the status before
    either starts. *)
Lemma racing_workers_start_one_run_witness :
  started (snd (run_schedule [0; 1; 0; 1]%nat
                  [@orchestrator_queue_consumer fixture.runtime fixture.order_msg;
                   @orchestrator_queue_consumer fixture.runtime fixture.order_msg]
                  empty_store))
  = [("main_orchestrator", "orchestrate-order-42", fixture.order_body)].
Proof.
  assert (Hmsg : @json_loads fixture.runtime fixture.order_msg
                 = Ok (VDict (list_to_map
                      [("event_type", VStr "order"); ("event_id", VStr "42")])))
    by (vm_compute; reflexivity).
  assert (Hfree : in_flight empty_store
                    (@orchestrate_key fixture.runtime
                       (list_to_map
                          [("event_type", VStr "order");
                           ("event_id", VStr "42")])) = false)
    by (vm_compute; reflexivity).
  rewrite (proj2 (@racing_workers_start_one_run fixture.runtime)
             fixture.order_msg _ empty_store [0; 1; 0; 1]%nat Hmsg Hfree
             (or_intror (or_introl eq_refl))).
  vm_compute. reflexivity.
Defined.

(** ** The durable step log *)

Section step_log_facts.
Context {W : Type} (activity : string -> value -> W -> result value * W).

Lemma replay_nil (p : prog contextE value) : replay p [] = p.
Proof.
  induction p as [v|e|lv msg k IH|X op k IH]; cbn; try reflexivity.
  rewrite IH. reflexivity.
Qed.

Lemma replay_app (p : prog contextE value) (h h' : list (result value)) :
  replay p (h ++ h') = replay (replay p h) h'.
Proof.
  revert h. induction p as [v|e|lv msg k IH|X op k IH]; intros h;
    try reflexivity.
  - cbn. rewrite IH. reflexivity.
  - destruct h as [|r h]; [reflexivity|].
    destruct op. cbn. apply IH.
Qed.

Lemma advance_complete (p : prog contextE value) (n : nat) (st : run_state W) :
  match advance activity n p st with
  | (Some r, st') => complete activity p st = (r, st')
  | (None, st') =>
      exists new : list (result value),
        history st' = (history st ++ new)%list
        /\ complete activity (replay p new) st' = complete activity p st
  end.
Proof.
  revert n st. induction p as [v|e|lv msg k IH|X op k IH]; intros n st.
  - reflexivity.
  - reflexivity.
  - cbn. specialize (IH n st). destruct (advance activity n k st) as [[r|] st'].
    + exact IH.
    + destruct IH as (new & Hh & Hc). exists new. split; [exact Hh|]. exact Hc.
  - destruct op as [name input]. destruct n as [|n].
    + cbn. exists []. split; [symmetry; apply app_nil_r | reflexivity].
    + cbn. destruct (execute_step activity name input st) as [r st1] eqn:Hstep.
      assert (Hh1 : history st1 = (history st ++ [r])%list).
      { unfold execute_step in Hstep.
        destruct (activity name input (world st)) as [r' w'].
        injection Hstep as <- <-. reflexivity. }
      specialize (IH r n st1).
      destruct (advance activity n (k r) st1) as [[r'|] st'].
      * exact IH.
      * destruct IH as (new & Hh & Hc). exists (r :: new). split.
        -- rewrite Hh, Hh1, <- app_assoc. reflexivity.
        -- exact Hc.
Qed.

Lemma run_interrupted_complete (p0 : prog contextE value) (budgets : list nat)
    (st : run_state W) :
  run_interrupted activity p0 budgets st
  = complete activity (replay p0 (history st)) st.
Proof.
  revert st. induction budgets as [|n rest IH]; intros st; [reflexivity|].
  cbn. pose proof (advance_complete (replay p0 (history st)) n st) as Hadv.
  destruct (advance activity n (replay p0 (history st)) st) as [[r|] st'].
  - symmetry. exact Hadv.
  - destruct Hadv as (new & Hh & Hc). rewrite IH, Hh, replay_app. exact Hc.
Qed.

Lemma complete_recorded (p : prog contextE value) (st : run_state W) :
  length (history st) = length (executed st) ->
  length (history (snd (complete activity p st)))
  = length (executed (snd (complete activity p st))).
Proof.
  revert st. induction p as [v|e|lv msg k IH|X op k IH]; intros st Hlen;
    try exact Hlen.
  - cbn. apply IH, Hlen.
  - destruct op as [name input]. cbn. unfold execute_step.
    destruct (activity name input (world st)) as [r w']. apply IH.
    cbn. rewrite !length_app, Hlen. reflexivity.
Qed.

End step_log_facts.

Lemma main_orchestrator_steps `{Runtime} {W : Type}
    (activity : string -> value -> W -> result value * W)
    (input : value) (w : W) :
  (length (executed (snd (complete activity (main_orchestrator input)
                            (fresh w)))) <= 2)%nat.
Proof.
  unfold main_orchestrator.
  destruct input as [| | | | | |d]; try (cbn; lia).
  cbn -[list_to_map str]. unfold execute_step. cbn [world fresh].
  destruct (activity _ _ w) as [[tr|e] w1]; [|cbn; lia].
  destruct tr as [| | | | | |tr]; try (cbn; lia).
  cbn -[list_to_map str].
  destruct (eq_str _ "error"); [cbn; lia|].
  unfold _route. cbn -[list_to_map str truthy].
  destruct (truthy (default VNone (tr !! "next_action"))); [|cbn; lia].
  destruct (default VNone (tr !! "next_action")) as [| | | | | |na];
    try (cbn; lia).
  cbn -[list_to_map str truthy].
  destruct (truthy _ && negb _); [|cbn; lia].
  cbn -[list_to_map str truthy]. unfold execute_step. cbn [world].
  destruct (activity _ _ w1) as [[v|e] w2]; cbn; lia.
Qed.

(** C8: driven by the durable step log, a run of [main_orchestrator]
    that is interrupted at step boundaries and resumed from the log, any
    number of times, ends with the result, the world, the log and the
    list of executed activities of the run that is never interrupted: no
    completed step is executed again and the recorded results are the
    ones used.  Every executed step has its result in the log, and at
    most two activities are executed. *)
Theorem interrupted_run_replays `{Runtime} {W : Type}
    (activity : string -> value -> W -> result value * W)
    (input : value) (budgets : list nat) (w : W) :
  run_interrupted activity (main_orchestrator input) budgets (fresh w)
  = complete activity (main_orchestrator input) (fresh w)
  /\ length (history (snd (run_interrupted activity (main_orchestrator input)
                             budgets (fresh w))))
     = length (executed (snd (run_interrupted activity (main_orchestrator input)
                                budgets (fresh w))))
  /\ (length (executed (snd (run_interrupted activity (main_orchestrator input)
                               budgets (fresh w)))) <= 2)%nat.
Proof.
  rewrite run_interrupted_complete. cbn [history fresh]. rewrite replay_nil.
  split; [reflexivity|]. split.
  - apply complete_recorded. reflexivity.
  - apply main_orchestrator_steps.
Qed.

(* ===================================================================== *)
(** * Further properties                                                 *)
(* ===================================================================== *)

(** ** The orchestrator: dispatch, no dispatch, failure *)

Section orchestrator_paths.
Context `{Runtime}.

Lemma main_orchestrator_dispatch_run
    (activity : string -> value -> result value)
    (d tr na : gmap string value) (reply : value) :
  activity "run_agent_workflow" (triage_input (VDict d)) = Ok (VDict tr) ->
  eq_str (default VNone (tr !! "status")) "error" = false ->
  tr !! "next_action" = Some (VDict na) ->
  truthy (default VNone (na !! "target_queue")) = true ->
  eq_str (default VNone (na !! "target_queue")) "none" = false ->
  activity "queue_message" (dispatch_input na) = Ok reply ->
  run_orchestrator activity (main_orchestrator (VDict d))
  = ([started_log d;
      Call "run_agent_workflow" [triage_input (VDict d)];
      Call "queue_message" [dispatch_input na];
      Log INFO ("Routed to queue: "
                  ++ str (default VNone (na !! "target_queue")))],
     Ok (completed_reply d (VDict tr))).
Proof.
  intros Hact Hst Hna Hq Hnone Hsend.
  assert (Hne : truthy (VDict na) = true).
  { cbn. destruct (bool_decide (na = ∅)) eqn:He; [|reflexivity].
    apply bool_decide_eq_true in He. subst na.
    rewrite lookup_empty in Hq. discriminate Hq. }
  unfold main_orchestrator. cbn -[list_to_map str truthy eq_str].
  fold (triage_input (VDict d)). rewrite Hact.
  cbn -[list_to_map str truthy eq_str]. rewrite Hst.
  unfold _route. cbn -[list_to_map str truthy eq_str]. rewrite Hna.
  cbn -[list_to_map str truthy eq_str]. rewrite Hne.
  cbn -[list_to_map str truthy eq_str]. rewrite Hq, Hnone.
  cbn -[list_to_map str truthy eq_str].
  fold (dispatch_input na). rewrite Hsend. reflexivity.
Qed.

End orchestrator_paths.

(** X1: when the triage result is not an error and its [next_action] is a
    mapping with a non-empty target_queue other than "none", the
    orchestrator calls the triage activity and then [queue_message] once,
    with that queue and payload, and returns status completed with the
    event type and the triage result, whatever the dispatch answers. *)
Theorem orchestrator_dispatches `{Runtime}
    (activity : string -> value -> result value)
    (d tr na : gmap string value) (reply : value) :
  activity "run_agent_workflow" (triage_input (VDict d)) = Ok (VDict tr) ->
  eq_str (default VNone (tr !! "status")) "error" = false ->
  tr !! "next_action" = Some (VDict na) ->
  truthy (default VNone (na !! "target_queue")) = true ->
  eq_str (default VNone (na !! "target_queue")) "none" = false ->
  activity "queue_message" (dispatch_input na) = Ok reply ->
  run_orchestrator activity (main_orchestrator (VDict d))
  = ([started_log d;
      Call "run_agent_workflow" [triage_input (VDict d)];
      Call "queue_message" [dispatch_input na];
      Log INFO ("Routed to queue: "
                  ++ str (default VNone (na !! "target_queue")))],
     Ok (completed_reply d (VDict tr))).
Proof. apply main_orchestrator_dispatch_run. Qed.

(** X1 on the spec's end-to-end scenario, the dispatch answering an
    error. *)
Lemma orchestrator_dispatches_witness :
  outcome (run_orchestrator (scenario.activities scenario.routed_triage)
             (@main_orchestrator fixture.runtime (VDict scenario.order_fields)))
  = Ok (VDict (list_to_map
          [("status", VStr "completed"); ("event_type", VStr "order");
           ("triage_result", VDict scenario.routed_triage)])).
Proof.
  assert (H1 : eq_str (default VNone (scenario.routed_triage !! "status"))
                 "error" = false) by (vm_compute; reflexivity).
  assert (H2 : scenario.routed_triage !! "next_action"
               = Some (VDict scenario.routed_action))
    by (vm_compute; reflexivity).
  assert (H3 : truthy (default VNone (scenario.routed_action !! "target_queue"))
               = true) by (vm_compute; reflexivity).
  assert (H4 : eq_str (default VNone (scenario.routed_action !! "target_queue"))
                 "none" = false) by (vm_compute; reflexivity).
  rewrite (@orchestrator_dispatches fixture.runtime
             (scenario.activities scenario.routed_triage)
             scenario.order_fields scenario.routed_triage
             scenario.routed_action _ eq_refl H1 H2 H3 H4 eq_refl).
  vm_compute. reflexivity.
Defined.

(** X2: when the triage result is not an error and its [next_action] is
    empty or missing, or is a mapping whose target_queue is empty or
    "none", the orchestrator calls the triage activity only and returns
    status completed. *)
Theorem orchestrator_skips_dispatch `{Runtime}
    (activity : string -> value -> result value)
    (d tr : gmap string value) :
  activity "run_agent_workflow" (triage_input (VDict d)) = Ok (VDict tr) ->
  eq_str (default VNone (tr !! "status")) "error" = false ->
  truthy (default VNone (tr !! "next_action")) = false
  \/ (exists na : gmap string value,
        tr !! "next_action" = Some (VDict na)
        /\ (truthy (default VNone (na !! "target_queue")) = false
            \/ eq_str (default VNone (na !! "target_queue")) "none" = true)) ->
  run_orchestrator activity (main_orchestrator (VDict d))
  = ([started_log d; Call "run_agent_workflow" [triage_input (VDict d)]],
     Ok (completed_reply d (VDict tr))).
Proof.
  intros Hact Hst Hcase.
  unfold main_orchestrator. cbn -[list_to_map str truthy eq_str].
  fold (triage_input (VDict d)). rewrite Hact.
  cbn -[list_to_map str truthy eq_str]. rewrite Hst.
  unfold _route. cbn -[list_to_map str truthy eq_str].
  destruct Hcase as [Hfalsy | (na & Hna & Hq)].
  - rewrite Hfalsy. reflexivity.
  - rewrite Hna. cbn -[list_to_map str truthy eq_str].
    destruct (truthy (VDict na)); [|reflexivity].
    cbn -[list_to_map str truthy eq_str].
    destruct Hq as [-> | ->]; [reflexivity|].
    rewrite andb_false_r. reflexivity.
Qed.

(** X2 on a triage result whose next_action is None. *)
Lemma orchestrator_skips_dispatch_witness :
  calls_only
    (trace (run_orchestrator (scenario.activities scenario.unrouted_triage)
              (@main_orchestrator fixture.runtime
                 (VDict scenario.order_fields))))
  = [Call "run_agent_workflow"
       [@triage_input (VDict scenario.order_fields)]].
Proof.
  assert (H1 : eq_str (default VNone (scenario.unrouted_triage !! "status"))
                 "error" = false) by (vm_compute; reflexivity).
  assert (H2 : truthy (default VNone (scenario.unrouted_triage !! "next_action"))
               = false) by (vm_compute; reflexivity).
  rewrite (@orchestrator_skips_dispatch fixture.runtime
             (scenario.activities scenario.unrouted_triage)
             scenario.order_fields scenario.unrouted_triage
             eq_refl H1 (or_introl H2)).
  reflexivity.
Defined.

(** X3: an exception raised by the triage activity is raised by the
    orchestrator: nothing is dispatched and the run is recorded as
    Failed.  An input that is not a mapping, whatever else it is, raises
    AttributeError before any log record and any activity. *)
Theorem orchestrator_failure_propagates `{Runtime}
    (activity : string -> value -> result value)
    (d : gmap string value) (e : exn) :
  activity "run_agent_workflow" (triage_input (VDict d)) = Raise e ->
  run_orchestrator activity (main_orchestrator (VDict d))
  = ([started_log d; Call "run_agent_workflow" [triage_input (VDict d)]],
     Raise e)
  /\ final_status
       (outcome (run_orchestrator activity (main_orchestrator (VDict d))))
     = Failed
  /\ (forall v : value,
        isinstance_dict v = false ->
        run_orchestrator activity (main_orchestrator v)
        = ([], Raise (AttributeError v "get"))).
Proof.
  intros Hact.
  assert (Hrun : run_orchestrator activity (main_orchestrator (VDict d))
    = ([started_log d; Call "run_agent_workflow" [triage_input (VDict d)]],
       Raise e)).
  { unfold main_orchestrator. cbn -[list_to_map str truthy eq_str].
    fold (triage_input (VDict d)). rewrite Hact. reflexivity. }
  rewrite Hrun. split; [reflexivity|]. split; [reflexivity|].
  intros v Hv. destruct v; try discriminate Hv; reflexivity.
Qed.

(** X3 on activities that raise. *)
Lemma orchestrator_failure_propagates_witness :
  final_status
    (outcome (run_orchestrator scenario.broken_activities
                (@main_orchestrator fixture.runtime
                   (VDict scenario.order_fields))))
  = Failed.
Proof.
  exact (proj1 (proj2 (@orchestrator_failure_propagates fixture.runtime
           scenario.broken_activities scenario.order_fields _ eq_refl))).
Defined.

(** ** From the executor to the orchestrator *)

Section composition.
Context `{Runtime}.

Lemma routing_target_guard (v : value) (a : NextAction) :
  routing_target v = Some a ->
  truthy (target_queue a) = true /\ eq_str (target_queue a) "none" = false.
Proof.
  unfold routing_target. destruct v as [| | | | | |d]; try discriminate.
  destruct (d !! "next_action") as [[| | | | | |na]|]; try discriminate.
  destruct (na !! "target_queue") as [q|]; [|discriminate].
  destruct (truthy q) eqn:Hq; [|discriminate].
  destruct (eq_str q "none") eqn:Hn; [discriminate|].
  intros [= <-]. split; assumption.
Qed.

Lemma _determine_next_action_guard (agent_type : value) (r : AgentResponse)
    (a : NextAction) :
  outcome (_determine_next_action agent_type r) = Ok (Some a) ->
  truthy (target_queue a) = true /\ eq_str (target_queue a) "none" = false.
Proof.
  unfold _determine_next_action. rewrite outcome_bind.
  destruct (outcome _) as [first|]; [|discriminate].
  rewrite _parse_and_route_spec.
  destruct (parse_escape _); [discriminate|]. intros [= Hr].
  destruct (parse_if_string _) as [parsed|]; [|discriminate].
  apply (routing_target_guard parsed). exact Hr.
Qed.

Lemma asdict_fields (r : AgentResponse) :
  exists tr : gmap string value,
    asdict r = VDict tr
    /\ tr !! "status" = Some (status r)
    /\ tr !! "reason" = Some (reason r)
    /\ tr !! "agent_type" = Some (agent_type r)
    /\ tr !! "next_action"
       = Some (from_option asdict_NextAction VNone (next_action r)).
Proof.
  eexists. split; [reflexivity|].
  destruct r as [st rs th re u tc ir at_ mn na].
  repeat split; vm_compute; reflexivity.
Qed.

Lemma asdict_NextAction_fields (a : NextAction) :
  exists na : gmap string value,
    asdict_NextAction a = VDict na
    /\ na !! "target_queue" = Some (target_queue a)
    /\ na !! "payload" = Some (payload a).
Proof.
  eexists. split; [reflexivity|]. destruct a as [q p].
  split; vm_compute; reflexivity.
Qed.

(** X4: a routing decision that [_determine_next_action] extracts always
    passes the orchestrator's own check: given the executor's output with
    that decision and a status other than "error", the orchestrator
    dispatches it to [queue_message] with the decision's queue and
    payload, and returns status completed. *)
Theorem extracted_routing_is_dispatched
    (activity : string -> value -> result value) (d : gmap string value)
    (agent : value) (r : AgentResponse) (a : NextAction) (reply : value) :
  outcome (_determine_next_action agent r) = Ok (Some a) ->
  eq_str (status r) "error" = false ->
  activity "run_agent_workflow" (triage_input (VDict d))
    = Ok (asdict (set_next_action r (Some a))) ->
  activity "queue_message" (dispatch_of a) = Ok reply ->
  calls_only (trace (run_orchestrator activity (main_orchestrator (VDict d))))
  = [Call "run_agent_workflow" [triage_input (VDict d)];
     Call "queue_message" [dispatch_of a]]
  /\ outcome (run_orchestrator activity (main_orchestrator (VDict d)))
     = Ok (completed_reply d (asdict (set_next_action r (Some a)))).
Proof.
  intros Hext Hst Hact Hsend.
  destruct (_determine_next_action_guard agent r a Hext) as [Hq Hnone].
  destruct (asdict_fields (set_next_action r (Some a)))
    as (tr & Htr & Hstatus & _ & _ & Hna).
  destruct (asdict_NextAction_fields a) as (na & Hnad & Htq & Hpl).
  cbn [next_action set_next_action from_option] in Hna. rewrite Hnad in Hna.
  cbn [status set_next_action] in Hstatus.
  rewrite Htr in Hact |- *.
  assert (Hd : dispatch_input na = dispatch_of a).
  { unfold dispatch_input, dispatch_of. rewrite Htq, Hpl. reflexivity. }
  rewrite (main_orchestrator_dispatch_run activity d tr na reply Hact).
  - rewrite Hd. split; reflexivity.
  - rewrite Hstatus. exact Hst.
  - exact Hna.
  - rewrite Htq. exact Hq.
  - rewrite Htq. exact Hnone.
  - rewrite Hd. exact Hsend.
Qed.

End composition.

(** X4 on the spec's extraction example. *)
Lemma extracted_routing_is_dispatched_witness :
  calls_only
    (trace (run_orchestrator
              (scenario.executor_activities
                 (asdict (set_next_action scenario.routing_response
                            (Some scenario.tasks_action))))
              (@main_orchestrator fixture.runtime
                 (VDict scenario.order_fields))))
  = [Call "run_agent_workflow" [@triage_input (VDict scenario.order_fields)];
     Call "queue_message" [dispatch_of scenario.tasks_action]].
Proof.
  assert (H1 : outcome (@_determine_next_action fixture.runtime (VStr "triage")
                          scenario.routing_response)
               = Ok (Some scenario.tasks_action))
    by (vm_compute; reflexivity).
  assert (H2 : eq_str (status scenario.routing_response) "error" = false)
    by reflexivity.
  exact (proj1 (@extracted_routing_is_dispatched fixture.runtime
           (scenario.executor_activities
              (asdict (set_next_action scenario.routing_response
                         (Some scenario.tasks_action))))
           scenario.order_fields (VStr "triage") scenario.routing_response
           scenario.tasks_action _ H1 H2 eq_refl eq_refl)).
Defined.

(** ** The dispatcher on every transport *)

Section dispatcher_total.
Context `{Runtime} `{Transport}.

Lemma reply_status_success (d : gmap string value) (n : Z) :
  exists m : gmap string value,
    success_reply d n = VDict m /\ m !! "status" = Some (VStr "success").
Proof. eexists. split; [reflexivity|]. vm_compute. reflexivity. Qed.

Lemma reply_status_exhausted (e : exn) :
  exists m : gmap string value,
    exhausted_reply e = VDict m /\ m !! "status" = Some (VStr "error").
Proof. eexists. split; [reflexivity|]. destruct e. vm_compute. reflexivity. Qed.

Lemma reply_status_config (text : string) :
  exists m : gmap string value,
    config_error_reply text = VDict m /\ m !! "status" = Some (VStr "error").
Proof. eexists. split; [reflexivity|]. vm_compute. reflexivity. Qed.

Lemma _retry_loop_total (d : gmap string value) (conn : string) :
  exists v : value,
    outcome (_retry_loop conn (default VNone (d !! "queue"))
               (default (VDict ∅) (d !! "payload")) [0; 1; 2]%nat) = Ok v
    /\ (length (calls_to "send_messages"
          (trace (_retry_loop conn (default VNone (d !! "queue"))
                    (default (VDict ∅) (d !! "payload")) [0; 1; 2]%nat)))
        <= 3)%nat
    /\ ((exists n, v = success_reply d n) \/ (exists e, v = exhausted_reply e)).
Proof.
  cbn [_retry_loop]. effects.
  destruct (send_messages 0 _ _ _) as [u0|e0]; effects.
  { eexists. split; [reflexivity|]. split; [cbn; lia|].
    left. eexists. reflexivity. }
  cbn [Nat.eqb max_retries Nat.sub lookup list_lookup retry_delays]. effects.
  destruct (send_messages 1 _ _ _) as [u1|e1]; effects.
  { eexists. split; [reflexivity|]. split; [cbn; lia|].
    left. eexists. reflexivity. }
  cbn [Nat.eqb max_retries Nat.sub lookup list_lookup retry_delays]. effects.
  destruct (send_messages 2 _ _ _) as [u2|e2]; effects.
  { eexists. split; [reflexivity|]. split; [cbn; lia|].
    left. eexists. reflexivity. }
  cbn [Nat.eqb max_retries Nat.sub]. effects.
  eexists. split; [reflexivity|]. split; [cbn; lia|].
  right. exists e2. reflexivity.
Qed.

(** X5: on a mapping, whatever the transport does, [queue_message] never
    raises and never falls off its loop: it returns a mapping whose
    status is "success" or "error", after at most three delivery
    attempts. *)
Theorem queue_message_total (d : gmap string value) :
  exists m : gmap string value,
    outcome (queue_message (VDict d)) = Ok (VDict m)
    /\ (m !! "status" = Some (VStr "success")
        \/ m !! "status" = Some (VStr "error"))
    /\ (length (calls_to "send_messages" (trace (queue_message (VDict d))))
        <= 3)%nat.
Proof.
  destruct (truthy (default VNone (d !! "queue"))) eqn:Hq.
  - destruct SERVICE_BUS_CONNECTION_STRING as [conn|] eqn:Hc.
    + destruct (String.eqb_spec conn "") as [->|Hne].
      * rewrite (queue_message_unconfigured d Hq (or_intror Hc)).
        destruct (reply_status_config "Service Bus not configured")
          as (m & -> & Hm).
        exists m. split; [reflexivity|]. split; [right; exact Hm | cbn; lia].
      * rewrite (queue_message_configured d conn Hq Hc Hne).
        destruct (_retry_loop_total d conn) as (v & -> & Hlen & [[n ->]|[e ->]]).
        -- destruct (reply_status_success d n) as (m & -> & Hm).
           exists m. split; [reflexivity|]. split; [left; exact Hm | exact Hlen].
        -- destruct (reply_status_exhausted e) as (m & -> & Hm).
           exists m. split; [reflexivity|]. split; [right; exact Hm | exact Hlen].
    + rewrite (queue_message_unconfigured d Hq (or_introl Hc)).
      destruct (reply_status_config "Service Bus not configured")
        as (m & -> & Hm).
      exists m. split; [reflexivity|]. split; [right; exact Hm | cbn; lia].
  - assert (Hrun : queue_message (VDict d)
                   = ([], Ok (config_error_reply "No queue name provided"))).
    { unfold queue_message. cbn [get]. unfold mbind, M_bind, lift.
      cbn [app]. rewrite Hq. reflexivity. }
    rewrite Hrun.
    destruct (reply_status_config "No queue name provided") as (m & -> & Hm).
    exists m. split; [reflexivity|]. split; [right; exact Hm | cbn; lia].
Qed.

End dispatcher_total.

(** ** The queue consumers: starting and failing *)

Section consumer_paths.
Context `{Runtime}.

(** X6: when the status of the derived instance id is absent or is
    neither Running nor Pending (a completed or failed run included),
    each consumer starts [main_orchestrator] under that instance id with
    the whole message body as input, and returns. *)
Theorem consumer_starts_run
    (client : forall X, clientE X -> result X) (msg : string)
    (d : gmap string value) (st : option DurableOrchestrationStatus)
    (started_id : string) :
  json_loads msg = Ok (VDict d) ->
  already_running st = false ->
  (client _ (get_status (orchestrate_key d)) = Ok st ->
   client _ (start_new "main_orchestrator" (orchestrate_key d) (VDict d))
     = Ok started_id ->
   run_consumer client (orchestrator_queue_consumer msg)
   = ([Log INFO
         ("Orchestrator queue: event_type="
            ++ str (default (VStr "unknown") (d !! "event_type"))
            ++ ", event_id="
            ++ str (default (VStr "unknown") (d !! "event_id")));
       Call "get_status" [VStr (orchestrate_key d)];
       Call "start_new"
         [VStr "main_orchestrator"; VStr (orchestrate_key d); VDict d];
       Log INFO ("Started orchestration: " ++ orchestrate_key d)],
      Ok tt))
  /\ (client _ (get_status (task_key d)) = Ok st ->
      client _ (start_new "main_orchestrator" (task_key d) (VDict d))
        = Ok started_id ->
      run_consumer client (task_queue_consumer msg)
      = ([Log INFO
            ("Task queue: agent="
               ++ str (default VNone (d !! "agent_type"))
               ++ ", task_id="
               ++ str (default (VStr "unknown") (d !! "task_id")));
          Call "get_status" [VStr (task_key d)];
          Call "start_new"
            [VStr "main_orchestrator"; VStr (task_key d); VDict d];
          Log INFO ("Started task orchestration: " ++ task_key d)],
         Ok tt)).
Proof.
  intros Hmsg Hst. split; intros Hc Hs.
  - unfold orchestrator_queue_consumer, _load_body.
    rewrite Hmsg. cbn -[str orchestrate_instance_id already_running].
    fold (orchestrate_key d). rewrite Hc.
    cbn -[str orchestrate_instance_id already_running].
    rewrite Hst. cbn -[str orchestrate_instance_id already_running].
    fold (orchestrate_key d). rewrite Hs. reflexivity.
  - unfold task_queue_consumer, _load_body.
    rewrite Hmsg. cbn -[str task_instance_id already_running].
    fold (task_key d). rewrite Hc.
    cbn -[str task_instance_id already_running].
    rewrite Hst. cbn -[str task_instance_id already_running].
    fold (task_key d). rewrite Hs. reflexivity.
Qed.

(** X7: the orchestrator queue consumer logs at error level and raises
    again whatever goes wrong: what the parser raises on the message, the
    AttributeError of a JSON message that is not a mapping, a failing
    status query (then no run is started) and a failing start. *)
Theorem consumer_reraises
    (client : forall X, clientE X -> result X) (msg : string) :
  (forall e : exn,
   json_loads msg = Raise e ->
   run_consumer client (orchestrator_queue_consumer msg)
   = ([Log ERROR ("Failed to process orchestrator queue message: "
                    ++ str_exn e)],
      Raise e))
  /\ (forall v : value,
      json_loads msg = Ok v ->
      isinstance_dict v = false ->
      run_consumer client (orchestrator_queue_consumer msg)
      = ([Log ERROR ("Failed to process orchestrator queue message: "
                       ++ str_exn (AttributeError v "get"))],
         Raise (AttributeError v "get")))
  /\ (forall (d : gmap string value) (e : exn),
      json_loads msg = Ok (VDict d) ->
      client _ (get_status (orchestrate_key d)) = Raise e ->
      run_consumer client (orchestrator_queue_consumer msg)
      = ([Log INFO
            ("Orchestrator queue: event_type="
               ++ str (default (VStr "unknown") (d !! "event_type"))
               ++ ", event_id="
               ++ str (default (VStr "unknown") (d !! "event_id")));
          Call "get_status" [VStr (orchestrate_key d)];
          Log ERROR ("Failed to process orchestrator queue message: "
                       ++ str_exn e)],
         Raise e))
  /\ (forall (d : gmap string value) (st : option DurableOrchestrationStatus)
             (e : exn),
      json_loads msg = Ok (VDict d) ->
      client _ (get_status (orchestrate_key d)) = Ok st ->
      already_running st = false ->
      client _ (start_new "main_orchestrator" (orchestrate_key d) (VDict d))
        = Raise e ->
      run_consumer client (orchestrator_queue_consumer msg)
      = ([Log INFO
            ("Orchestrator queue: event_type="
               ++ str (default (VStr "unknown") (d !! "event_type"))
               ++ ", event_id="
               ++ str (default (VStr "unknown") (d !! "event_id")));
          Call "get_status" [VStr (orchestrate_key d)];
          Call "start_new"
            [VStr "main_orchestrator"; VStr (orchestrate_key d); VDict d];
          Log ERROR ("Failed to process orchestrator queue message: "
                       ++ str_exn e)],
         Raise e)).
Proof.
  split; [|split; [|split]].
  - intros e Hmsg. unfold orchestrator_queue_consumer, _load_body.
    rewrite Hmsg. reflexivity.
  - intros v Hmsg Hv. unfold orchestrator_queue_consumer, _load_body.
    rewrite Hmsg. destruct v; try discriminate Hv; reflexivity.
  - intros d e Hmsg Hc.
    unfold orchestrator_queue_consumer, _load_body.
    rewrite Hmsg. cbn -[str orchestrate_instance_id already_running].
    fold (orchestrate_key d). rewrite Hc. reflexivity.
  - intros d st e Hmsg Hc Hst Hs.
    unfold orchestrator_queue_consumer, _load_body.
    rewrite Hmsg. cbn -[str orchestrate_instance_id already_running].
    fold (orchestrate_key d). rewrite Hc.
    cbn -[str orchestrate_instance_id already_running].
    rewrite Hst. cbn -[str orchestrate_instance_id already_running].
    fold (orchestrate_key d). rewrite Hs. reflexivity.
Qed.

End consumer_paths.

(** X6 on the order message, its earlier run completed. *)
Lemma consumer_starts_run_witness :
  calls_to "start_new"
    (trace (run_consumer scenario.finished_client
              (@orchestrator_queue_consumer fixture.runtime fixture.order_msg)))
  = [Call "start_new"
       [VStr "main_orchestrator"; VStr "orchestrate-order-42";
        VDict scenario.order_fields]].
Proof.
  assert (Hmsg : @json_loads fixture.runtime fixture.order_msg
                 = Ok (VDict scenario.order_fields))
    by (vm_compute; reflexivity).
  rewrite (proj1 (@consumer_starts_run fixture.runtime scenario.finished_client
                    fixture.order_msg scenario.order_fields
                    (Some {| runtime_status := Some Completed;
                             output := VNone |})
                    (@orchestrate_key fixture.runtime scenario.order_fields)
                    Hmsg eq_refl) eq_refl eq_refl).
  vm_compute. reflexivity.
Defined.

(** ** The executor's output *)

Section executor_paths.
Context `{Runtime} `{Collaborators} `{Telemetry}.

Lemma _run_body_returns (i : AgentWorkflowInput) (s : Z) (v : value) :
  outcome (_run_body i s) = Ok v ->
  exists r : AgentResponse, v = asdict r /\ agent_type r = wi_agent_type i.
Proof.
  unfold _run_body. effects.
  destruct (outcome (_load_system_prompt _)) as [p|]; [|discriminate].
  destruct get_backend as [b|]; [|discriminate]. effects.
  match goal with |- context [@execute ?b ?x ?y ?z] =>
    destruct (@execute b x y z) as [[r|]|] end; effects; try discriminate.
  - destruct (outcome (_determine_next_action _ _)) as [na|]; [|discriminate].
    effects. rewrite _track_usage_outcome. effects.
    destruct (len _) as [n|]; [|discriminate]. effects.
    intros [= <-]. eexists. split; reflexivity.
  - intros [= <-]. eexists. split; reflexivity.
Qed.

(** X8: on a mapping, whatever the collaborators do, what
    [run_agent_workflow] returns is the [asdict] of an AgentResponse
    whose agent type is the one of the input, so [from_dict] reads it
    back. *)
Theorem run_agent_workflow_output_is_response (d : gmap string value) :
  exists r : AgentResponse,
    outcome (run_agent_workflow (VDict d)) = Ok (asdict r)
    /\ agent_type r = default VNone (d !! "agent_type")
    /\ from_dict (asdict r) = Ok r.
Proof.
  rewrite run_agent_workflow_ok.
  destruct (outcome (_run_body _ _)) as [v|e] eqn:Hbody.
  - destruct (_run_body_returns _ _ _ Hbody) as (r & -> & Hat).
    exists r. split; [reflexivity|]. split; [exact Hat | apply from_dict_asdict].
  - eexists. split; [reflexivity|]. split; [reflexivity | apply from_dict_asdict].
Qed.

(** X9: when the backend answers a response whose responses are a list,
    [run_agent_workflow] returns that response with the agent type of the
    input and with next_action computed from the first element of the
    responses; the backend's own agent_type and next_action are
    discarded.  The one exception: when the parser raises something other
    than a [JSONDecodeError] on the first element, the step returns the
    error response whose reason is the text of that exception. *)
Theorem run_agent_workflow_recomputes_routing (d : gmap string value)
    (prompt : string) (b : AIBackend) (r0 : AgentResponse) (l : list value) :
  outcome (_load_system_prompt (default VNone (d !! "agent_type")))
    = Ok prompt ->
  get_backend = Ok b ->
  @execute b prompt (_user_messages (default (VDict ∅) (d !! "payload")))
     (VList []) = Ok (Some r0) ->
  responses r0 = VList l ->
  outcome (run_agent_workflow (VDict d))
  = Ok (asdict
          match head l ≫= parse_escape ∘ unwrap_raw with
          | Some e =>
              error_response (str_exn e) (default VNone (d !! "agent_type"))
          | None =>
              set_next_action
                (set_agent_type r0 (default VNone (d !! "agent_type")))
                (routing_decision (head l))
          end).
Proof.
  intros Hp Hb He Hl. rewrite run_agent_workflow_ok. f_equal.
  unfold _run_body. effects. cbn [wi_agent_type wi_payload].
  rewrite Hp, Hb. effects. rewrite He. effects.
  rewrite (_determine_next_action_list _ _ l); [|exact Hl].
  destruct (head l ≫= parse_escape ∘ unwrap_raw) as [e|]; [reflexivity|].
  effects. rewrite _track_usage_outcome. effects.
  cbn [responses set_next_action set_agent_type]. rewrite Hl. cbn [len]. effects.
  reflexivity.
Qed.
End executor_paths.

(** X9 on a backend whose response names another agent type and another
    routing decision. *)
Lemma run_agent_workflow_recomputes_routing_witness :
  outcome (@run_agent_workflow fixture.runtime
             (fixture.collaborators (Ok scenario.routing_backend))
             fixture.failing_telemetry (VDict scenario.triage_request))
  = Ok (asdict (set_next_action
                  (set_agent_type scenario.routing_response (VStr "triage"))
                  (Some scenario.tasks_action))).
Proof.
  pose proof (@run_agent_workflow_recomputes_routing fixture.runtime
                (fixture.collaborators (Ok scenario.routing_backend))
                fixture.failing_telemetry scenario.triage_request
                "You are a triage agent. Process the input and return a JSON response."
                scenario.routing_backend scenario.routing_response
                [VStr fixture.routing_text]) as Hw.
  vm_compute in Hw. vm_compute. apply Hw; reflexivity.
Defined.

(** ** LoadedTools and from_dict *)

Section loaded_tools_facts.
Context {Executor : Type}.
Implicit Types a b c : LoadedTools Executor.

(** X10: adding LoadedTools is associative. *)
Theorem LoadedTools_add_assoc a b c :
  LoadedTools_add (LoadedTools_add a b) c
  = LoadedTools_add a (LoadedTools_add b c).
Proof.
  unfold LoadedTools_add. cbn [definitions executors default from_option id].
  f_equal.
  - rewrite app_assoc. reflexivity.
  - f_equal. rewrite (assoc_L (∪)). reflexivity.
Qed.

(** X11: in [self + other] an executor name is resolved in [other]
    first and in [self] otherwise, the definitions of [other] come before
    those of [self], and adding the default LoadedTools on either side
    gives the same result. *)
Theorem LoadedTools_add_lookup a b (name : string) :
  default ∅ (executors (LoadedTools_add a b)) !! name
  = match default ∅ (executors b) !! name with
    | Some f => Some f
    | None => default ∅ (executors a) !! name
    end
  /\ definitions (LoadedTools_add a b)
     = Some (default [] (definitions b) ++ default [] (definitions a))%list
  /\ LoadedTools_add a LoadedTools_default
     = LoadedTools_add LoadedTools_default a.
Proof.
  split; [|split].
  - unfold LoadedTools_add. cbn [executors default from_option id].
    rewrite lookup_union.
    destruct (default ∅ (executors b) !! name) as [f|];
      destruct (default ∅ (executors a) !! name); reflexivity.
  - reflexivity.
  - unfold LoadedTools_add, LoadedTools_default.
    cbn [definitions executors default from_option id].
    rewrite app_nil_r, (left_id_L ∅ (∪)), (right_id_L ∅ (∪)). reflexivity.
Qed.
End loaded_tools_facts.

Section from_dict_facts.

(** X12: on a mapping whose usage and next_action are missing, None or
    empty, [from_dict] raises nothing: usage and next_action are None,
    every other missing field takes its default and unknown keys are
    ignored. *)
Theorem from_dict_defaults (d : gmap string value) :
  truthy (default VNone (d !! "usage")) = false ->
  truthy (default VNone (d !! "next_action")) = false ->
  from_dict (VDict d)
  = Ok {| status := default (VStr "error") (d !! "status");
          responses := default (VList []) (d !! "responses");
          thread_id := default VNone (d !! "thread_id");
          reason := default VNone (d !! "reason");
          usage := None;
          tool_calls := default (VInt 0) (d !! "tool_calls");
          inference_rounds := default (VInt 0) (d !! "inference_rounds");
          agent_type := default VNone (d !! "agent_type");
          model_name := default VNone (d !! "model_name");
          next_action := None |}.
Proof.
  intros Hu Hn. unfold from_dict, optional_field. rewrite Hu, Hn. reflexivity.
Qed.

(** X13: on a mapping whose usage is a non-empty mapping that lacks one
    of the three token fields, or holds a key besides them, [from_dict]
    raises TypeError. *)
Theorem from_dict_rejects_partial_usage (d u : gmap string value) :
  d !! "usage" = Some (VDict u) ->
  u <> ∅ ->
  (u !! "prompt_tokens" = None \/ u !! "completion_tokens" = None
   \/ u !! "total_tokens" = None \/ size u <> 3%nat) ->
  exists msg : string, from_dict (VDict d) = Raise (Exception "TypeError" msg).
Proof.
  intros Hd Hne Hbad. unfold from_dict, optional_field. rewrite Hd.
  cbn [default from_option id truthy].
  rewrite bool_decide_eq_false_2 by exact Hne. cbn [negb].
  unfold TokenUsage_kwargs.
  destruct (u !! "prompt_tokens") as [p|]; [|eexists; reflexivity].
  destruct (u !! "completion_tokens") as [c|]; [|eexists; reflexivity].
  destruct (u !! "total_tokens") as [t|]; [|eexists; reflexivity].
  destruct (Nat.eqb_spec (size u) 3) as [Hs|Hs]; [|eexists; reflexivity].
  destruct Hbad as [Hb|[Hb|[Hb|Hb]]]; try discriminate Hb. contradiction.
Qed.

End from_dict_facts.

(** X12 on a response whose usage is the empty mapping. *)
Lemma from_dict_defaults_witness :
  from_dict (VDict services.empty_usage_response)
  = Ok (mkAgentResponse (VStr "success") (VList [])).
Proof.
  assert (Hu : truthy (default VNone (services.empty_usage_response !! "usage"))
               = false) by (vm_compute; reflexivity).
  assert (Hn : truthy (default VNone
                         (services.empty_usage_response !! "next_action"))
               = false) by (vm_compute; reflexivity).
  rewrite (from_dict_defaults services.empty_usage_response Hu Hn).
  vm_compute. reflexivity.
Defined.

(** X13 on a usage mapping that holds prompt_tokens only. *)
Lemma from_dict_rejects_partial_usage_witness :
  exists msg : string,
    from_dict (VDict services.partial_usage_response)
    = Raise (Exception "TypeError" msg).
Proof.
  assert (Hd : services.partial_usage_response !! "usage"
               = Some (VDict services.partial_usage))
    by (vm_compute; reflexivity).
  assert (Hne : services.partial_usage <> ∅).
  { intros Heq. apply (f_equal (fun m => m !! "prompt_tokens")) in Heq.
    vm_compute in Heq. discriminate Heq. }
  assert (Hc : services.partial_usage !! "completion_tokens" = None)
    by (vm_compute; reflexivity).
  exact (from_dict_rejects_partial_usage services.partial_usage_response
           services.partial_usage Hd Hne (or_intror (or_introl Hc))).
Defined.

(** ** The Azure OpenAI backend *)

Section azure_facts.
Context `{Runtime} `{AzureOpenAI}.

Lemma AzureOpenAIBackend_execute_cases (system_prompt : string)
    (l : list value) (tools : value) :
  exists r : AgentResponse,
    outcome (AzureOpenAIBackend_execute system_prompt (VList l) tools) = Ok r
    /\ model_name r = VStr deployment
    /\ ((status r = VStr "success" /\ inference_rounds r = VInt 1
         /\ exists c : value, responses r = VList [c])
        \/ (exists e : exn, r = azure_failure e)).
Proof.
  unfold AzureOpenAIBackend_execute. effects.
  unfold _execute_body. effects.
  destruct (create _ _ _) as [resp|e]; effects.
  - destruct (choices resp) as [|choice rest]; effects.
    + eexists. split; [reflexivity|]. split; [reflexivity|].
      right. eexists. reflexivity.
    + eexists. split; [reflexivity|]. split; [reflexivity|].
      left. split; [reflexivity|]. split; [reflexivity|]. eexists. reflexivity.
  - eexists. split; [reflexivity|]. split; [reflexivity|].
    right. exists e. reflexivity.
Qed.

(** X14: called with a list of messages, the Azure OpenAI backend never
    raises and always answers a response that names the deployment: a
    success with one response fragment and one inference round, or the
    error response built from the exception. *)
Theorem AzureOpenAIBackend_never_raises (system_prompt : string)
    (l : list value) (tools : value) :
  exists r : AgentResponse,
    @execute AzureOpenAIBackend system_prompt (VList l) tools = Ok (Some r)
    /\ model_name r = VStr deployment
    /\ ((status r = VStr "success" /\ inference_rounds r = VInt 1
         /\ exists c : value, responses r = VList [c])
        \/ (exists e : exn, r = azure_failure e)).
Proof.
  destruct (AzureOpenAIBackend_execute_cases system_prompt l tools)
    as (r & Hr & Hrest).
  exists r. split; [|exact Hrest]. cbn [execute AzureOpenAIBackend].
  rewrite Hr. reflexivity.
Qed.

(** X15: with the Azure OpenAI backend, a failing completion call makes
    [run_agent_workflow] return the backend's error response, with the
    agent type of the input and the reason [str(e)], and no token usage
    is recorded. *)
Theorem azure_failure_reaches_caller `{Collaborators} `{Telemetry}
    (d : gmap string value) (prompt : string) (e : exn) :
  get_backend = Ok AzureOpenAIBackend ->
  outcome (_load_system_prompt (default VNone (d !! "agent_type")))
    = Ok prompt ->
  create deployment
    (VDict (list_to_map [("role", VStr "system"); ("content", VStr prompt)])
     :: [VDict (list_to_map
           [("role", VStr "user");
            ("content",
             VStr (json_dumps (default (VDict ∅) (d !! "payload"))))])])
    None = Raise e ->
  outcome (run_agent_workflow (VDict d))
  = Ok (asdict (set_agent_type (azure_failure e)
                  (default VNone (d !! "agent_type"))))
  /\ calls_to "track_token_usage" (trace (run_agent_workflow (VDict d))) = [].
Proof.
  intros Hb Hp Hc.
  assert (He : @execute AzureOpenAIBackend prompt
                 (_user_messages (default (VDict ∅) (d !! "payload")))
                 (VList []) = Ok (Some (azure_failure e))).
  { cbn [execute AzureOpenAIBackend]. unfold AzureOpenAIBackend_execute.
    unfold _user_messages. effects. unfold _execute_body. effects.
    cbn [truthy]. rewrite Hc. effects. reflexivity. }
  split.
  - rewrite run_agent_workflow_ok. f_equal.
    unfold _run_body. effects. cbn [wi_agent_type wi_payload].
    rewrite Hp, Hb. effects. rewrite He. effects.
    rewrite (_determine_next_action_list _ _ []); [|reflexivity].
    cbn [head mbind option_bind]. effects. rewrite _track_usage_outcome. effects. reflexivity.
  - unfold run_agent_workflow. cbn [get]. effects.
    cbn [wi_agent_type wi_payload].
    unfold _run_body. effects. cbn [wi_agent_type wi_payload].
    rewrite Hp. effects. rewrite Hb. effects. rewrite He. effects.
    rewrite (_determine_next_action_list _ _ []); [|reflexivity].
    cbn [head mbind option_bind]. effects. rewrite _track_usage_outcome. effects.
    rewrite !calls_to_app, _load_system_prompt_calls.
    rewrite _track_usage_trace. cbn [usage set_next_action set_agent_type azure_failure].
    assert (Hd : trace (_determine_next_action (default VNone (d !! "agent_type"))
                   (set_agent_type (azure_failure e) (default VNone (d !! "agent_type")))) = []).
    { unfold _determine_next_action. effects. reflexivity. }
    rewrite Hd. reflexivity.
Qed.

End azure_facts.

(** X15 on a service that is down. *)
Lemma azure_failure_reaches_caller_witness :
  outcome (@run_agent_workflow fixture.runtime services.azure_collaborators
             fixture.failing_telemetry (VDict scenario.triage_request))
  = Ok (asdict
          {| status := VStr "error"; responses := VList [];
             thread_id := VNone; reason := VStr "Connection error.";
             usage := None; tool_calls := VInt 0;
             inference_rounds := VInt 0; agent_type := VStr "triage";
             model_name := VStr "gpt-4o"; next_action := None |}).
Proof.
  pose proof (@azure_failure_reaches_caller fixture.runtime
                services.failing_azure services.azure_collaborators
                fixture.failing_telemetry scenario.triage_request
                "You are a triage agent. Process the input and return a JSON response."
                (Exception "APIConnectionError" "Connection error.")
                eq_refl) as Hw.
  vm_compute in Hw. vm_compute.
  exact (proj1 (Hw eq_refl eq_refl)).
Defined.

(** ** The event log, the results consumer and the status endpoint *)

Section event_log_facts.
Context `{Runtime} `{Cosmos}.

Lemma _with_metadata_id (d : gmap string value) (pk : value) :
  _with_metadata d pk !! "id"
  = Some (or_else (default VNone (d !! "id")) (VStr uuid4)).
Proof.
  unfold _with_metadata. cbv zeta.
  rewrite lookup_insert_ne by discriminate.
  rewrite lookup_insert_ne by discriminate.
  apply lookup_insert_eq.
Qed.

Lemma _with_metadata_other (d : gmap string value) (pk : value) (k : string) :
  k <> "id" -> k <> "timestamp" -> k <> "_partition_key" ->
  _with_metadata d pk !! k = d !! k.
Proof.
  intros H1 H2 H3. unfold _with_metadata. cbv zeta.
  rewrite !lookup_insert_ne by congruence. reflexivity.
Qed.

Lemma get_config_total (cached : option AppConfig)
    (env : string -> option string) :
  exists config : AppConfig,
    outcome (get_config cached env) = Ok config
    /\ calls_only (trace (get_config cached env)) = [].
Proof.
  unfold get_config. destruct cached as [config|];
    [eexists; split; reflexivity|].
  cbv zeta.
  cbn [service_bus_connection_string db_server db_database db_username
       db_password].
  destruct (negb (is_set (env "SERVICE_BUS_CONNECTION_STRING")));
    destruct (negb (is_set (env "DB_SERVER") && is_set (env "DB_DATABASE")
                    && is_set (env "DB_USERNAME")
                    && is_set (env "DB_PASSWORD")));
    effects; eexists; split; reflexivity.
Qed.

Lemma _get_database_total :
  exists db : option unit,
    outcome _get_database = Ok db
    /\ calls_only (trace _get_database) = [].
Proof.
  unfold _get_database. destruct _database as [db|];
    [eexists; split; reflexivity|].
  destruct (get_config_total _config getenv) as (config & Hc & Ht).
  effects. rewrite Hc. rewrite calls_only_app, Ht.
  destruct (negb (is_set (cosmos_endpoint config))
            || negb (is_set (cosmos_key config)));
    effects; [eexists; split; reflexivity|].
  destruct (CosmosClient _ _ _) as [db|e]; effects;
    eexists; split; reflexivity.
Qed.

(** X16: [log_event] never raises: it returns a mapping whose [success]
    is True or False, and when [_get_database] gives no database it calls
    nothing, logs only what [_get_database] logs and says that Cosmos DB
    is not configured.  [_get_database] gives none when the endpoint or
    the key is not set, and, with a warning, when the client cannot be
    initialised. *)
Theorem log_event_never_raises (container_name : string) (event pk : value) :
  exists m : gmap string value,
    outcome (log_event container_name event pk) = Ok (VDict m)
    /\ (m !! "success" = Some (VBool true)
        \/ m !! "success" = Some (VBool false))
    /\ (outcome _get_database = Ok None ->
        trace (log_event container_name event pk) = trace _get_database
        /\ calls_only (trace (log_event container_name event pk)) = []
        /\ m !! "error" = Some (VStr "Cosmos DB not configured"))
    /\ (forall config : AppConfig,
          _database = None ->
          outcome (get_config _config getenv) = Ok config ->
          is_set (cosmos_endpoint config) = false
          \/ is_set (cosmos_key config) = false ->
          outcome _get_database = Ok None)
    /\ (forall (config : AppConfig) (e : exn),
          _database = None ->
          outcome (get_config _config getenv) = Ok config ->
          is_set (cosmos_endpoint config) = true ->
          is_set (cosmos_key config) = true ->
          CosmosClient (default "" (cosmos_endpoint config))
            (default "" (cosmos_key config)) (cosmos_database config)
            = Raise e ->
          outcome _get_database = Ok None
          /\ In (Log WARNING ("Failed to initialize Cosmos DB: " ++ str_exn e))
                (trace _get_database)).
Proof.
  assert (Hunset : forall config : AppConfig,
    _database = None ->
    outcome (get_config _config getenv) = Ok config ->
    is_set (cosmos_endpoint config) = false
    \/ is_set (cosmos_key config) = false ->
    outcome _get_database = Ok None).
  { intros config Hdb Hc Hset. unfold _get_database. rewrite Hdb.
    effects. rewrite Hc.
    destruct Hset as [-> | ->]; cbn [negb orb]; rewrite ?orb_true_r;
      reflexivity. }
  assert (Hdown : forall (config : AppConfig) (e : exn),
    _database = None ->
    outcome (get_config _config getenv) = Ok config ->
    is_set (cosmos_endpoint config) = true ->
    is_set (cosmos_key config) = true ->
    CosmosClient (default "" (cosmos_endpoint config))
      (default "" (cosmos_key config)) (cosmos_database config)
      = Raise e ->
    outcome _get_database = Ok None
    /\ In (Log WARNING ("Failed to initialize Cosmos DB: " ++ str_exn e))
          (trace _get_database)).
  { intros config e Hdb Hc He Hk Hcl. unfold _get_database. rewrite Hdb.
    effects. rewrite Hc, He, Hk. cbn [negb orb]. effects. rewrite Hcl.
    effects. split; [reflexivity|].
    apply in_or_app. right. apply in_or_app. right. left. reflexivity. }
  assert (Hmain : exists m : gmap string value,
    outcome (log_event container_name event pk) = Ok (VDict m)
    /\ (m !! "success" = Some (VBool true)
        \/ m !! "success" = Some (VBool false))
    /\ (outcome _get_database = Ok None ->
        trace (log_event container_name event pk) = trace _get_database
        /\ calls_only (trace (log_event container_name event pk)) = []
        /\ m !! "error" = Some (VStr "Cosmos DB not configured"))).
  { destruct _get_database_total as (db & Hdb & Hcalls).
    unfold log_event. effects. rewrite Hdb. destruct db as [db|].
    - effects.
      destruct (get_container_client container_name) as [c|e]; effects.
      + destruct event as [| | | | | |d]; effects;
          try (eexists; split; [reflexivity|]; split;
               [right; vm_compute; reflexivity | discriminate]).
        destruct (upsert_item _ _) as [u|e]; effects.
        * eexists. split; [reflexivity|]. split; [|discriminate].
          left. rewrite _with_metadata_id. vm_compute. reflexivity.
        * eexists. split; [reflexivity|]. split; [|discriminate].
          right. destruct e. vm_compute. reflexivity.
      + eexists. split; [reflexivity|]. split; [|discriminate].
        right. destruct e. vm_compute. reflexivity.
    - effects. eexists. split; [reflexivity|]. split.
      + right. vm_compute. reflexivity.
      + intros _. rewrite app_nil_r. split; [reflexivity|].
        split; [exact Hcalls|]. vm_compute. reflexivity. }
  destruct Hmain as (m & Ho & Hs & Hn).
  exists m. split; [exact Ho|]. split; [exact Hs|]. split; [exact Hn|].
  split; [exact Hunset | exact Hdown].
Qed.

(** X17: when the write goes through, [log_event] writes one document and
    answers its id: the id of the event when it has a non-empty one, a new
    identifier otherwise; every field of the event other than id,
    timestamp and _partition_key is written as it is. *)
Theorem log_event_stores (container_name : string) (d : gmap string value)
    (pk : value) (db c u : unit) :
  outcome _get_database = Ok (Some db) ->
  get_container_client container_name = Ok c ->
  upsert_item container_name (VDict (_with_metadata d pk)) = Ok u ->
  let id := or_else (default VNone (d !! "id")) (VStr uuid4) in
  outcome (log_event container_name (VDict d) pk)
  = Ok (VDict (list_to_map [("success", VBool true); ("id", id)]))
  /\ calls_only (trace (log_event container_name (VDict d) pk))
     = [Call "upsert_item" [VStr container_name; VDict (_with_metadata d pk)]]
  /\ _with_metadata d pk !! "id" = Some id
  /\ (truthy (default VNone (d !! "id")) = true -> d !! "id" = Some id)
  /\ (forall k : string,
        k <> "id" -> k <> "timestamp" -> k <> "_partition_key" ->
        _with_metadata d pk !! k = d !! k).
Proof.
  intros Hdb Hc Hu id. unfold log_event. effects. rewrite Hdb. effects.
  rewrite Hc. effects. rewrite Hu. effects.
  rewrite _with_metadata_id. fold id.
  split; [reflexivity|].
  split; [destruct _get_database_total as (db' & _ & Hcalls);
          rewrite calls_only_app, Hcalls; reflexivity|].
  split; [reflexivity|].
  split; [|intros k; apply _with_metadata_other].
  intros Ht. subst id. unfold or_else. rewrite Ht.
  destruct (d !! "id") as [x|]; [reflexivity | discriminate Ht].
Qed.

End event_log_facts.

Section result_consumer_facts.
Context `{Runtime}.

(** X18: on a message that is a JSON mapping, [result_queue_consumer]
    returns without raising whatever the audit log does; a failure of the
    audit log is logged as a warning.  The audit event carries the fields
    of the message, and the event type of the message when it has one,
    "agent_result" otherwise. *)
Theorem result_consumer_swallows_audit_failure
    (audit_log : string -> value -> M value) (msg : string)
    (d : gmap string value) :
  json_loads msg = Ok (VDict d) ->
  outcome (result_queue_consumer audit_log msg) = Ok tt
  /\ trace (result_queue_consumer audit_log msg)
     = (Log INFO ("Result received: agent="
                    ++ str (default (VStr "unknown") (d !! "agent_type"))
                    ++ ", status="
                    ++ str (default (VStr "unknown") (d !! "status")))
        :: trace (audit_log "agent-events" (VDict (_audit_event d)))
        ++ match outcome (audit_log "agent-events" (VDict (_audit_event d)))
           with
           | Ok _ => []
           | Raise e =>
               [Log WARNING ("Failed to log result to Cosmos: " ++ str_exn e)]
           end)%list
  /\ _audit_event d !! "event_type"
     = Some (default (VStr "agent_result") (d !! "event_type")).
Proof.
  intros Hmsg. unfold result_queue_consumer. rewrite Hmsg.
  effects. cbn [get]. effects. cbn [get]. effects.
  split; [|split].
  - destruct (outcome (audit_log "agent-events" (VDict (_audit_event d))));
      reflexivity.
  - destruct (outcome (audit_log "agent-events" (VDict (_audit_event d))));
      effects; cbn [app]; rewrite ?app_nil_r; reflexivity.
  - unfold _audit_event. rewrite lookup_union.
    destruct (d !! "event_type"); reflexivity.
Qed.

(** X19: the status endpoint answers 400 without asking the client when
    the instance id is missing or empty, 404 when the client knows no
    such instance, and 200 with the id, the name of the runtime status
    and the output otherwise; on a status without a runtime status it
    raises AttributeError. *)
Theorem status_endpoint_codes
    (client : forall X, clientE X -> result X) (instance_id : string) :
  run_endpoint client (get_orchestration_status None)
  = ([], Ok (json_response
               (VDict (list_to_map [("error", VStr "Missing instanceId")]))
               400))
  /\ run_endpoint client (get_orchestration_status (Some ""))
     = ([], Ok (json_response
                  (VDict (list_to_map [("error", VStr "Missing instanceId")]))
                  400))
  /\ (instance_id <> "" ->
      client _ (get_status instance_id) = Ok None ->
      outcome (run_endpoint client
                 (get_orchestration_status (Some instance_id)))
      = Ok (json_response
              (VDict (list_to_map [("error", VStr "Instance not found")]))
              404))
  /\ (forall (s : OrchestrationRuntimeStatus) (out : value),
      instance_id <> "" ->
      client _ (get_status instance_id)
        = Ok (Some {| runtime_status := Some s; output := out |}) ->
      outcome (run_endpoint client
                 (get_orchestration_status (Some instance_id)))
      = Ok (json_response
              (VDict (list_to_map
                 [("instance_id", VStr instance_id);
                  ("runtime_status", VStr (status_name s));
                  ("output", out)])) 200))
  /\ (forall out : value,
      instance_id <> "" ->
      client _ (get_status instance_id)
        = Ok (Some {| runtime_status := None; output := out |}) ->
      outcome (run_endpoint client
                 (get_orchestration_status (Some instance_id)))
      = Raise (AttributeError VNone "name")).
Proof.
  split; [reflexivity|]. split; [reflexivity|].
  assert (Hne : instance_id <> "" -> String.eqb instance_id "" = false).
  { intros Hn. destruct (String.eqb_spec instance_id ""); [contradiction|reflexivity]. }
  split; [|split].
  - intros Hn Hc. unfold get_orchestration_status. rewrite (Hne Hn).
    cbn -[list_to_map json_response]. rewrite Hc. reflexivity.
  - intros s out Hn Hc. unfold get_orchestration_status. rewrite (Hne Hn).
    cbn -[list_to_map json_response]. rewrite Hc. reflexivity.
  - intros out Hn Hc. unfold get_orchestration_status. rewrite (Hne Hn).
    cbn -[list_to_map json_response]. rewrite Hc. reflexivity.
Qed.

End result_consumer_facts.

(** X17 on an event that brings its own id. *)
Lemma log_event_stores_witness :
  outcome (@log_event services.working_cosmos "agent-events"
             (VDict services.identified_event) VNone)
  = Ok (VDict (list_to_map [("success", VBool true); ("id", VStr "evt-1")])).
Proof.
  pose proof (@log_event_stores services.working_cosmos "agent-events"
                services.identified_event VNone tt tt tt
                eq_refl eq_refl eq_refl) as Hw.
  cbv zeta in Hw. destruct Hw as [Hw _].
  vm_compute in Hw. vm_compute. exact Hw.
Defined.

(** X18 on the order message, the audit log down. *)
Lemma result_consumer_swallows_audit_failure_witness :
  outcome (@result_queue_consumer fixture.runtime scenario.failing_audit
             fixture.order_msg)
  = Ok tt.
Proof.
  assert (Hmsg : @json_loads fixture.runtime fixture.order_msg
                 = Ok (VDict scenario.order_fields))
    by (vm_compute; reflexivity).
  exact (proj1 (@result_consumer_swallows_audit_failure fixture.runtime
                  scenario.failing_audit fixture.order_msg
                  scenario.order_fields Hmsg)).
Defined.

(** ** Token usage tracking, from the source *)

Section tracking_facts.
Import util_token_tracking.
Context `{Runtime} `{Cosmos} `{SqlStore}.

Lemma log_event_total (container_name : string) (event pk : value) :
  exists m : gmap string value,
    outcome (log_event container_name event pk) = Ok (VDict m).
Proof.
  destruct _get_database_total as (db & Hdb & _).
  unfold log_event. effects. rewrite Hdb.
  destruct db as [db|]; effects; [|eexists; reflexivity].
  destruct (get_container_client container_name) as [c|e]; effects;
    [|eexists; reflexivity].
  destruct event as [| | | | | |d]; effects; try (eexists; reflexivity).
  destruct (upsert_item _ _) as [u|e]; effects; eexists; reflexivity.
Qed.

Lemma _fallback_to_cosmos_total
    (model_name input_tokens output_tokens agent_type : value)
    (started_at : option Z) (agent_operation inference_rounds : value)
    (description : option string) (completed_at : option Z) (error : value) :
  exists m : gmap string value,
    outcome (_fallback_to_cosmos model_name input_tokens output_tokens
               agent_type started_at agent_operation inference_rounds
               description completed_at error) = Ok (VDict m).
Proof.
  unfold _fallback_to_cosmos. effects.
  destruct (log_event_total "token-usage"
              (VDict (list_to_map
                 [("event_type", VStr "token_usage");
                  ("agent_type", agent_type);
                  ("agent_operation", agent_operation);
                  ("model_name", model_name);
                  ("input_tokens", input_tokens);
                  ("output_tokens", output_tokens);
                  ("inference_rounds", inference_rounds);
                  ("description", from_option VStr VNone description);
                  ("started_at", time_or_none started_at);
                  ("completed_at", time_or_none completed_at);
                  ("sql_error", error)])) VNone) as (m & Hm).
  rewrite Hm. effects. cbn [get]. effects.
  destruct (truthy _); effects; cbn [get]; effects; eexists; reflexivity.
Qed.

Lemma _on_failure_total
    (model_name input_tokens output_tokens agent_type : value)
    (started_at : option Z) (agent_operation inference_rounds : value)
    (description : option string) (completed_at : option Z) (e : exn) :
  exists m : gmap string value,
    outcome (_on_failure model_name input_tokens output_tokens agent_type
               started_at agent_operation inference_rounds description
               completed_at e) = Ok (VDict m).
Proof.
  unfold _on_failure. effects.
  destruct (_fallback_to_cosmos_total model_name input_tokens output_tokens
              agent_type started_at agent_operation inference_rounds
              description completed_at (VStr (str_exn e))) as (m & Hm).
  rewrite Hm. exists m. reflexivity.
Qed.

Lemma _validate_replies (model_name input_tokens output_tokens agent_type : value)
    (v : value) :
  outcome (_validate model_name input_tokens output_tokens agent_type)
    = Ok (Some v) ->
  exists m : gmap string value, v = VDict m.
Proof.
  unfold _validate.
  destruct (negb (truthy model_name) || negb (truthy agent_type)).
  - intros [= <-]. eexists. reflexivity.
  - effects. destruct (lt0 input_tokens) as [[|]|]; effects; try discriminate.
    + intros [= <-]. eexists. reflexivity.
    + destruct (lt0 output_tokens) as [[|]|]; effects; try discriminate.
      intros [= <-]. eexists. reflexivity.
Qed.

Lemma track_token_usage_total
    (model_name input_tokens output_tokens agent_type : value)
    (started_at : option Z) (agent_operation inference_rounds : value)
    (description : option string) (completed_at : option Z) :
  exists m : gmap string value,
    outcome (track_token_usage model_name input_tokens output_tokens
               agent_type started_at agent_operation inference_rounds
               description completed_at) = Ok (VDict m).
Proof.
  unfold track_token_usage. effects.
  destruct (outcome (_validate _ _ _ _)) as [[v|]|e] eqn:Hv; effects.
  - destruct (_validate_replies _ _ _ _ v Hv) as (m & ->). exists m. reflexivity.
  - destruct SessionLocal as [[sl|]|e]; effects.
    + destruct open_session as [s|e]; effects; [|apply _on_failure_total].
      unfold _write_record. effects.
      remember (_on_failure model_name input_tokens output_tokens agent_type
        started_at agent_operation inference_rounds (_truncate description)
        match completed_at with Some t => Some t | None => Some now end)
        as handler eqn:Hh.
      assert (Hhandler : forall e, exists m, outcome (handler e) = Ok (VDict m)).
      { intros e. subst handler. apply _on_failure_total. }
      destruct (add_and_commit _) as [id|e]; effects.
      * destruct (close_session 0) as [c|e]; effects; [eexists; reflexivity|].
        unfold _rollback_and_raise. effects.
        destruct rollback; effects; [|apply Hhandler].
        destruct (close_session 1); effects; apply Hhandler.
      * unfold _rollback_and_raise. effects.
        destruct rollback; effects; [|apply Hhandler].
        destruct (close_session 0); effects; apply Hhandler.
    + destruct (_fallback_to_cosmos_total model_name input_tokens output_tokens
        agent_type started_at agent_operation inference_rounds
        (_truncate description)
        match completed_at with Some t => Some t | None => Some now end VNone)
        as (m & Hm).
      rewrite Hm. exists m. reflexivity.
    + apply _on_failure_total.
  - destruct (_on_failure_total model_name input_tokens output_tokens agent_type
      started_at agent_operation inference_rounds description completed_at e)
      as (m & Hm).
    rewrite Hm. effects. exists m. reflexivity.
Qed.

(** X20: [track_token_usage] never raises: whatever the SQL database
    and Cosmos DB do, and whatever values it is given, it returns a
    mapping. *)
Theorem track_token_usage_never_raises
    (model_name input_tokens output_tokens agent_type : value)
    (started_at : option Z) (agent_operation inference_rounds : value)
    (description : option string) (completed_at : option Z) :
  exists m : gmap string value,
    outcome (track_token_usage model_name input_tokens output_tokens
               agent_type started_at agent_operation inference_rounds
               description completed_at) = Ok (VDict m).
Proof. apply track_token_usage_total. Qed.

End tracking_facts.

Section truncation_facts.
Import util_token_tracking.

Lemma py_take_len (n : nat) (s : string) :
  py_len (py_take n s) = Nat.min n (py_len s).
Proof.
  revert n. induction s as [|c s IH]; intros n; [destruct n; reflexivity|].
  cbn [py_take py_len]. destruct (is_continuation c) eqn:Hc.
  - cbn [py_len]. rewrite Hc. apply IH.
  - destruct n as [|n]; [reflexivity|].
    cbn [py_len]. rewrite Hc, IH. reflexivity.
Qed.

Lemma py_len_app (s t : string) :
  py_len (s ++ t) = (py_len s + py_len t)%nat.
Proof.
  induction s as [|c s IH]; [reflexivity|].
  change (py_len (String c (s ++ t)) = (py_len (String c s) + py_len t)%nat).
  cbn [py_len]. destruct (is_continuation c); rewrite IH; reflexivity.
Qed.

(** X21: the description [track_token_usage] stores is never longer than
    500 characters, counted as Python counts them, in code points: one of
    up to 500 characters is kept as it is, however many bytes it takes,
    and a longer one is cut to its first 497 characters followed by three
    dots. *)
Theorem description_is_bounded (s : string) :
  exists s' : string,
    _truncate (Some s) = Some s'
    /\ (py_len s' <= 500)%nat
    /\ ((py_len s <= 500)%nat -> s' = s)
    /\ ((500 < py_len s)%nat ->
        s' = py_take 497 s ++ "..." /\ py_len s' = 500%nat).
Proof.
  unfold _truncate.
  destruct (Nat.ltb_spec 500 (py_len s)) as [Hlong|Hshort].
  - assert (Hne : String.eqb s "" = false).
    { destruct s; [cbn in Hlong; lia | reflexivity]. }
    rewrite Hne. cbn [negb andb].
    assert (Hlen : py_len (py_take 497 s ++ "...") = 500%nat).
    { rewrite py_len_app, py_take_len.
      change (py_len "...") with 3%nat. lia. }
    eexists. split; [reflexivity|]. split; [lia|]. split; [lia|].
    intros _. split; [reflexivity | exact Hlen].
  - rewrite andb_false_r. eexists. split; [reflexivity|].
    split; [exact Hshort|]. split; [reflexivity | lia].
Qed.

End truncation_facts.

Section tracking_paths.
Import util_token_tracking.
Context `{Runtime} `{Cosmos} `{SqlStore}.

(** X22: [track_token_usage] rejects an empty or missing model name or
    agent type, and a negative token count, with an error reply and
    without logging or touching the SQL database or Cosmos DB. *)
Theorem invalid_usage_is_rejected
    (model_name input_tokens output_tokens agent_type : value)
    (started_at : option Z) (agent_operation inference_rounds : value)
    (description : option string) (completed_at : option Z) :
  (truthy model_name = false \/ truthy agent_type = false ->
   track_token_usage model_name input_tokens output_tokens agent_type
     started_at agent_operation inference_rounds description completed_at
   = ([], Ok (VDict (list_to_map
                [("success", VBool false);
                 ("error", VStr "model_name and agent_type are required")]))))
  /\ (forall i o : Z,
        truthy model_name = true -> truthy agent_type = true ->
        input_tokens = VInt i -> output_tokens = VInt o ->
        (i < 0)%Z \/ (o < 0)%Z ->
        track_token_usage model_name input_tokens output_tokens agent_type
          started_at agent_operation inference_rounds description completed_at
        = ([], Ok (VDict (list_to_map
                     [("success", VBool false);
                      ("error", VStr "Token counts cannot be negative")])))).
Proof.
  split.
  - intros Hfalsy. unfold track_token_usage, _validate.
    assert (Hc : negb (truthy model_name) || negb (truthy agent_type) = true).
    { destruct Hfalsy as [-> | ->]; [reflexivity | apply orb_true_r]. }
    rewrite Hc. reflexivity.
  - intros i o Hm Ha -> -> Hneg. unfold track_token_usage, _validate.
    rewrite Hm, Ha. cbn [negb orb lt0].
    destruct (Z.ltb_spec i 0) as [Hi|Hi]; [reflexivity|].
    destruct (Z.ltb_spec o 0) as [Ho|Ho]; [reflexivity|]. lia.
Qed.

(** X23: when the SQL write fails, [track_token_usage] rolls the session
    back and answers what the Cosmos DB fallback answers, given the
    truncated description, the completion time and the text of the SQL
    error. *)
Theorem sql_failure_falls_back_to_cosmos
    (model_name input_tokens output_tokens agent_type : value)
    (started_at : option Z) (agent_operation inference_rounds : value)
    (description : option string) (completed_at : option Z)
    (sl s r c : unit) (e : exn) :
  outcome (_validate model_name input_tokens output_tokens agent_type)
    = Ok None ->
  SessionLocal = Ok (Some sl) ->
  open_session = Ok s ->
  add_and_commit
    [agent_type; agent_operation; model_name; input_tokens; output_tokens;
     or_else inference_rounds (VInt 0);
     from_option VStr VNone (_truncate description);
     time_or_none started_at;
     time_or_none (Some (default now completed_at))] = Raise e ->
  rollback = Ok r ->
  close_session 0 = Ok c ->
  outcome (track_token_usage model_name input_tokens output_tokens agent_type
             started_at agent_operation inference_rounds description
             completed_at)
  = outcome (_fallback_to_cosmos model_name input_tokens output_tokens
               agent_type started_at agent_operation inference_rounds
               (_truncate description) (Some (default now completed_at))
               (VStr (str_exn e)))
  /\ calls_to "session.rollback"
       (trace (track_token_usage model_name input_tokens output_tokens
                 agent_type started_at agent_operation inference_rounds
                 description completed_at))
     <> [].
Proof.
  intros Hv Hsl Hs Hadd Hr Hc.
  assert (Hcompleted :
    match completed_at with Some t => Some t | None => Some now end
    = Some (default now completed_at)).
  { destruct completed_at; reflexivity. }
  unfold track_token_usage. rewrite Hcompleted.
  split.
  - effects. rewrite Hv. effects.
    rewrite Hsl. effects. rewrite Hs. effects.
    unfold _write_record. effects. rewrite Hadd. effects.
    unfold _rollback_and_raise. effects. rewrite Hr. effects.
    rewrite Hc. effects.
    unfold _on_failure. effects.
    destruct (_fallback_to_cosmos_total model_name input_tokens output_tokens
      agent_type started_at agent_operation inference_rounds
      (_truncate description) (Some (default now completed_at))
      (VStr (str_exn e))) as (m & Hm).
    rewrite Hm. reflexivity.
  - effects. rewrite Hv. effects.
    rewrite Hsl. effects. rewrite Hs. effects.
    unfold _write_record. effects. rewrite Hadd. effects.
    unfold _rollback_and_raise. effects.
    rewrite !calls_to_app. cbn [calls_to List.filter is_call String.eqb Ascii.eqb Bool.eqb].
    intros Heq. apply (f_equal (@length event)) in Heq.
    rewrite !length_app in Heq. cbn in Heq. lia.
Qed.

End tracking_paths.

(** X23 on a database whose commit fails, Cosmos DB taking the write. *)
Lemma sql_failure_falls_back_to_cosmos_witness :
  outcome (@util_token_tracking.track_token_usage fixture.runtime
             services.working_cosmos services.broken_sql
             (VStr "gpt-4o") (VInt 7) (VInt 5) (VStr "triage") (Some 0%Z)
             VNone (VInt 1) None None)
  = Ok (VDict (list_to_map
          [("success", VBool true);
           ("id", VStr "00000000-0000-4000-8000-000000000000");
           ("store", VStr "cosmos")])).
Proof.
  pose proof (@sql_failure_falls_back_to_cosmos fixture.runtime
                services.working_cosmos services.broken_sql
                (VStr "gpt-4o") (VInt 7) (VInt 5) (VStr "triage") (Some 0%Z)
                VNone (VInt 1) None None tt tt tt tt
                (Exception "OperationalError" "connection lost")
                eq_refl eq_refl eq_refl eq_refl eq_refl eq_refl) as [Hw _].
  rewrite Hw. vm_compute. reflexivity.
Defined.

Section tracking_composition.
Import util_token_tracking.
Context `{Runtime} `{Collaborators} `{Cosmos} `{SqlStore}.

(** X24: with [track_token_usage] as the telemetry collaborator,
    [_track_usage] on a response that carries usage makes the call and
    logs nothing of its own; and when the agent type of the step is empty
    or missing, the call is rejected and nothing is recorded. *)
Theorem real_telemetry_never_warns (r : AgentResponse) (u : TokenUsage)
    (a : value) (s : Z) :
  usage r = Some u ->
  trace (@_track_usage telemetry r a s)
  = Call "track_token_usage" (_track_args r u a s)
    :: trace (track_token_usage
                (or_else (model_name r) (VStr "unknown"))
                (prompt_tokens u) (completion_tokens u) a (Some s) VNone
                (inference_rounds r) None None)
  /\ (truthy a = false ->
      trace (@_track_usage telemetry r a s)
      = [Call "track_token_usage" (_track_args r u a s)]).
Proof.
  intros Hu.
  assert (Hcall : @activity_workflow.track_token_usage telemetry
                    (_track_args r u a s)
                  = track_token_usage
                      (or_else (model_name r) (VStr "unknown"))
                      (prompt_tokens u) (completion_tokens u) a (Some s) VNone
                      (inference_rounds r) None None) by reflexivity.
  assert (Htrace : trace (@_track_usage telemetry r a s)
    = Call "track_token_usage" (_track_args r u a s)
      :: trace (track_token_usage
                  (or_else (model_name r) (VStr "unknown"))
                  (prompt_tokens u) (completion_tokens u) a (Some s) VNone
                  (inference_rounds r) None None)).
  { rewrite _track_usage_trace, Hu, Hcall.
    destruct (track_token_usage_total
                (or_else (model_name r) (VStr "unknown"))
                (prompt_tokens u) (completion_tokens u) a (Some s) VNone
                (inference_rounds r) None None) as (m & Hm).
    rewrite Hm, app_nil_r. reflexivity. }
  split; [exact Htrace|].
  intros Ha. rewrite Htrace. f_equal.
  unfold track_token_usage, _validate. rewrite Ha, orb_true_r. reflexivity.
Qed.

End tracking_composition.

(** X24 on a step whose input names no agent type. *)
Lemma real_telemetry_never_warns_witness :
  trace (@_track_usage
           (@util_token_tracking.telemetry fixture.runtime
              services.working_cosmos services.broken_sql)
           services.metered_response VNone 0)
  = [Call "track_token_usage"
       [VStr "gpt-4o"; VInt 7; VInt 5; VNone; VInt 0; VInt 1]].
Proof.
  exact (proj2 (@real_telemetry_never_warns fixture.runtime
                  services.working_cosmos services.broken_sql
                  services.metered_response _ VNone 0 eq_refl) eq_refl).
Defined.

(** ** The Service Bus utilities and the webhook handler *)

Section bus_facts.
Import util_service_bus.
Context `{Runtime} `{ServiceBus}.

Lemma ensure_queue_exists_cases (queue_name : string) (verified : gset string) :
  outcome (ensure_queue_exists queue_name verified) = Ok (false, verified)
  \/ outcome (ensure_queue_exists queue_name verified)
     = Ok (true, {[queue_name]} ∪ verified).
Proof.
  unfold ensure_queue_exists.
  destruct (bool_decide (queue_name ∈ verified)) eqn:Hin.
  - right. apply bool_decide_eq_true in Hin.
    assert (Heq : {[queue_name]} ∪ verified = verified).
    { apply subseteq_union_1_L, singleton_subseteq_l, Hin. }
    rewrite Heq. reflexivity.
  - destruct not_configured; [left; reflexivity|]. effects.
    destruct open_admin_client as [a|e]; effects; [|left; reflexivity].
    destruct (get_queue queue_name) as [g|e]; effects; [right; reflexivity|].
    destruct (contains "not found" _ || contains "does not exist" _); effects;
      [|left; reflexivity].
    destruct (create_queue queue_name) as [c|e']; effects;
      [right; reflexivity | left; reflexivity].
Qed.

(** X25: [ensure_queue_exists] never raises, and the cache of verified
    queues only grows, by the queue asked for at most: an answer True
    leaves that queue in the cache, an answer False leaves the cache as
    it was. *)
Theorem ensure_queue_exists_keeps_cache (queue_name : string)
    (verified : gset string) :
  exists (answer : bool) (verified' : gset string),
    outcome (ensure_queue_exists queue_name verified) = Ok (answer, verified')
    /\ verified ⊆ verified'
    /\ (answer = true -> queue_name ∈ verified')
    /\ (answer = false -> verified' = verified)
    /\ verified' ⊆ {[queue_name]} ∪ verified.
Proof.
  destruct (ensure_queue_exists_cases queue_name verified) as [Hr|Hr];
    rewrite Hr; eexists _, _; (split; [reflexivity|]).
  - repeat split; [reflexivity | discriminate | apply union_subseteq_r].
  - repeat split;
      [apply union_subseteq_r
      | intros _; apply elem_of_union_l, elem_of_singleton; reflexivity
      | discriminate | reflexivity].
Qed.

(** X26: once [ensure_queue_exists] has answered True for a queue, the
    next call for it answers True from the cache, without logging and
    without calling the administration client. *)
Theorem ensure_queue_exists_second_call_is_free (queue_name : string)
    (verified verified' : gset string) :
  outcome (ensure_queue_exists queue_name verified) = Ok (true, verified') ->
  ensure_queue_exists queue_name verified' = ([], Ok (true, verified')).
Proof.
  intros Hfirst.
  assert (Hin : queue_name ∈ verified').
  { destruct (ensure_queue_exists_cases queue_name verified) as [Hr|Hr];
      rewrite Hr in Hfirst; [discriminate|].
    injection Hfirst as <-.
    apply elem_of_union_l, elem_of_singleton. reflexivity. }
  unfold ensure_queue_exists.
  rewrite bool_decide_eq_true_2 by exact Hin. reflexivity.
Qed.

Lemma _publish_total (queue_name : string) (message : value) :
  exists sent : bool,
    outcome (_publish queue_name message) = Ok sent
    /\ calls_only (trace (_publish queue_name message))
       = [Call "send_messages" [VStr queue_name; VStr (json_dumps message)]].
Proof.
  unfold _publish. effects.
  destruct (send_message _ _) as [u|e]; effects; eexists; split; reflexivity.
Qed.

Lemma ensure_queue_exists_sends_nothing (queue_name : string)
    (verified : gset string) :
  calls_to "send_messages" (trace (ensure_queue_exists queue_name verified))
  = [].
Proof.
  unfold ensure_queue_exists.
  destruct (bool_decide (queue_name ∈ verified)); [reflexivity|].
  destruct not_configured; [reflexivity|]. effects.
  destruct open_admin_client as [a|e]; effects; [|reflexivity].
  destruct (get_queue queue_name) as [g|e]; effects; [reflexivity|].
  destruct (contains "not found" _ || contains "does not exist" _); effects;
    [|reflexivity].
  destruct (create_queue queue_name) as [c|e']; effects; reflexivity.
Qed.

(** X27: [publish_to_service_bus] never raises; without a connection
    string it answers False and calls nothing, and when it is asked to
    ensure the queue and that fails it answers False and sends
    nothing. *)
Theorem publish_never_raises (queue_name : string) (message : value)
    (ensure_queue : bool) (verified : gset string) :
  exists (sent : bool) (verified' : gset string),
    outcome (publish_to_service_bus queue_name message ensure_queue verified)
      = Ok (sent, verified')
    /\ (not_configured = true ->
        sent = false
        /\ calls_only (trace (publish_to_service_bus queue_name message
                                ensure_queue verified)) = [])
    /\ (ensure_queue = true ->
        outcome (ensure_queue_exists queue_name verified)
          = Ok (false, verified) ->
        sent = false
        /\ calls_to "send_messages"
             (trace (publish_to_service_bus queue_name message ensure_queue
                       verified)) = []).
Proof.
  unfold publish_to_service_bus.
  destruct not_configured eqn:Hconf.
  - eexists _, _. split; [reflexivity|].
    split; [intros _; split; reflexivity|].
    intros _ _. split; reflexivity.
  - destruct ensure_queue.
    + destruct (ensure_queue_exists_cases queue_name verified) as [Hr|Hr].
      * eexists _, _. effects. rewrite Hr. effects.
        split; [reflexivity|]. split; [discriminate|].
        intros _ _. split; [reflexivity|].
        rewrite calls_to_app, ensure_queue_exists_sends_nothing. reflexivity.
      * destruct (_publish_total queue_name message) as (sent & Hs & _).
        eexists _, _. effects. rewrite Hr. effects. rewrite Hs. effects.
        split; [reflexivity|]. split; [discriminate|].
        intros _ Hfail. discriminate Hfail.
    + destruct (_publish_total queue_name message) as (sent & Hs & _).
      eexists _, _. effects. rewrite Hs. effects.
      split; [reflexivity|]. split; [discriminate|]. discriminate.
Qed.

End bus_facts.

(** X26 on a namespace in which the queue is created by the first call. *)
Lemma ensure_queue_exists_second_call_is_free_witness :
  @util_service_bus.ensure_queue_exists services.new_namespace "agent-tasks"
    ({["agent-tasks"]} ∪ ∅)
  = ([], Ok (true, {["agent-tasks"]} ∪ ∅)).
Proof.
  assert (Hfirst :
    outcome (@util_service_bus.ensure_queue_exists services.new_namespace
               "agent-tasks" ∅)
    = Ok (true, {["agent-tasks"]} ∪ ∅)).
  { unfold util_service_bus.ensure_queue_exists.
    rewrite bool_decide_eq_false_2 by apply not_elem_of_empty.
    reflexivity. }
  exact (@ensure_queue_exists_second_call_is_free services.new_namespace
           "agent-tasks" ∅ _ Hfirst).
Defined.

Section webhook_facts.
Import util_service_bus webhooks.
Context `{Runtime} `{ServiceBus}.

Lemma publish_total (queue_name : string) (message : value)
    (ensure_queue : bool) (verified : gset string) :
  exists (sent : bool) (verified' : gset string),
    outcome (publish_to_service_bus queue_name message ensure_queue verified)
      = Ok (sent, verified').
Proof.
  unfold publish_to_service_bus.
  destruct not_configured; [eexists _, _; reflexivity|].
  destruct ensure_queue.
  - destruct (ensure_queue_exists_cases queue_name verified) as [Hr|Hr];
      effects; rewrite Hr; effects; [eexists _, _; reflexivity|].
    destruct (_publish_total queue_name message) as (sent & Hs & _).
    rewrite Hs. effects. eexists _, _. reflexivity.
  - destruct (_publish_total queue_name message) as (sent & Hs & _).
    effects. rewrite Hs. effects. eexists _, _. reflexivity.
Qed.

(** X28: [webhook_handler] answers every request with status code 200,
    whatever the handler of the source and the Service Bus do, provided
    the handler, when it returns, returns a mapping. *)
Theorem webhook_handler_always_200 (config : gmap string WebhookSource)
    (req : HttpRequest) (verified : gset string) :
  (forall (c : WebhookSource) (body r : value),
     config !! lower (default "" (route_source req)) = Some c ->
     handler c body = Ok r -> isinstance_dict r = true) ->
  exists (resp : HttpResponse) (verified' : gset string),
    outcome (webhook_handler config req verified) = Ok (resp, verified')
    /\ status_code resp = 200%Z.
Proof.
  intros Hmapping. unfold webhook_handler. effects.
  destruct (config !! lower (default "" (route_source req))) as [c|] eqn:Hc;
    effects; [|eexists _, _; split; reflexivity].
  assert (Hrest : forall body : value,
    exists (resp : HttpResponse) (verified' : gset string),
      outcome
        (match handler c body with
         | Raise e =>
             _ ← log ERROR ("Error in "
                              ++ lower (default "" (route_source req))
                              ++ " webhook handler: " ++ str_exn e);
             mret (json_response
                     (VDict (list_to_map
                        [("status", VStr "error");
                         ("source",
                          VStr (lower (default "" (route_source req))));
                         ("message", VStr (str_exn e))])) 200,
                   verified)
         | Ok result =>
             success ← lift (get result "success" VNone);
             if negb (truthy success) then
               message ← lift (get result "error" (VStr "Unknown error"));
               mret (json_response
                       (VDict (list_to_map
                          [("status", VStr "error");
                           ("source",
                            VStr (lower (default "" (route_source req))));
                           ("message", message)])) 200,
                     verified)
             else
               message ← lift (get result "message" VNone);
               if negb (truthy message) then
                 mret (json_response
                         (VDict (list_to_map
                            [("status", VStr "ok");
                             ("source",
                              VStr (lower (default "" (route_source req))));
                             ("queued", VBool false)])) 200,
                       verified)
               else
                 '(success, verified) ←
                   publish_to_service_bus (queue c) message false verified;
                 mret (json_response
                         (VDict (list_to_map
                            [("status",
                              VStr (if success : bool then "processed"
                                    else "error"));
                             ("source",
                              VStr (lower (default "" (route_source req))));
                             ("queue", VStr (queue c));
                             ("queued", VBool success)])) 200,
                       verified)
         end) = Ok (resp, verified')
      /\ status_code resp = 200%Z).
  { intros body.
    destruct (handler c body) as [r|e] eqn:Hh; effects;
      [|eexists _, _; split; reflexivity].
    specialize (Hmapping c body r eq_refl Hh).
    destruct r as [| | | | | |m]; try discriminate Hmapping.
    cbn [get]. effects.
    destruct (truthy (default VNone (m !! "success"))); cbn [negb]; effects;
      [|eexists _, _; split; reflexivity].
    destruct (truthy (default VNone (m !! "message"))); cbn [negb]; effects;
      [|eexists _, _; split; reflexivity].
    destruct (publish_total (queue c) (default VNone (m !! "message")) false
                verified) as (sent & v' & Hp).
    rewrite Hp. effects. eexists _, _. split; reflexivity. }
  destruct (has_body req); effects.
  - destruct (get_json req) as [b|e]; effects; apply Hrest.
  - apply Hrest.
Qed.

End webhook_facts.

(** X28 on a source whose handler returns a mapping. *)
Lemma webhook_handler_always_200_witness :
  exists (resp : HttpResponse) (verified' : gset string),
    outcome (@webhooks.webhook_handler fixture.runtime services.new_namespace
               services.github_config services.github_request ∅)
      = Ok (resp, verified')
    /\ status_code resp = 200%Z.
Proof.
  apply (@webhook_handler_always_200 fixture.runtime services.new_namespace).
  intros c body r Hc Hh.
  unfold services.github_config, services.github_request in Hc.
  cbn [webhooks.route_source default from_option id
       util_service_bus.lower services.new_namespace] in Hc.
  rewrite lookup_singleton_eq in Hc. injection Hc as <-.
  cbn [webhooks.handler services.github_source] in Hh.
  injection Hh as <-. reflexivity.
Defined.

(** ** The instruction file and the start-up loop *)

Section prompt_facts.
Context `{Runtime} `{Collaborators} `{Telemetry}.

(** X29: when the agent type has no instruction file the step does not
    fail for that: a warning is logged, the backend is executed with the
    generic prompt built from the agent type, and its response is
    returned with the routing decision of its first response (or, when
    the parser raises something other than a [JSONDecodeError] on that
    first response, the error response with the text of the
    exception). *)
Theorem missing_instructions_do_not_fail (d : gmap string value)
    (b : AIBackend) (r0 : AgentResponse) (l : list value) :
  read_instructions (str (default VNone (d !! "agent_type")) ++ ".system.md")
    = Ok None ->
  get_backend = Ok b ->
  @execute b
     ("You are a " ++ str (default VNone (d !! "agent_type"))
        ++ " agent. Process the input and return a JSON response.")
     (_user_messages (default (VDict ∅) (d !! "payload"))) (VList [])
    = Ok (Some r0) ->
  responses r0 = VList l ->
  outcome (run_agent_workflow (VDict d))
  = Ok (asdict
          match head l ≫= parse_escape ∘ unwrap_raw with
          | Some e =>
              error_response (str_exn e) (default VNone (d !! "agent_type"))
          | None =>
              set_next_action
                (set_agent_type r0 (default VNone (d !! "agent_type")))
                (routing_decision (head l))
          end)
  /\ In (Log WARNING ("No system prompt found for agent: "
                        ++ str (default VNone (d !! "agent_type"))))
        (trace (run_agent_workflow (VDict d))).
Proof.
  intros Hread Hb He Hl.
  assert (Hprompt : _load_system_prompt (default VNone (d !! "agent_type"))
    = ([Log WARNING ("No system prompt found for agent: "
                       ++ str (default VNone (d !! "agent_type")))],
       Ok ("You are a " ++ str (default VNone (d !! "agent_type"))
             ++ " agent. Process the input and return a JSON response."))).
  { unfold _load_system_prompt. unfold mbind, M_bind, lift.
    rewrite Hread. reflexivity. }
  split.
  - rewrite run_agent_workflow_ok. f_equal.
    unfold _run_body. effects. cbn [wi_agent_type wi_payload].
    rewrite Hprompt. cbn [outcome snd]. rewrite Hb. effects. rewrite He. effects.
    rewrite (_determine_next_action_list _ _ l); [|exact Hl].
    destruct (head l ≫= parse_escape ∘ unwrap_raw) as [e|]; [reflexivity|].
    effects. rewrite _track_usage_outcome. effects.
    cbn [responses set_next_action set_agent_type]. rewrite Hl. cbn [len].
    effects. reflexivity.
  - unfold run_agent_workflow. cbn [get]. effects.
    cbn [wi_agent_type wi_payload].
    unfold _run_body. effects. cbn [wi_agent_type wi_payload].
    rewrite Hprompt. cbn [trace fst outcome snd].
    rewrite !in_app_iff. cbn [In]. do 3 right. do 3 left. reflexivity.
Qed.

End prompt_facts.

(** X29 on the triage request, no instruction file on disk. *)
Lemma missing_instructions_do_not_fail_witness :
  outcome (@run_agent_workflow fixture.runtime
             (fixture.collaborators (Ok scenario.routing_backend))
             fixture.failing_telemetry (VDict scenario.triage_request))
  = Ok (asdict (set_next_action
                  (set_agent_type scenario.routing_response (VStr "triage"))
                  (Some scenario.tasks_action))).
Proof.
  destruct (@missing_instructions_do_not_fail fixture.runtime
              (fixture.collaborators (Ok scenario.routing_backend))
              fixture.failing_telemetry scenario.triage_request
              scenario.routing_backend scenario.routing_response
              [VStr fixture.routing_text]
              eq_refl eq_refl eq_refl eq_refl) as [Hw _].
  vm_compute in Hw. vm_compute. exact Hw.
Defined.

Section startup_facts.
Import util_service_bus.
Context `{Runtime} `{ServiceBus}.

(** X30: the start-up loop over the required queues never raises, and
    the cache of verified queues it leaves holds the cache it started
    from and, besides, required queues only. *)
Theorem ensure_queues_grows_cache (queues : list string)
    (verified : gset string) :
  exists verified' : gset string,
    outcome (ensure_queues queues verified) = Ok verified'
    /\ verified ⊆ verified'
    /\ verified' ⊆ list_to_set queues ∪ verified.
Proof.
  revert verified. induction queues as [|q rest IH]; intros verified.
  - exists verified. split; [reflexivity|]. split; [reflexivity|].
    apply union_subseteq_r.
  - cbn [ensure_queues]. effects.
    destruct (ensure_queue_exists_cases q verified) as [Hr|Hr]; rewrite Hr;
      effects.
    + destruct (IH verified) as (v' & Hv & Hsub & Hsup).
      exists v'. split; [exact Hv|]. split; [exact Hsub|].
      intros x Hx. apply Hsup in Hx. cbn [list_to_set foldr].
      rewrite !elem_of_union in Hx. rewrite !elem_of_union. tauto.
    + destruct (IH ({[q]} ∪ verified)) as (v' & Hv & Hsub & Hsup).
      exists v'. split; [exact Hv|]. split.
      * intros x Hx. apply Hsub. apply elem_of_union_r. exact Hx.
      * intros x Hx. apply Hsup in Hx. cbn [list_to_set foldr].
        rewrite !elem_of_union in Hx. rewrite !elem_of_union. tauto.
Qed.

End startup_facts.

(** ** The conditional parts on concrete inputs *)

(** X7 on a message that is not JSON. *)
Lemma consumer_reraises_witness :
  run_consumer fixture.busy_client
    (@orchestrator_queue_consumer fixture.runtime "not json")
  = ([Log ERROR ("Failed to process orchestrator queue message: "
                   ++ "Expecting value: line 1 column 1 (char 0)")],
     Raise (Exception "JSONDecodeError"
              "Expecting value: line 1 column 1 (char 0)")).
Proof.
  assert (Hmsg : @json_loads fixture.runtime "not json"
                 = Raise (Exception "JSONDecodeError"
                            "Expecting value: line 1 column 1 (char 0)"))
    by (vm_compute; reflexivity).
  exact (proj1 (@consumer_reraises fixture.runtime fixture.busy_client
                  "not json") _ Hmsg).
Defined.

(** X16 on a deployment without Cosmos DB whose configuration is loaded
    by this call: nothing is called, and the two warnings of the
    configuration are all that is logged. *)
Lemma log_event_never_raises_witness :
  calls_only
    (trace (@log_event services.unconfigured_cosmos "agent-events"
              (VDict services.identified_event) VNone))
  = []
  /\ trace (@log_event services.unconfigured_cosmos "agent-events"
              (VDict services.identified_event) VNone)
     = [Log WARNING "SERVICE_BUS_CONNECTION_STRING not configured";
        Log WARNING
          "Database configuration incomplete - SQL operations will fail"].
Proof.
  destruct (@log_event_never_raises services.unconfigured_cosmos
              "agent-events" (VDict services.identified_event) VNone)
    as (m & _ & _ & Hn & _).
  assert (Hnone : outcome (@_get_database services.unconfigured_cosmos)
                  = Ok None) by (vm_compute; reflexivity).
  destruct (Hn Hnone) as (Ht & Hc & _).
  split; [exact Hc|]. rewrite Ht. vm_compute. reflexivity.
Defined.

(** X19 on a client that knows no instance. *)
Lemma status_endpoint_codes_witness :
  outcome (run_endpoint services.empty_client
             (@get_orchestration_status fixture.runtime (Some "order-42")))
  = Ok (@json_response fixture.runtime
          (VDict (list_to_map [("error", VStr "Instance not found")])) 404).
Proof.
  assert (Hne : "order-42" <> "") by discriminate.
  exact (proj1 (proj2 (proj2 (@status_endpoint_codes fixture.runtime
                                services.empty_client "order-42")))
           Hne eq_refl).
Defined.

(** X21 on a description of 300 accented letters, 600 bytes in UTF-8:
    it is stored as it is. *)
Lemma description_is_bounded_witness :
  util_token_tracking._truncate (Some services.accented_description)
  = Some services.accented_description.
Proof.
  destruct (description_is_bounded services.accented_description)
    as (s' & Ht & _ & Hshort & _).
  assert (Hlen : (py_len services.accented_description <= 500)%nat)
    by (apply Nat.leb_le; vm_compute; reflexivity).
  rewrite (Hshort Hlen) in Ht. exact Ht.
Defined.

(** A description of 501 letters is cut to 500 characters. *)
Example long_description_is_cut :
  py_len <$> util_token_tracking._truncate (Some services.long_description)
  = Some 500%nat.
Proof. vm_compute. reflexivity. Qed.

(** X22 on a negative prompt token count. *)
Lemma invalid_usage_is_rejected_witness :
  @util_token_tracking.track_token_usage fixture.runtime
    services.working_cosmos services.broken_sql
    (VStr "gpt-4o") (VInt (-1)) (VInt 5) (VStr "triage") None
    VNone (VInt 1) None None
  = ([], Ok (VDict (list_to_map
               [("success", VBool false);
                ("error", VStr "Token counts cannot be negative")]))).
Proof.
  apply (proj2 (@invalid_usage_is_rejected fixture.runtime
                  services.working_cosmos services.broken_sql
                  (VStr "gpt-4o") (VInt (-1)) (VInt 5) (VStr "triage") None
                  VNone (VInt 1) None None) (-1)%Z 5%Z);
    try reflexivity.
  left. reflexivity.
Defined.

(** X25 on a namespace in which the queue is created by the call. *)
Lemma ensure_queue_exists_keeps_cache_witness :
  exists verified' : gset string,
    outcome (@util_service_bus.ensure_queue_exists services.new_namespace
               "agent-tasks" ∅)
    = Ok (true, verified')
    /\ "agent-tasks" ∈ verified'.
Proof.
  destruct (@ensure_queue_exists_keeps_cache services.new_namespace
              "agent-tasks" ∅) as (a & v & Ho & _ & Ht & _).
  assert (Hfirst :
    outcome (@util_service_bus.ensure_queue_exists services.new_namespace
               "agent-tasks" ∅)
    = Ok (true, {["agent-tasks"]} ∪ ∅)).
  { unfold util_service_bus.ensure_queue_exists.
    rewrite bool_decide_eq_false_2 by apply not_elem_of_empty.
    reflexivity. }
  rewrite Hfirst in Ho. injection Ho as Ha Hv. subst a v.
  eexists. split; [exact Hfirst|]. apply Ht. reflexivity.
Defined.

(** X27 on a deployment without a connection string. *)
Lemma publish_never_raises_witness :
  exists (sent : bool) (verified' : gset string),
    outcome (@util_service_bus.publish_to_service_bus fixture.runtime
               services.unconfigured_namespace "agent-tasks"
               fixture.order_body true ∅)
    = Ok (sent, verified')
    /\ sent = false.
Proof.
  destruct (@publish_never_raises fixture.runtime
              services.unconfigured_namespace "agent-tasks"
              fixture.order_body true ∅) as (sent & v & Ho & Hn & _).
  exists sent, v. split; [exact Ho|]. apply Hn. reflexivity.
Defined.
